(** * docker-fullstack-lab: CRUD handlers, health probes and the PHP router

    A shallow embedding of request handlers of the lab's applications and of
    the code around them:

    - [Todos], [TodoTable]: react-node/backend (Express + node-postgres),
      [src/controllers/todo.controller.js], [src/routes/health.routes.js],
      [src/app.js], with the table declared in [src/config/db.js];
    - [TodoApp]: react-node/frontend, the page of [src/App.jsx] with
      [src/components/TodoForm.jsx], [src/components/TodoItem.jsx] and the
      client of [src/api/todoApi.js];
    - [Products], [ProductRules]: express-mongo (Express + Mongoose),
      [src/controllers/product.controller.js], [src/models/product.model.js],
      [src/routes/health.routes.js];
    - [Inventory], [Items]: springboot-gradle-postgres, [ItemController],
      [ItemService] and [GlobalExceptionHandler];
    - [PhpRouter], [PhpRoutes], [PhpIndex], [PhpHealth], [Students]:
      php-mysql, [src/Router.php], the route table and the reading of [.env]
      in [public/index.php], [HealthController], [Database] and the listing
      of [src/Models/Student.php];
    - [Users]: nestjs-postgres, [users.service.ts] and
      [users.controller.ts].

    A handler is a function from the store and the request to a response and
    the next store; the instant of the request and whatever else the
    environment decides (a generated id) are arguments.  What a handler leaves
    to the database server or to the framework (the evaluation of an SQL
    statement, the casts and validators a schema declares) is written out next
    to the call that relies on it.  Strings are sequences of code units below
    256. *)

From Stdlib Require Import ZArith QArith List String Ascii Bool Lia Permutation Sorted
  DecimalString.
Import ListNotations.

Local Open Scope string_scope.

(** ** JavaScript values and strings *)

Module Js.

(** Strings are sequences of code units below 256 (Rocq's [ascii]). *)

(** ECMAScript WhiteSpace and LineTerminator code units, as far as they lie
    below 256: TAB, LF, VT, FF, CR, SPACE and NBSP. *)
Definition isWhiteSpace (c : ascii) : bool :=
  let n := N_of_ascii c in
  (((9 <=? n) && (n <=? 13)) || (n =? 32) || (n =? 160))%N.

(** [String.prototype.trimStart] *)
Fixpoint trimStart (s : string) : string :=
  match s with
  | EmptyString => EmptyString
  | String c s' => if isWhiteSpace c then trimStart s' else s
  end.

(** [String.prototype.trimEnd] *)
Fixpoint trimEnd (s : string) : string :=
  match s with
  | EmptyString => EmptyString
  | String c s' =>
      match trimEnd s' with
      | EmptyString => if isWhiteSpace c then EmptyString else String c EmptyString
      | t => String c t
      end
  end.

(** [String.prototype.trim] *)
Definition trim (s : string) : string := trimEnd (trimStart s).

Definition startsWithWhiteSpace (s : string) : bool :=
  match s with
  | EmptyString => false
  | String c _ => isWhiteSpace c
  end.

Fixpoint endsWithWhiteSpace (s : string) : bool :=
  match s with
  | EmptyString => false
  | String c EmptyString => isWhiteSpace c
  | String _ s' => endsWithWhiteSpace s'
  end.

(** A string is trimmed when it neither starts nor ends with white space. *)
Definition trimmed (s : string) : Prop :=
  startsWithWhiteSpace s = false /\ endsWithWhiteSpace s = false.

(** The values a parsed JSON body can hold in a property, plus [undefined]
    for a property that is absent.  [Obj] stands for any object or array;
    [Num] carries an integer: the handlers only look at a number's type and
    truthiness. *)
Inductive value :=
| Undefined
| Null
| Bool (b : bool)
| Num (n : Z)
| Str (s : string)
| Obj.

(** ToBoolean *)
Definition truthy (v : value) : bool :=
  match v with
  | Undefined | Null => false
  | Bool b => b
  | Num n => negb (n =? 0)%Z
  | Str s => negb (s =? "")
  | Obj => true
  end.

(** The [typeof] operator *)
Definition typeof (v : value) : string :=
  match v with
  | Undefined => "undefined"
  | Null => "object"
  | Bool _ => "boolean"
  | Num _ => "number"
  | Str _ => "string"
  | Obj => "object"
  end.

End Js.

(** ** react-node/backend: the todos API *)

Module Todos.

Local Open Scope Z_scope.

(** A row of the table of [initDb]:
    [id SERIAL PRIMARY KEY, title VARCHAR(255) NOT NULL,
     completed BOOLEAN DEFAULT FALSE, created_at TIMESTAMP DEFAULT NOW(),
     updated_at TIMESTAMP DEFAULT NOW()].  Timestamps are instants on an
    integer time line. *)
Record todo := mkTodo {
  id : Z;
  title : string;
  completed : bool;
  created_at : Z;
  updated_at : Z;
}.

(** The database as the pool sees it: whether a connection can be had, the
    rows of [todos] in heap order and the next value of the id sequence. *)
Record db := mkDb {
  online : bool;
  rows : list todo;
  todos_id_seq : Z;
}.

(** The errors [pool.query] rejects with. *)
Inductive pg_error :=
| ConnectionFailure
| InvalidTextRepresentation (text : string)
| CharacterNotInRepertoire
| StringDataRightTruncation
| SequenceLimitExceeded.

(** What [pool.query] resolves to. *)
Record result := mkResult {
  rowCount : nat;
  res_rows : list todo;
}.

Inductive outcome (A : Type) :=
| Resolved (a : A)
| Rejected (e : pg_error).
Arguments Resolved {A} a.
Arguments Rejected {A} e.

(** Response bodies, one constructor per shape passed to [res.json]. *)
Inductive json :=
| ErrorBody (error : string)                     (* { error } *)
| MessageBody (message : string)                 (* { message } *)
| RowBody (row : option todo)                    (* result.rows[0] *)
| ListBody (count : nat) (todos : list todo)     (* { count, todos } *)
| HealthOk (status database : string) (timestamp : Z)
| HealthError (status database : string) (message : pg_error) (timestamp : Z)
| UnhandledError (err : pg_error).               (* the global error handler's body *)

Record response := mkResponse {
  status : Z;
  body : json;
}.

(** [res.json(b)] leaves the status at its default, 200. *)
Definition json_default (b : json) : response := mkResponse 200 b.

(** [next(err)]: the global error handler of [app.js] answers with
    [err.status || err.statusCode || 500]; errors of the driver carry
    neither. *)
Definition next (err : pg_error) : response := mkResponse 500 (UnhandledError err).

(** The request body after [express.json()]: the two properties the
    handlers destructure. *)
Record req_body := mkBody {
  body_title : Js.value;
  body_completed : Js.value;
}.

Definition VARCHAR_LIMIT : nat := 255.
Definition INT4_MAX : Z := 2147483647.

(** [ORDER BY created_at DESC].  The server promises no order among rows
    of equal [created_at]; the sort below is one of the orders it may give.
    What is proved of a listing holds of every such order (a permutation of
    the rows, newest first), or is stated for tables whose rows were created
    at different instants, where there is only one. *)
Fixpoint insert_desc (t : todo) (l : list todo) : list todo :=
  match l with
  | [] => [t]
  | h :: r => if created_at h <? created_at t then t :: l else h :: insert_desc t r
  end.

Definition order_by_created_at_desc (l : list todo) : list todo :=
  fold_right insert_desc [] l.

(** The assignments of a dynamically built [SET] clause; each carries the
    value bound to its placeholder. *)
Inductive assignment :=
| SetTitle (v : string)          (* title = $n *)
| SetCompleted (v : bool)        (* completed = $n *)
| SetUpdatedAtNow.               (* updated_at = NOW() *)

Definition assign (now : Z) (a : assignment) (t : todo) : todo :=
  match a with
  | SetTitle v => mkTodo (id t) v (completed t) (created_at t) (updated_at t)
  | SetCompleted v => mkTodo (id t) (title t) v (created_at t) (updated_at t)
  | SetUpdatedAtNow => mkTodo (id t) (title t) (completed t) (created_at t) now
  end.

Definition assign_all (now : Z) (fields : list assignment) (t : todo) : todo :=
  fold_left (fun t a => assign now a t) fields t.

(** The character NUL, which no text value of the server holds: a text
    parameter with it is refused when the parameters are bound. *)
Definition has_nul (v : string) : bool :=
  existsb (fun c => (N_of_ascii c =? 0)%N) (list_ascii_of_string v).

(** A [title = $n] whose value holds NUL *)
Definition holds_nul (a : assignment) : bool :=
  match a with
  | SetTitle v => has_nul v
  | _ => false
  end.

(** A [title = $n] whose value does not fit the column *)
Definition overlong (a : assignment) : bool :=
  match a with
  | SetTitle v => (VARCHAR_LIMIT <? String.length v)%nat
  | _ => false
  end.

Section WithServer.

(** The server's input conversion of a text parameter compared with the
    integer column [id]; [None] when the text is not an integer. *)
Variable int4_in : string -> option Z.

(** [SELECT * FROM todos ORDER BY created_at DESC] *)
Definition select_all (d : db) : outcome result :=
  if negb (online d) then Rejected ConnectionFailure
  else
    let rs := order_by_created_at_desc (rows d) in
    Resolved (mkResult (List.length rs) rs).

(** [INSERT INTO todos (title) VALUES ($1) RETURNING *].  The parameter is
    bound, then coerced to the column's length, then the row is formed with
    the next id of the sequence. *)
Definition insert (d : db) (now : Z) (v : string) : outcome result * db :=
  if negb (online d) then (Rejected ConnectionFailure, d)
  else if has_nul v then (Rejected CharacterNotInRepertoire, d)
  else if (VARCHAR_LIMIT <? String.length v)%nat then (Rejected StringDataRightTruncation, d)
  else if INT4_MAX <? todos_id_seq d then (Rejected SequenceLimitExceeded, d)
  else
    let t := mkTodo (todos_id_seq d) v false now now in
    (Resolved (mkResult 1 [t]),
     mkDb (online d) (rows d ++ [t])%list (todos_id_seq d + 1)).

(** [SELECT * FROM todos WHERE id = $1] *)
Definition select_by_id (d : db) (p : string) : outcome result :=
  if negb (online d) then Rejected ConnectionFailure
  else
    match int4_in p with
    | None => Rejected (InvalidTextRepresentation p)
    | Some k =>
        let rs := filter (fun t => id t =? k) (rows d) in
        Resolved (mkResult (List.length rs) rs)
    end.

(** [UPDATE todos SET <fields> WHERE id = $n RETURNING *].  The parameters
    are bound in order, the id last; the title is then coerced to the column's
    length, whether or not a row has the id. *)
Definition update (d : db) (now : Z) (fields : list assignment) (p : string)
  : outcome result * db :=
  if negb (online d) then (Rejected ConnectionFailure, d)
  else if existsb holds_nul fields then (Rejected CharacterNotInRepertoire, d)
  else
    match int4_in p with
    | None => (Rejected (InvalidTextRepresentation p), d)
    | Some k =>
        if existsb overlong fields then (Rejected StringDataRightTruncation, d)
        else
          let rs := map (assign_all now fields) (filter (fun t => id t =? k) (rows d)) in
          (Resolved (mkResult (List.length rs) rs),
           mkDb (online d)
                (map (fun t => if id t =? k then assign_all now fields t else t) (rows d))
                (todos_id_seq d))
    end.

(** [DELETE FROM todos WHERE id = $1] *)
Definition delete (d : db) (p : string) : outcome result * db :=
  if negb (online d) then (Rejected ConnectionFailure, d)
  else
    match int4_in p with
    | None => (Rejected (InvalidTextRepresentation p), d)
    | Some k =>
        (Resolved (mkResult (List.length (filter (fun t => id t =? k) (rows d))) []),
         mkDb (online d) (filter (fun t => negb (id t =? k)) (rows d)) (todos_id_seq d))
    end.

(** [SELECT 1] *)
Definition select_one (d : db) : outcome unit :=
  if negb (online d) then Rejected ConnectionFailure else Resolved tt.

(** *** The controller: [src/controllers/todo.controller.js] *)

(** [result.rows[0]]: [None] is JavaScript's [undefined]. *)
Definition first_row (r : result) : option todo := hd_error (res_rows r).

(** LIST  GET /todos *)
Definition listTodos (d : db) : response * db :=
  match select_all d with
  | Resolved result =>
      (json_default (ListBody (rowCount result) (res_rows result)), d)
  | Rejected err => (next err, d)
  end.

(** CREATE  POST /todos.  The guard is
    [!title || typeof title !== 'string' || title.trim() === '']; its last
    disjunct is only evaluated on a string. *)
Definition createTodo (d : db) (now : Z) (b : req_body) : response * db :=
  let title := body_title b in
  let bad_request :=
    mkResponse 400 (ErrorBody "title is required and must be a non-empty string") in
  if negb (Js.truthy title) || negb (Js.typeof title =? "string")%string
  then (bad_request, d)
  else
    match title with
    | Js.Str s =>
        if (Js.trim s =? "")%string then (bad_request, d)
        else
          match insert d now (Js.trim s) with
          | (Resolved result, d') => (mkResponse 201 (RowBody (first_row result)), d')
          | (Rejected err, d') => (next err, d')
          end
    | _ => (bad_request, d)
    end.

(** [Todo with id ${id} not found] *)
Definition not_found (p : string) : response :=
  mkResponse 404 (ErrorBody ("Todo with id " ++ p ++ " not found")).

(** GET ONE  GET /todos/:id *)
Definition getTodo (d : db) (p : string) : response * db :=
  match select_by_id d p with
  | Resolved result =>
      if (rowCount result =? 0)%nat then (not_found p, d)
      else (json_default (RowBody (first_row result)), d)
  | Rejected err => (next err, d)
  end.

(** The first block of [updateTodo]: what [title] adds to [fields], or the
    400 it returns. *)
Definition title_fields (title : Js.value) : response + list assignment :=
  match title with
  | Js.Undefined => inr []
  | Js.Str s =>
      if (Js.trim s =? "")%string
      then inl (mkResponse 400 (ErrorBody "title must be a non-empty string"))
      else inr [SetTitle (Js.trim s)]
  | _ => inl (mkResponse 400 (ErrorBody "title must be a non-empty string"))
  end.

(** The second block: what [completed] adds to [fields], or the 400. *)
Definition completed_fields (completed : Js.value) : response + list assignment :=
  match completed with
  | Js.Undefined => inr []
  | Js.Bool v => inr [SetCompleted v]
  | _ => inl (mkResponse 400 (ErrorBody "completed must be a boolean"))
  end.

(** UPDATE  PUT /todos/:id *)
Definition updateTodo (d : db) (now : Z) (p : string) (b : req_body) : response * db :=
  match title_fields (body_title b) with
  | inl bad => (bad, d)
  | inr from_title =>
      match completed_fields (body_completed b) with
      | inl bad => (bad, d)
      | inr from_completed =>
          let fields := (from_title ++ from_completed)%list in
          if (List.length fields =? 0)%nat
          then (mkResponse 400
                  (ErrorBody "Provide at least one field to update: title or completed"), d)
          else
            match update d now (fields ++ [SetUpdatedAtNow])%list p with
            | (Resolved result, d') =>
                if (rowCount result =? 0)%nat then (not_found p, d')
                else (json_default (RowBody (first_row result)), d')
            | (Rejected err, d') => (next err, d')
            end
      end
  end.

(** DELETE  DELETE /todos/:id.
    "Idempotent: return success even if the row did not exist." *)
Definition deleteTodo (d : db) (p : string) : response * db :=
  match delete d p with
  | (Resolved _, d') => (json_default (MessageBody "Todo deleted"), d')
  | (Rejected err, d') => (next err, d')
  end.

(** *** The probe: [src/routes/health.routes.js] *)

Definition health (d : db) (now : Z) : response * db :=
  match select_one d with
  | Resolved _ => (json_default (HealthOk "ok" "ok" now), d)
  | Rejected err => (mkResponse 503 (HealthError "error" "unreachable" err now), d)
  end.

(** *** The routes of [src/routes/todo.routes.js] and [src/app.js] *)

Inductive request :=
| GET_todos                                       (* GET    /api/v1/todos *)
| POST_todos (b : req_body)                       (* POST   /api/v1/todos *)
| GET_todo (p : string)                           (* GET    /api/v1/todos/:id *)
| PUT_todo (p : string) (b : req_body)            (* PUT    /api/v1/todos/:id *)
| DELETE_todo (p : string)                        (* DELETE /api/v1/todos/:id *)
| GET_health.                                     (* GET    /health *)

Definition handle (d : db) (now : Z) (r : request) : response * db :=
  match r with
  | GET_todos => listTodos d
  | POST_todos b => createTodo d now b
  | GET_todo p => getTodo d p
  | PUT_todo p b => updateTodo d now p b
  | DELETE_todo p => deleteTodo d p
  | GET_health => health d now
  end.

(** The table right after [initDb] created it. *)
Definition fresh (o : bool) : db := mkDb o [] 1.

(** The states the service passes through: requests are served at arbitrary
    instants and the connection comes and goes in between. *)
Inductive reachable : db -> Prop :=
| reachable_fresh : forall o, reachable (fresh o)
| reachable_request : forall d now r,
    reachable d -> reachable (snd (handle d now r))
| reachable_connection : forall d o,
    reachable d -> reachable (mkDb o (rows d) (todos_id_seq d)).

End WithServer.

(** An instance of [int4_in] for the examples.  It reads a non-empty run of
    decimal digits within the range of the type, as the server does; a sign
    or white space around the digits, which the server reads too, it refuses,
    and the examples use no such text. *)
Fixpoint digits (s : string) (acc : Z) : option Z :=
  match s with
  | EmptyString => Some acc
  | String c s' =>
      let n := Z.of_N (N_of_ascii c) in
      if (48 <=? n) && (n <=? 57) then digits s' (10 * acc + (n - 48)) else None
  end.

Definition decimal (s : string) : option Z :=
  match s with
  | EmptyString => None
  | _ => match digits s 0 with
         | Some k => if k <=? INT4_MAX then Some k else None
         | None => None
         end
  end.

(** The table after one todo was posted to a fresh table, with the title
    [" a "], at instant 0. *)
Definition sample : db :=
  snd (createTodo (fresh true) 0 (mkBody (Js.Str " a ") Js.Undefined)).

(** Its one row *)
Definition sample_row : todo := mkTodo 1 "a" false 0 0.

(** *** Predicates on tables and responses *)

(** Every id in the table was drawn from the sequence. *)
Definition ids_below (d : db) : Prop :=
  Forall (fun t => id t < todos_id_seq d) (rows d).

(** The primary key *)
Definition unique_ids (d : db) : Prop := NoDup (map id (rows d)).

Definition titles_trimmed (d : db) : Prop :=
  Forall (fun t => Js.trimmed (title t)) (rows d).

(** Newest first *)
Definition newest_first (l : list todo) : Prop :=
  StronglySorted (fun a b => created_at b <= created_at a) l.

(** No row of the table has the id [k]. *)
Definition absent (k : Z) (d : db) : Prop :=
  forall t, In t (rows d) -> id t <> k.

(** The rows a response body shows. *)
Definition body_todos (b : json) : list todo :=
  match b with
  | RowBody (Some t) => [t]
  | ListBody _ l => l
  | _ => []
  end.



(** A body that passes the checks of [updateTodo] and whose title, if any,
    the column can hold. *)
Definition accepted_update (b : req_body) : bool :=
  match title_fields (body_title b), completed_fields (body_completed b) with
  | inr from_title, inr from_completed =>
      negb (List.length (from_title ++ from_completed) =? 0)%nat
      && negb (existsb holds_nul from_title)
      && negb (existsb overlong from_title)
  | _, _ => false
  end.

(** The message [msg] contains the field's name. *)
Definition names_field (field msg : string) : Prop :=
  exists pre post, msg = (pre ++ field ++ post)%string.

End Todos.

(** ** express-mongo: the products API *)

Module Products.

Local Open Scope Z_scope.

(** A document of the collection behind [productSchema] of
    [src/models/product.model.js]; [createdAt] and [updatedAt] come from
    [timestamps: true].  Numbers are carried as integers: the handlers only
    compare a price with zero. *)
Record product := mkProduct {
  _id : N;
  name : string;
  description : string;
  price : Z;
  category : string;
  inStock : bool;
  createdAt : Z;
  updatedAt : Z;
}.

(** The Mongoose connection and the collection in natural order. *)
Record store := mkStore {
  readyState : Z;
  products : list product;
}.

(** What a model operation rejects with.  A [ValidationError] carries its
    heading and one message per failing path. *)
Inductive error :=
| CastError (value : string)
| ValidationError (heading : string) (errors : list (string * string))
| MongoServerError
| MongooseError.

(** [err.name] *)
Definition error_name (err : error) : string :=
  match err with
  | CastError _ => "CastError"
  | ValidationError _ _ => "ValidationError"
  | MongoServerError => "MongoServerError"
  | MongooseError => "MongooseError"
  end.

(** [path: message, path: message, ...] *)
Fixpoint join_errors (errors : list (string * string)) : string :=
  match errors with
  | [] => ""
  | [(path, msg)] => path ++ ": " ++ msg
  | (path, msg) :: rest => path ++ ": " ++ msg ++ ", " ++ join_errors rest
  end.

(** [err.message], for the one class of errors whose message reaches a
    response; the others' is left empty. *)
Definition error_message (err : error) : string :=
  match err with
  | ValidationError heading errors => heading ++ ": " ++ join_errors errors
  | _ => ""
  end.

Inductive outcome (A : Type) :=
| Resolved (a : A)
| Rejected (e : error).
Arguments Resolved {A} a.
Arguments Rejected {A} e.

Inductive json :=
| ErrorBody (error : string)                             (* { error } *)
| MessageBody (message : string)                         (* { message } *)
| ProductBody (p : product)                              (* a document *)
| ListBody (count : nat) (products : list product)       (* { count, products } *)
| HealthBody (status database : string) (timestamp : Z). (* { status, database, timestamp } *)

Record response := mkResponse {
  status : Z;
  body : json;
}.

(** The [filter] object of [listProducts]: its one possible property. *)
Record filter_object := mkFilter {
  filter_category : option string;
}.

(** The body of a create or update request that holds only properties of
    the schema, in the schema's order and with values of the types the schema
    declares for them; [None] is an absent property.  Bodies that carry
    anything else (an update operator such as [$inc], a value Mongoose would
    have to cast) are outside the model. *)
Record input := mkInput {
  in_name : option string;
  in_description : option string;
  in_price : option Z;
  in_category : option string;
  in_inStock : option bool;
}.

(** *** The schema: [productSchema] *)

(** [enum.values] of [category] *)
Definition categories : list string :=
  ["electronics"; "clothing"; "books"; "food"; "other"].

(** [name]: [required] and [maxlength], on the value the [trim] setter
    produced; the first failing validator of a path reports. *)
Definition check_name (v : string) : list (string * string) :=
  if (v =? "")%string then [("name", "Product name is required")]%string
  else if (200 <? String.length v)%nat
       then [("name", "Product name cannot exceed 200 characters")]%string
       else [].

(** [price]: [min] *)
Definition check_price (v : Z) : list (string * string) :=
  if v <? 0 then [("price", "Price cannot be negative")]%string else [].

(** [category]: [enum], with [{VALUE}] filled in *)
Definition check_category (v : string) : list (string * string) :=
  if existsb (String.eqb v) categories then []
  else [("category", v ++ " is not a supported category")]%string.

(** Validation of a new document: the two required paths must be there.
    Mongoose validates the required paths the body lacks first, the one
    declared last before the other, and then the paths the body sets, in
    their order; the errors keep the order of validation. *)
Definition validate_new (b : input) : list (string * string) :=
  ((match in_price b with
    | Some _ => []
    | None => [("price", "Product price is required")]%string
    end)
   ++ (match in_name b with
       | Some _ => []
       | None => [("name", "Product name is required")]%string
       end)
   ++ (match in_name b with Some v => check_name (Js.trim v) | None => [] end)
   ++ (match in_price b with Some v => check_price v | None => [] end)
   ++ (match in_category b with Some v => check_category (Js.trim v) | None => [] end))%list.

(** Update validators ([runValidators: true]) look at the paths the update
    sets; the cast of the update collects them from the last property of the
    body to the first, and the errors keep that order. *)
Definition validate_update (b : input) : list (string * string) :=
  ((match in_category b with Some v => check_category (Js.trim v) | None => [] end)
   ++ (match in_price b with Some v => check_price v | None => [] end)
   ++ (match in_name b with Some v => check_name (Js.trim v) | None => [] end))%list.

(** The document [new Product(b)] builds: setters ([trim]) and defaults
    applied.  It is only saved when [validate_new] passed, so that the two
    required paths are there. *)
Definition new_document (oid : N) (now : Z) (b : input) : product :=
  mkProduct oid
    (match in_name b with Some v => Js.trim v | None => "" end)
    (match in_description b with Some v => Js.trim v | None => "" end)
    (match in_price b with Some v => v | None => 0 end)
    (match in_category b with Some v => Js.trim v | None => "other" end)
    (match in_inStock b with Some v => v | None => true end)
    now now.

(** The document after the update [b] was cast and applied at [now]. *)
Definition updated_document (now : Z) (b : input) (p : product) : product :=
  mkProduct (_id p)
    (match in_name b with Some v => Js.trim v | None => name p end)
    (match in_description b with Some v => Js.trim v | None => description p end)
    (match in_price b with Some v => v | None => price p end)
    (match in_category b with Some v => Js.trim v | None => category p end)
    (match in_inStock b with Some v => v | None => inStock p end)
    (createdAt p) now.

(** [Product.create(b)]; [oid] is the ObjectId generated for the document.
    Validation runs before the document is sent to the server. *)
Definition create (s : store) (now : Z) (oid : N) (b : input) : outcome product * store :=
  match validate_new b with
  | (_ :: _) as errors =>
      (Rejected (ValidationError "Product validation failed" errors), s)
  | [] =>
      if negb (readyState s =? 1) then (Rejected MongooseError, s)
      else if existsb (fun p => (_id p =? oid)%N) (products s)
           then (Rejected MongoServerError, s)
           else
             let product := new_document oid now b in
             (Resolved product, mkStore (readyState s) (products s ++ [product])%list)
  end.

(** Replacement of the first document with the given [_id]. *)
Fixpoint update_first (oid : N) (f : product -> product) (l : list product)
  : list product :=
  match l with
  | [] => []
  | p :: r => if (_id p =? oid)%N then f p :: r else p :: update_first oid f r
  end.

Section WithMongoose.

(** Mongoose's cast of a route parameter to an ObjectId; [None] when it
    throws. *)
Variable castObjectId : string -> option N.

(** [Product.find(filter)].  Casting a filter value runs the setters of its
    path, for [category] the [trim] of the schema.  An operation issued while
    the connection is not in state 1 is buffered; the model takes the state
    to outlast the buffer, so the operation rejects. *)
Definition find (s : store) (f : filter_object) : outcome (list product) :=
  if negb (readyState s =? 1) then Rejected MongooseError
  else
    match filter_category f with
    | None => Resolved (products s)
    | Some v =>
        Resolved (List.filter (fun p => (category p =? Js.trim v)%string) (products s))
    end.

(** [Product.findById(id)] *)
Definition findById (s : store) (id : string) : outcome (option product) :=
  match castObjectId id with
  | None => Rejected (CastError id)
  | Some oid =>
      if negb (readyState s =? 1) then Rejected MongooseError
      else Resolved (List.find (fun p => (_id p =? oid)%N) (products s))
  end.

(** Removal of the first document with the given [_id]. *)
Fixpoint remove_first (oid : N) (l : list product) : list product :=
  match l with
  | [] => []
  | p :: r => if (_id p =? oid)%N then r else p :: remove_first oid r
  end.

(** [Product.findByIdAndDelete(id)] *)
Definition findByIdAndDelete (s : store) (id : string) : outcome (option product) * store :=
  match castObjectId id with
  | None => (Rejected (CastError id), s)
  | Some oid =>
      if negb (readyState s =? 1) then (Rejected MongooseError, s)
      else
        (Resolved (List.find (fun p => (_id p =? oid)%N) (products s)),
         mkStore (readyState s) (remove_first oid (products s)))
  end.

(** [Product.findByIdAndUpdate(id, b, { new: true, runValidators: true })] *)
Definition findByIdAndUpdate (s : store) (now : Z) (id : string) (b : input)
  : outcome (option product) * store :=
  match castObjectId id with
  | None => (Rejected (CastError id), s)
  | Some oid =>
      match validate_update b with
      | (_ :: _) as errors => (Rejected (ValidationError "Validation failed" errors), s)
      | [] =>
          if negb (readyState s =? 1) then (Rejected MongooseError, s)
          else
            (Resolved (option_map (updated_document now b)
                         (List.find (fun p => (_id p =? oid)%N) (products s))),
             mkStore (readyState s)
                     (update_first oid (updated_document now b) (products s)))
      end
  end.

(** *** The controller: [src/controllers/product.controller.js] *)

Definition isCastError (err : error) : bool := (error_name err =? "CastError")%string.

(** [listProducts]; [q] is [req.query.category], [None] when the parameter is
    absent.  [if (req.query.category)] tests the string's truthiness. *)
Definition listProducts (s : store) (q : option string) : response * store :=
  let filter :=
    match q with
    | Some v => if Js.truthy (Js.Str v) then mkFilter (Some v) else mkFilter None
    | None => mkFilter None
    end in
  match find s filter with
  | Resolved products => (mkResponse 200 (ListBody (List.length products) products), s)
  | Rejected _ => (mkResponse 500 (ErrorBody "Server error while fetching products"), s)
  end.

(** [createProduct] *)
Definition createProduct (s : store) (now : Z) (oid : N) (b : input) : response * store :=
  match create s now oid b with
  | (Resolved product, s') => (mkResponse 201 (ProductBody product), s')
  | (Rejected err, s') =>
      if (error_name err =? "ValidationError")%string
      then (mkResponse 400 (ErrorBody (error_message err)), s')
      else (mkResponse 500 (ErrorBody "Server error while creating product"), s')
  end.

(** [getProduct] *)
Definition getProduct (s : store) (id : string) : response * store :=
  match findById s id with
  | Resolved None => (mkResponse 404 (ErrorBody "Product not found"), s)
  | Resolved (Some product) => (mkResponse 200 (ProductBody product), s)
  | Rejected err =>
      if isCastError err then (mkResponse 400 (ErrorBody "Invalid product ID format"), s)
      else (mkResponse 500 (ErrorBody "Server error while fetching product"), s)
  end.

(** [updateProduct] *)
Definition updateProduct (s : store) (now : Z) (id : string) (b : input)
  : response * store :=
  match findByIdAndUpdate s now id b with
  | (Resolved None, s') => (mkResponse 404 (ErrorBody "Product not found"), s')
  | (Resolved (Some product), s') => (mkResponse 200 (ProductBody product), s')
  | (Rejected err, s') =>
      if isCastError err then (mkResponse 400 (ErrorBody "Invalid product ID format"), s')
      else if (error_name err =? "ValidationError")%string
           then (mkResponse 400 (ErrorBody (error_message err)), s')
           else (mkResponse 500 (ErrorBody "Server error while updating product"), s')
  end.

(** [deleteProduct] *)
Definition deleteProduct (s : store) (id : string) : response * store :=
  match findByIdAndDelete s id with
  | (Resolved None, s') => (mkResponse 404 (ErrorBody "Product not found"), s')
  | (Resolved (Some _), s') => (mkResponse 200 (MessageBody "Product deleted"), s')
  | (Rejected err, s') =>
      if isCastError err then (mkResponse 400 (ErrorBody "Invalid product ID format"), s')
      else (mkResponse 500 (ErrorBody "Server error while deleting product"), s')
  end.

(** *** The routes of [src/routes/product.routes.js] *)

Inductive request :=
| GET_products (q : option string)            (* GET    /api/v1/products *)
| POST_products (b : input)                   (* POST   /api/v1/products *)
| GET_product (id : string)                   (* GET    /api/v1/products/:id *)
| PUT_product (id : string) (b : input)       (* PUT    /api/v1/products/:id *)
| DELETE_product (id : string).               (* DELETE /api/v1/products/:id *)

(** A request served at [now]; [oid] is the ObjectId a create would use. *)
Definition handle (s : store) (now : Z) (oid : N) (r : request) : response * store :=
  match r with
  | GET_products q => listProducts s q
  | POST_products b => createProduct s now oid b
  | GET_product id => getProduct s id
  | PUT_product id b => updateProduct s now id b
  | DELETE_product id => deleteProduct s id
  end.

(** The states the service passes through, from an empty collection. *)
Inductive reachable : store -> Prop :=
| reachable_empty : forall rs, reachable (mkStore rs [])
| reachable_request : forall s now oid r,
    reachable s -> reachable (snd (handle s now oid r))
| reachable_connection : forall s rs,
    reachable s -> reachable (mkStore rs (products s)).

End WithMongoose.

(** *** The probe: [src/routes/health.routes.js] *)

Definition health (s : store) (now : Z) : response :=
  let isDbConnected := readyState s =? 1 in
  if negb isDbConnected
  then mkResponse 500 (HealthBody "error" "unavailable" now)
  else mkResponse 200 (HealthBody "ok" "ok" now).

(** A cast that accepts exactly the strings of 24 hexadecimal digits, for
    the examples. *)
Definition hex_digit (c : ascii) : option N :=
  let n := N_of_ascii c in
  (if (48 <=? n) && (n <=? 57) then Some (n - 48)
   else if (97 <=? n) && (n <=? 102) then Some (n - 87)
   else if (65 <=? n) && (n <=? 70) then Some (n - 55)
   else None)%N.

Fixpoint hex (s : string) (acc : N) : option N :=
  match s with
  | EmptyString => Some acc
  | String c s' =>
      match hex_digit c with
      | Some h => hex s' (16 * acc + h)%N
      | None => None
      end
  end.

Definition hex24 (s : string) : option N :=
  if (String.length s =? 24)%nat then hex s 0%N else None.

(** The collection after one product was posted to the empty one at
    instant 0. *)
Definition book_input : input :=
  mkInput (Some " SICP ") None (Some 40) (Some "books") None.

Definition book : product :=
  mkProduct 0x507f1f77bcf86cd799439011%N "SICP" "" 40 "books" true 0 0.

Definition sample_store : store :=
  snd (createProduct (mkStore 1 []) 0 0x507f1f77bcf86cd799439011%N book_input).

(** *** Predicates on collections and responses *)

(** MongoDB's unique index on [_id] *)
Definition unique_ids (s : store) : Prop := NoDup (map _id (products s)).

(** No document of the collection has the id [oid]. *)
Definition absent (oid : N) (s : store) : Prop :=
  forall p, In p (products s) -> _id p <> oid.

Definition names_trimmed (s : store) : Prop :=
  Forall (fun p => Js.trimmed (name p)) (products s).

(** An update body that passes the update validators. *)
Definition accepted_update (b : input) : bool :=
  match validate_update b with
  | [] => true
  | _ => false
  end.

(** The message [msg] contains the field's name. *)
Definition names_field (field msg : string) : Prop :=
  exists pre post, msg = (pre ++ field ++ post)%string.

(** The documents a response body shows. *)
Definition body_products (b : json) : list product :=
  match b with
  | ProductBody p => [p]
  | ListBody _ l => l
  | _ => []
  end.

End Products.

(** ** springboot-gradle-postgres: the inventory API *)

Module Inventory.

Local Open Scope Z_scope.

(** [model/Item.java]; [None] is Java's [null].  The decimal [price] is
    carried as a rational. *)
Record Item := mkItem {
  id : option Z;
  name : option string;
  description : option string;
  price : option Q;
  quantity : option Z;
  warehouse : option string;
  available : bool;
  createdAt : option Z;
  updatedAt : option Z;
}.

(** The table [items] and whether the database answers. *)
Record db := mkDb {
  up : bool;
  items : list Item;
}.

(** [org.springframework.validation.FieldError], as far as the handler reads
    it *)
Record FieldError := mkFieldError {
  getField : string;
  getDefaultMessage : option string;
}.

(** The exceptions the advice tells apart. *)
Inductive exception :=
| MethodArgumentNotValidException (fieldErrors : list FieldError)
| ResourceNotFoundException (message : string)
| OtherException (message : option string).

(** A [Map<String, String>], as the list of its entries. *)
Definition map := list (string * string).

Fixpoint get (m : map) (key : string) : option string :=
  match m with
  | [] => None
  | (k, v) :: rest => if (k =? key)%string then Some v else get rest key
  end.

(** [Map.merge(key, value, (first, second) -> first)] *)
Definition merge_first (m : map) (key value : string) : map :=
  match get m key with
  | Some _ => m
  | None => (m ++ [(key, value)])%list
  end.

(** The error body, a [LinkedHashMap] with the keys [timestamp], [status],
    [error], and [message] and [fieldErrors] when they were put. *)
Record error_body := mkErrorBody {
  timestamp : Z;
  status_value : Z;
  error : string;
  message : option string;
  fieldErrors : option map;
}.

Inductive body :=
| ItemList (l : list Item)
| ItemBody (i : Item)
| ErrorBody (b : error_body)
| NoBody.

Record response := mkResponse {
  status : Z;
  content : body;
}.

(** *** Bean Validation, from the annotations of [Item] *)

(** The order in which violations are reported is not specified; the model
    lists them in the order of the fields. *)

(** [String.trim().length() > 0] fails: every character is at most U+0020. *)
Definition blank (v : string) : bool :=
  forallb (fun c => (N_of_ascii c <=? 32)%N) (list_ascii_of_string v).

Definition validate (item : Item) : list FieldError :=
  ((match name item with
    | None => [mkFieldError "name" (Some "Item name must not be blank")]      (* @NotBlank *)
    | Some v =>
        (if blank v
         then [mkFieldError "name" (Some "Item name must not be blank")]
         else [])
        ++ (if (200 <? String.length v)%nat                                     (* @Size *)
            then [mkFieldError "name" (Some "Item name must not exceed 200 characters")]
            else [])
    end)
   ++ (match price item with                                                    (* @DecimalMin *)
       | Some v => if Qle_bool 0 v then []
                   else [mkFieldError "price" (Some "Price must be zero or positive")]
       | None => []
       end)
   ++ (match quantity item with                                                 (* @Min *)
       | Some v => if v <? 0
                   then [mkFieldError "quantity" (Some "Quantity must be zero or positive")]
                   else []
       | None => []
       end))%list.

(** *** [exception/GlobalExceptionHandler.java] *)

Definition buildErrorBody (now : Z) (status : Z) (error : string) (detail : option string)
  : error_body :=
  mkErrorBody now status error detail None.

Definition buildResponse (now : Z) (status : Z) (error : string) (detail : option string)
  : response :=
  mkResponse status (ErrorBody (buildErrorBody now status error detail)).

Definition handleResourceNotFound (now : Z) (message : string) : response :=
  buildResponse now 404 message None.

(** [Collectors.toMap(FieldError::getField, <message or "Invalid value">,
    (first, second) -> first)] *)
Definition toMap (errors : list FieldError) : map :=
  fold_left
    (fun m fe =>
       merge_first m (getField fe)
         (match getDefaultMessage fe with
          | Some msg => msg
          | None => "Invalid value"
          end))
    errors [].

Definition handleValidation (now : Z) (errors : list FieldError) : response :=
  let fieldErrors := toMap errors in
  let body := buildErrorBody now 400 "Validation failed"
                (Some "One or more fields have invalid values") in
  mkResponse 400
    (ErrorBody (mkErrorBody (timestamp body) (status_value body) (error body)
                  (message body) (Some fieldErrors))).

Definition handleGeneric (now : Z) (message : option string) : response :=
  buildResponse now 500 "An unexpected error occurred" message.

(** [@RestControllerAdvice]: the handler of the exception's class *)
Definition advice (now : Z) (ex : exception) : response :=
  match ex with
  | ResourceNotFoundException message => handleResourceNotFound now message
  | MethodArgumentNotValidException errors => handleValidation now errors
  | OtherException message => handleGeneric now message
  end.

(** *** [repository/ItemRepository.java], [service/ItemService.java] *)

(** [findAll] *)
Definition findAll (d : db) : exception + list Item :=
  if up d then inr (items d) else inl (OtherException None).

(** [findByWarehouse]: [SELECT i FROM Item i WHERE i.warehouse = :warehouse] *)
Definition findByWarehouse (d : db) (w : string) : exception + list Item :=
  if up d
  then inr (filter (fun i => match warehouse i with
                             | Some x => (x =? w)%string
                             | None => false
                             end) (items d))
  else inl (OtherException None).

(** *** [controller/ItemController.java] *)

(** [Character.isWhitespace], below 256 *)
Definition isWhitespace (c : ascii) : bool :=
  let n := N_of_ascii c in
  (((9 <=? n) && (n <=? 13)) || ((28 <=? n) && (n <=? 32)))%N.

(** [String.isBlank] *)
Definition isBlank (v : string) : bool :=
  forallb isWhitespace (list_ascii_of_string v).

(** [listItems]; [w] is the request parameter, [None] when it is absent. *)
Definition listItems (d : db) (now : Z) (w : option string) : response :=
  let found :=
    match w with
    | Some v => if negb (isBlank v) then findByWarehouse d v else findAll d
    | None => findAll d
    end in
  match found with
  | inr l => mkResponse 200 (ItemList l)
  | inl ex => advice now ex
  end.

Section WithRepository.

(** [JpaRepository.save], generated by Spring Data: the saved entity and the
    table after it, or the exception it raised. *)
Variable save : db -> Z -> Item -> exception + (Item * db).

(** [createItem]: [@Valid] raises before the method body runs. *)
Definition createItem (d : db) (now : Z) (item : Item) : response * db :=
  match validate item with
  | (_ :: _) as errors => (advice now (MethodArgumentNotValidException errors), d)
  | [] =>
      match save d now item with
      | inr (created, d') => (mkResponse 201 (ItemBody created), d')
      | inl ex => (advice now ex, d)
      end
  end.

End WithRepository.

(** The entries of [fieldErrors] in a response, none when it has no such
    key. *)
Definition field_errors (r : response) : map :=
  match content r with
  | ErrorBody b => match fieldErrors b with Some m => m | None => [] end
  | _ => []
  end.

(** A table of one item, and a field error, for the examples. *)
Definition sample_db : db :=
  mkDb true [mkItem (Some 1) (Some "Widget") None None (Some 3) (Some "WAREHOUSE_A") true
               (Some 0) (Some 0)].

Definition sample_error : FieldError :=
  mkFieldError "name" (Some "Item name must not be blank").

End Inventory.

(** ** php-mysql: the router *)

Module PhpRouter.

(** [strtoupper], on bytes *)
Definition toupper (c : ascii) : ascii :=
  let n := N_of_ascii c in
  if ((97 <=? n) && (n <=? 122))%N then ascii_of_N (n - 32) else c.

Fixpoint strtoupper (s : string) : string :=
  match s with
  | EmptyString => EmptyString
  | String c s' => String (toupper c) (strtoupper s')
  end.

(** The class [\w]: letters, digits and the underscore *)
Definition is_word (c : ascii) : bool :=
  let n := N_of_ascii c in
  (((48 <=? n) && (n <=? 57)) || ((65 <=? n) && (n <=? 90))
   || ((97 <=? n) && (n <=? 122)) || (n =? 95))%N.

(** A compiled pattern, between its anchors [^] and [$]: pattern text taken
    over from the path, and one [Capture name] for each group
    [(?P<name>[^/]+)]. *)
Inductive token :=
| Lit (c : ascii)
| Capture (name : string).

Definition literals (s : string) : list token := map Lit (list_ascii_of_string s).

(** The text held back while a [{] may still open a placeholder. *)
Definition flush (pending : option string) : list token :=
  match pending with
  | None => []
  | Some w => Lit "{"%char :: literals w
  end.

(** [preg_replace('/\{(\w+)\}/', '(?P<$1>[^/]+)', $path)], as one pass over
    the path: [pending] holds the word characters read since an open brace. *)
Fixpoint replace_placeholders (path : string) (pending : option string) : list token :=
  match path with
  | EmptyString => flush pending
  | String c rest =>
      match pending with
      | None =>
          if Ascii.eqb c "{"%char then replace_placeholders rest (Some EmptyString)
          else Lit c :: replace_placeholders rest None
      | Some w =>
          if is_word c then replace_placeholders rest (Some (w ++ String c EmptyString)%string)
          else if Ascii.eqb c "}"%char && negb (w =? "")%string
          then Capture w :: replace_placeholders rest None
          else
            (flush pending ++
             (if Ascii.eqb c "{"%char then replace_placeholders rest (Some EmptyString)
              else Lit c :: replace_placeholders rest None))%list
      end
  end.

Record route := mkRoute {
  method : string;
  pattern : list token;
  handler : string * string;        (* [class, action] *)
}.

(** [addRoute] *)
Definition addRoute (routes : list route) (method path : string) (handler : string * string)
  : list route :=
  (routes ++ [mkRoute (strtoupper method) (replace_placeholders path None) handler])%list.

Definition get (routes : list route) path handler := addRoute routes "GET" path handler.
Definition post (routes : list route) path handler := addRoute routes "POST" path handler.
Definition put (routes : list route) path handler := addRoute routes "PUT" path handler.
Definition delete (routes : list route) path handler := addRoute routes "DELETE" path handler.

(** The named captures of a match, in group order. *)
Definition params := list (string * string).

(** [$]: the end of the subject, or the position before its final line
    feed. *)
Definition at_end (s : string) : bool :=
  match s with
  | EmptyString => true
  | String c EmptyString => Ascii.eqb c "010"%char
  | _ => false
  end.

(** A group [[^/]+] followed by the rest of the pattern [k]: the longest
    run is tried first, then shorter ones, down to one character. *)
Fixpoint capture_then (k : string -> string -> option params) (seg s : string)
  : option params :=
  match s with
  | EmptyString => None
  | String c s' =>
      if Ascii.eqb c "/"%char then None
      else
        let seg' := (seg ++ String c EmptyString)%string in
        match capture_then k seg' s' with
        | Some ps => Some ps
        | None => k seg' s'
        end
  end.

(** [preg_match('#^' . $pattern . '$#', $uri, $matches)] followed by the
    selection of the string-keyed entries of [$matches].  It is PCRE's answer
    for a pattern whose literal text has no meaning in a regular expression
    and whose groups are well named ([well_formed] below). *)
Fixpoint preg_match (p : list token) (s : string) : option params :=
  match p with
  | [] => if at_end s then Some [] else None
  | Lit c :: p' =>
      match s with
      | String c' s' => if Ascii.eqb c c' then preg_match p' s' else None
      | EmptyString => None
      end
  | Capture n :: p' =>
      capture_then
        (fun seg rest =>
           match preg_match p' rest with
           | Some ps => Some ((n, seg) :: ps)
           | None => None
           end)
        EmptyString s
  end.

(** What [dispatch] does: it calls a controller action or answers itself. *)
Inductive effect :=
| Invoke (class action : string) (ps : params)
| Respond (code : Z) (error path : string).    (* ['error' => ..., 'path' => ...] *)

(** The [foreach] of [dispatch] *)
Fixpoint dispatch_routes (routes : list route) (method uri : string) : effect :=
  match routes with
  | [] => Respond 404 "Route not found" uri
  | route :: rest =>
      if negb (PhpRouter.method route =? strtoupper method)%string
      then dispatch_routes rest method uri
      else
        match preg_match (pattern route) uri with
        | Some ps => Invoke (fst (handler route)) (snd (handler route)) ps
        | None => dispatch_routes rest method uri
        end
  end.

(** [dispatch]; [override] is [$_POST['_method']], [None] when it is not
    set. *)
Definition dispatch (routes : list route) (override : option string) (method uri : string)
  : effect :=
  let method :=
    match override with
    | Some m => if (method =? "POST")%string then strtoupper m else method
    | None => method
    end in
  dispatch_routes routes method uri.

(** The table registered by [public/index.php]. *)
Definition index_routes : list route :=
  let r := get [] "/health" ("App\Controllers\HealthController", "check") in
  let r := get r "/api/students" ("App\Controllers\StudentController", "index") in
  let r := post r "/api/students" ("App\Controllers\StudentController", "store") in
  let r := get r "/api/students/{id}" ("App\Controllers\StudentController", "show") in
  let r := put r "/api/students/{id}" ("App\Controllers\StudentController", "update") in
  delete r "/api/students/{id}" ("App\Controllers\StudentController", "destroy").

(** The fourth of them, [GET /api/students/{id}]. *)
Definition show_route : route :=
  mkRoute "GET" (replace_placeholders "/api/students/{id}" None)
          ("App\Controllers\StudentController", "show").

(** *** Where the model is PCRE's: well-formed patterns *)

(** Characters that are syntax in a pattern delimited by [#]. *)
Definition is_meta (c : ascii) : bool :=
  existsb (Ascii.eqb c) (list_ascii_of_string "\^$.[]|()?*+{}#").

Definition is_digit (c : ascii) : bool :=
  let n := N_of_ascii c in ((48 <=? n) && (n <=? 57))%N.

(** A group name PCRE accepts: at most 32 characters, the first no digit. *)
Definition name_ok (n : string) : bool :=
  match n with
  | EmptyString => false
  | String c _ => negb (is_digit c) && (String.length n <=? 32)%nat
  end.

Fixpoint capture_names (p : list token) : list string :=
  match p with
  | [] => []
  | Lit _ :: p' => capture_names p'
  | Capture n :: p' => n :: capture_names p'
  end.

Definition token_ok (t : token) : bool :=
  match t with
  | Lit c => negb (is_meta c)
  | Capture n => name_ok n
  end.

Definition well_formed (r : route) : Prop :=
  forallb token_ok (pattern r) = true /\ NoDup (capture_names (pattern r)).

(** *** What the claim calls a match *)

Fixpoint slash_free (s : string) : bool :=
  match s with
  | EmptyString => true
  | String c s' => negb (Ascii.eqb c "/"%char) && slash_free s'
  end.

(** [whole_match p uri ps]: the pattern covers all of [uri], every literal
    standing for itself and every group for a non-empty run without a slash,
    recorded in [ps]. *)
Inductive whole_match : list token -> string -> params -> Prop :=
| whole_nil : whole_match [] EmptyString []
| whole_lit : forall c p s ps,
    whole_match p s ps -> whole_match (Lit c :: p) (String c s) ps
| whole_capture : forall n seg p s ps,
    seg <> EmptyString -> slash_free seg = true ->
    whole_match p s ps ->
    whole_match (Capture n :: p) (seg ++ s)%string ((n, seg) :: ps).

(** A match as PCRE anchors it: [$] also holds before a line feed that ends
    the subject, which then stays outside the match. *)
Definition subject_match (p : list token) (uri : string) (ps : params) : Prop :=
  whole_match p uri ps \/
  exists u, uri = (u ++ String "010"%char EmptyString)%string /\ whole_match p u ps.

(** The method [dispatch] compares with the routes': a POST that carries
    [_method] counts as that method; case is ignored. *)
Definition effective_method (override : option string) (method : string) : string :=
  match override with
  | Some m => if (method =? "POST")%string then strtoupper m else strtoupper method
  | None => strtoupper method
  end.

(** The route answers to the request. *)
Definition selected (override : option string) (method uri : string) (r : route) : Prop :=
  PhpRouter.method r = effective_method override method /\
  exists ps, subject_match (pattern r) uri ps.

End PhpRouter.

(** ** react-node/backend: the todos table over time *)

Module TodoTable.

Import Todos.
Local Open Scope Z_scope.

(** A title the handlers let through and the column
    [title VARCHAR(255) NOT NULL] holds. *)
Definition valid_title (v : string) : Prop :=
  v <> ""%string /\ has_nul v = false /\ (String.length v <= VARCHAR_LIMIT)%nat.

(** The rows the list endpoint shows, in the order it shows them. *)
Definition listed (d : db) : list todo := body_todos (body (fst (listTodos d))).

(** No two rows were created at the same instant: [ORDER BY created_at DESC]
    then leaves the server no choice, and the order of the rows in the heap
    does not show. *)
Definition distinct_times (d : db) : Prop := NoDup (map created_at (rows d)).

(** The table after two more todos were posted to [sample], at the instants
    5 and 9. *)
Definition three_todos : db :=
  snd (createTodo
         (snd (createTodo sample 5 (mkBody (Js.Str "b") Js.Undefined)))
         9 (mkBody (Js.Str "c") Js.Undefined)).

(** The rows posted at 5 and at 9; the first row is [sample_row]. *)
Definition second_todo : todo := mkTodo 2 "b" false 5 5.
Definition third_todo : todo := mkTodo 3 "c" false 9 9.

Section WithServer.

Variable int4_in : string -> option Z.

(** [leads_to d d']: the service takes the table [d] to [d'] by serving
    requests, the connection coming and going in between. *)
Inductive leads_to (d : db) : db -> Prop :=
| leads_refl : leads_to d d
| leads_request : forall d' now r,
    leads_to d d' -> leads_to d (snd (handle int4_in d' now r))
| leads_connection : forall d' o,
    leads_to d d' -> leads_to d (mkDb o (rows d') (todos_id_seq d')).

End WithServer.

End TodoTable.

(** ** react-node/frontend: the todo page *)

Module TodoApp.

Import Todos.
Local Open Scope Z_scope.

(** The page talks to the API of [Todos] through axios ([src/api/todoApi.js]);
    a handler of [App.jsx] is a function from the component's state and the
    table to the state and the table after the request it awaits.  Each
    handler runs to its end before the next event is looked at, and every
    request is answered by the API. *)

(** The state of [App]: [todos] holds JSON values, [error] a string or
    [null]. *)
Record state := mkState {
  todos : list json;
  loading : bool;
  error : Js.value;
}.

(** A row as a JSON value *)
Definition row (t : todo) : json := RowBody (Some t).

(** [todo.id] of an entry of the array; [None] is [undefined]. *)
Definition entry_id (entry : json) : option Z :=
  match entry with
  | RowBody (Some t) => Some (id t)
  | _ => None
  end.

(** The template literal [${id}] for a safe integer: its decimal numeral *)
Definition template (n : Z) : string := NilZero.string_of_int (Z.to_int n).

(** [Number.isSafeInteger] *)
Definition isSafeInteger (n : Z) : bool := Z.abs n <? 2 ^ 53.

(** axios resolves the promise of a response whose status is 2xx and rejects
    every other with an error that carries the response. *)
Definition resolves (res : response) : bool := (200 <=? status res) && (status res <? 300).

(** [a || b] *)
Definition or_else (a b : Js.value) : Js.value := if Js.truthy a then a else b.

Section WithBackend.

Variable int4_in : string -> option Z.

(** [err.message] of an error of the driver, which the error handler of
    [app.js] sends as [err.message || 'Internal Server Error']. *)
Variable message : pg_error -> string.

(** [data.error] of a response body *)
Definition data_error (b : json) : Js.value :=
  match b with
  | ErrorBody e => Js.Str e
  | UnhandledError err =>
      or_else (Js.Str (message err)) (Js.Str "Internal Server Error")
  | _ => Js.Undefined
  end.

(** [err.response?.data?.error || err.message || fallback] for the error
    axios rejects with *)
Definition failure (res : response) (fallback : string) : Js.value :=
  or_else
    (or_else (data_error (body res))
             (Js.Str ("Request failed with status code " ++ template (status res))))
    (Js.Str fallback).

(** [res.data.todos].  A list response that resolves always carries the
    envelope. *)
Definition data_todos (b : json) : list json :=
  match b with
  | ListBody _ l => map row l
  | _ => []
  end.

(** [loadTodos] *)
Definition loadTodos (st : state) (d : db) : state * db :=
  let (res, d') := listTodos d in
  if resolves res
  then (mkState (data_todos (body res)) false Js.Null, d')
  else (mkState (todos st) false (failure res "Failed to load todos"), d').

(** [handleCreate] *)
Definition handleCreate (st : state) (d : db) (now : Z) (title : string) : state * db :=
  let (res, d') := createTodo d now (mkBody (Js.Str title) Js.Undefined) in
  if resolves res
  then (mkState (body res :: todos st) (loading st) Js.Null, d')
  else (mkState (todos st) (loading st) (failure res "Failed to create todo"), d').

(** [handleUpdate]; [id] is the number [TodoItem] read from its todo. *)
Definition handleUpdate (st : state) (d : db) (now : Z) (id : Z) (data : req_body)
  : state * db :=
  let (res, d') := updateTodo int4_in d now (template id) data in
  if resolves res
  then (mkState
          (map (fun todo => match entry_id todo with
                            | Some k => if k =? id then body res else todo
                            | None => todo
                            end) (todos st))
          (loading st) Js.Null, d')
  else (mkState (todos st) (loading st) (failure res "Failed to update todo"), d').

(** [handleDelete] *)
Definition handleDelete (st : state) (d : db) (id : Z) : state * db :=
  let (res, d') := deleteTodo int4_in d (template id) in
  if resolves res
  then (mkState
          (filter (fun todo => match entry_id todo with
                               | Some k => negb (k =? id)
                               | None => true
                               end) (todos st))
          (loading st) Js.Null, d')
  else (mkState (todos st) (loading st) (failure res "Failed to delete todo"), d').

(** The checkbox of [TodoItem]: [onToggle(id, !completed)], which [App]
    passes on as [handleUpdate(id, { completed })]. *)
Definition onChange (st : state) (d : db) (now : Z) (t : todo) : state * db :=
  handleUpdate st d now (id t) (mkBody Js.Undefined (Js.Bool (negb (completed t)))).

End WithBackend.

(** [handleSubmit] of [TodoForm.jsx]: the argument [onAdd] is called with, if
    it is called, and the text of the input afterwards. *)
Definition handleSubmit (title : string) : option string * string :=
  let trimmed := Js.trim title in
  if negb (Js.truthy (Js.Str trimmed)) then (None, title)
  else (Some trimmed, ""%string).

(** The page shows the table: the array holds the table's rows, newest
    first. *)
Definition in_sync (st : state) (d : db) : Prop :=
  todos st = map row (order_by_created_at_desc (rows d)).

(** The page when it shows the three todos of [TodoTable.three_todos]. *)
Definition three_shown : state :=
  mkState (map row [TodoTable.third_todo; TodoTable.second_todo; sample_row])
          false Js.Null.

End TodoApp.

(** ** express-mongo: what the schema asks of a document *)

Module ProductRules.

Import Products.
Local Open Scope Z_scope.

(** What [productSchema] asks of a document: a name that is there and at
    most 200 characters long, a price that is not negative, a category among
    the enumerated ones, and no white space around the strings with the
    [trim] setter. *)
Definition conforms (p : product) : Prop :=
  name p <> ""%string /\ (String.length (name p) <= 200)%nat /\
  Js.trimmed (name p) /\ Js.trimmed (description p) /\
  0 <= price p /\ In (category p) categories.

End ProductRules.

(** ** springboot-gradle-postgres: one item *)

Module Items.

Import Inventory.
Local Open Scope Z_scope.

(** [Long.toString], as in ["Item not found with id: " + id] *)
Definition toString (n : Z) : string := NilZero.string_of_int (Z.to_int n).

(** The row with the primary key [id] *)
Definition has_id (id : Z) (i : Item) : bool :=
  match Inventory.id i with
  | Some k => k =? id
  | None => false
  end.

Section WithRepository.

(** What the repository throws when the database does not answer. *)
Variable unavailable : exception.

(** [JpaRepository.save], as for [createItem]. *)
Variable save : db -> Z -> Item -> exception + (Item * db).

(** [ItemService.findById]:
    [itemRepository.findById(id).orElseThrow(...)] *)
Definition findById (d : db) (id : Z) : exception + Item :=
  if up d
  then match List.find (has_id id) (items d) with
       | Some i => inr i
       | None => inl (ResourceNotFoundException ("Item not found with id: " ++ toString id))
       end
  else inl unavailable.

(** [ItemService.delete]: [findById], then [itemRepository.delete(existing)],
    which removes the row of that key. *)
Definition delete (d : db) (id : Z) : exception + db :=
  match findById d id with
  | inl ex => inl ex
  | inr existing =>
      inr (mkDb (up d) (filter (fun i => negb (has_id id i)) (items d)))
  end.

(** [ItemService.update]: the six setters on the entity [findById] loaded,
    then [save]. *)
Definition update (d : db) (now : Z) (id : Z) (updated : Item)
  : exception + (Item * db) :=
  match findById d id with
  | inl ex => inl ex
  | inr existing =>
      save d now
        (mkItem (Inventory.id existing)
                (name updated) (description updated) (price updated)
                (quantity updated) (warehouse updated) (available updated)
                (createdAt existing) (updatedAt existing))
  end.

(** [getItem]; [id] is the path variable, converted to a [Long]. *)
Definition getItem (d : db) (now : Z) (id : Z) : response :=
  match findById d id with
  | inr item => mkResponse 200 (ItemBody item)
  | inl ex => advice now ex
  end.

(** [updateItem]: [@Valid] raises before the method body runs. *)
Definition updateItem (d : db) (now : Z) (id : Z) (item : Item) : response * db :=
  match validate item with
  | (_ :: _) as errors => (advice now (MethodArgumentNotValidException errors), d)
  | [] =>
      match update d now id item with
      | inr (saved, d') => (mkResponse 200 (ItemBody saved), d')
      | inl ex => (advice now ex, d)
      end
  end.

(** [deleteItem] *)
Definition deleteItem (d : db) (now : Z) (id : Z) : response * db :=
  match delete d id with
  | inr d' => (mkResponse 204 NoBody, d')
  | inl ex => (advice now ex, d)
  end.

End WithRepository.

(** The 404 of the advice for the item [id] *)
Definition not_found (now : Z) (id : Z) : response :=
  mkResponse 404
    (ErrorBody (mkErrorBody now 404 ("Item not found with id: " ++ toString id) None None)).

(** The text [handleValidation] shows for a field error *)
Definition shown (fe : FieldError) : string :=
  match getDefaultMessage fe with
  | Some msg => msg
  | None => "Invalid value"
  end.

End Items.

(** ** php-mysql: what the router hands to a controller *)

Module PhpRoutes.

Import PhpRouter.

(** The text a pattern covers when its groups hold the values of [ps], in
    order: the route's path with each placeholder replaced by its value. *)
Fixpoint expand (p : list token) (ps : params) : string :=
  match p with
  | [] => EmptyString
  | Lit c :: p' => String c (expand p' ps)
  | Capture _ :: p' =>
      match ps with
      | (_, v) :: ps' => v ++ expand p' ps'
      | [] => expand p' []
      end
  end.

(** A value a group [[^/]+] can hold. *)
Definition segment (v : string) : Prop := v <> EmptyString /\ slash_free v = true.

(** The text has no opening brace. *)
Fixpoint no_brace (s : string) : bool :=
  match s with
  | EmptyString => true
  | String c s' => negb (Ascii.eqb c "{"%char) && no_brace s'
  end.

(** A non-empty run of word characters, what [\w+] matches in full *)
Definition word (w : string) : bool :=
  negb (w =? "")%string && forallb is_word (list_ascii_of_string w).

(** The line feed *)
Definition LF : string := String "010"%char EmptyString.

(** The two controllers of [public/index.php] *)
Definition HealthController : string := "App\Controllers\HealthController".
Definition StudentController : string := "App\Controllers\StudentController".

(** The three shapes of its routes *)
Definition health_route : route :=
  mkRoute "GET" (literals "/health") (HealthController, "check").

Definition students_route (m action : string) : route :=
  mkRoute m (literals "/api/students") (StudentController, action).

Definition student_route (m action : string) : route :=
  mkRoute m (literals "/api/students/" ++ [Capture "id"]) (StudentController, action).

End PhpRoutes.

(** ** php-mysql: the front controller's reading of [.env] *)

Module PhpIndex.

(** The characters PHP's [trim] strips by default: space, tab, line feed,
    carriage return, NUL and vertical tab. *)
Definition is_stripped (c : ascii) : bool :=
  existsb (N.eqb (N_of_ascii c)) [32; 9; 10; 13; 0; 11]%N.

Fixpoint ltrim (s : string) : string :=
  match s with
  | EmptyString => EmptyString
  | String c s' => if is_stripped c then ltrim s' else s
  end.

Fixpoint rtrim (s : string) : string :=
  match s with
  | EmptyString => EmptyString
  | String c s' =>
      match rtrim s' with
      | EmptyString => if is_stripped c then EmptyString else String c EmptyString
      | t => String c t
      end
  end.

(** [trim] *)
Definition trim (s : string) : string := rtrim (ltrim s).

(** [strpos($line, '#') === 0] *)
Definition is_comment (line : string) : bool :=
  match line with
  | String c _ => Ascii.eqb c "#"%char
  | EmptyString => false
  end.

(** [explode('=', $line, 2)] on a line with an equals sign: the text before
    the first one and the text after it; [None] when there is none, that is,
    when [strpos($line, '=') === false]. *)
Fixpoint explode (line : string) : option (string * string) :=
  match line with
  | EmptyString => None
  | String c rest =>
      if Ascii.eqb c "="%char then Some (EmptyString, rest)
      else match explode rest with
           | Some (key, value) => Some (String c key, value)
           | None => None
           end
  end.

(** [$_ENV], a PHP array: the entries in insertion order. *)
Definition env := list (string * string).

Fixpoint get (e : env) (key : string) : option string :=
  match e with
  | [] => None
  | (k, v) :: rest => if (k =? key)%string then Some v else get rest key
  end.

(** [$_ENV[$key] = $value]: an entry with the key keeps its place. *)
Fixpoint set (e : env) (key value : string) : env :=
  match e with
  | [] => [(key, value)]
  | (k, v) :: rest =>
      if (k =? key)%string then (k, value) :: rest else (k, v) :: set rest key value
  end.

(** What a line assigns: its trimmed key and value; [None] for a line the
    loop skips. *)
Definition assignment (line : string) : option (string * string) :=
  if is_comment line then None
  else match explode line with
       | None => None
       | Some (key, value) => Some (trim key, trim value)
       end.

(** One turn of the [foreach]; [None] when the script ends there: the
    [putenv] of PHP 8 throws a [ValueError] for an assignment with an empty
    name, and nothing catches it. *)
Definition load_line (e : env) (line : string) : option env :=
  match assignment line with
  | None => Some e
  | Some (key, value) =>
      if (key =? "")%string then None else Some (set e key value)
  end.

(** The [foreach] over the lines [file] returned *)
Fixpoint load (e : env) (lines : list string) : option env :=
  match lines with
  | [] => Some e
  | line :: rest =>
      match load_line e line with
      | Some e' => load e' rest
      | None => None
      end
  end.

(** The value the last assignment to [key] among the lines gives it. *)
Fixpoint last_assigned (lines : list string) (key : string) : option string :=
  match lines with
  | [] => None
  | line :: rest =>
      match last_assigned rest key with
      | Some v => Some v
      | None =>
          match assignment line with
          | Some (k, v) => if (k =? key)%string then Some v else None
          | None => None
          end
      end
  end.

(** The text has no equals sign. *)
Fixpoint no_equals (s : string) : bool :=
  match s with
  | EmptyString => true
  | String c s' => negb (Ascii.eqb c "="%char) && no_equals s'
  end.

End PhpIndex.

(** ** nestjs-postgres: the users API *)

Module Users.

Local Open Scope Z_scope.

(** [entities/user.entity.ts] *)
Record User := mkUser {
  id : Z;
  name : string;
  email : string;
  role : string;
  isActive : bool;
  createdAt : Z;
  updatedAt : Z;
}.

(** The table [users] and whether the database answers. *)
Record db := mkDb {
  up : bool;
  users : list User;
}.

(** What a service method throws: the [NotFoundException] of [findOne], or
    an error of the data source. *)
Inductive exception :=
| NotFoundException (message : string)
| QueryFailedError.

(** Response bodies; [ErrorBody] is what Nest's exception filter writes. *)
Inductive body :=
| UserList (l : list User)
| UserBody (u : User)
| NoBody
| ErrorBody (statusCode : Z) (message : string) (error : option string).

Record response := mkResponse {
  status : Z;
  content : body;
}.

(** Nest's exception filter: an [HttpException] answers with its status and
    [{statusCode, message, error}], anything else with 500. *)
Definition filter_exception (ex : exception) : response :=
  match ex with
  | NotFoundException message =>
      mkResponse 404 (ErrorBody 404 message (Some "Not Found"))
  | QueryFailedError =>
      mkResponse 500 (ErrorBody 500 "Internal server error" None)
  end.

(** The values of the column type [integer], the type of [id]
    ([@PrimaryGeneratedColumn()]) *)
Definition int4 (n : Z) : bool := (- 2 ^ 31 <=? n) && (n <? 2 ^ 31).

(** The template literal [${id}] for such a number: its decimal numeral *)
Definition template (n : Z) : string := NilZero.string_of_int (Z.to_int n).

(** [ORDER BY "createdAt" DESC] *)
Fixpoint insert_desc (u : User) (l : list User) : list User :=
  match l with
  | [] => [u]
  | h :: r => if createdAt h <? createdAt u then u :: l else h :: insert_desc u r
  end.

Definition order_by_createdAt_desc (l : list User) : list User :=
  fold_right insert_desc [] l.

(** A table of three users; the second was created last. *)
Definition three_users : db :=
  mkDb true
       [mkUser 1 "Ann" "ann@example.org" "user" true 3 3;
        mkUser 2 "Bob" "bob@example.org" "admin" true 9 9;
        mkUser 3 "Cy" "cy@example.org" "user" false 5 5].

(** *** [users.service.ts] *)

Module Service.

(** [findAll]: [find({ order: { createdAt: 'DESC' } })] *)
Definition findAll (d : db) : exception + list User :=
  if up d then inr (order_by_createdAt_desc (users d)) else inl QueryFailedError.

(** [findOne]: [findOneBy({ id })], and the exception when it is [null].
    The query compares the column with a parameter, which the server reads
    as an [integer]: it refuses a number outside the type. *)
Definition findOne (d : db) (id : Z) : exception + User :=
  if up d && int4 id
  then match List.find (fun u => Users.id u =? id) (users d) with
       | Some user => inr user
       | None => inl (NotFoundException ("User with id " ++ template id ++ " not found"))
       end
  else inl QueryFailedError.

(** [remove]: [findOne], then [usersRepository.remove(user)], which deletes
    the row of the user's primary key. *)
Definition remove (d : db) (id : Z) : exception + db :=
  match findOne d id with
  | inl ex => inl ex
  | inr user =>
      inr (mkDb (up d) (filter (fun u => negb (Users.id u =? Users.id user)) (users d)))
  end.

Section WithRepository.

(** The body of an update after the [ValidationPipe], and
    [Object.assign(user, updateUserDto)]. *)
Variable UpdateUserDto : Type.
Variable assign : User -> UpdateUserDto -> User.

(** [usersRepository.save] of an entity that was loaded: the saved entity
    and the table after it, or the error it raised. *)
Variable save : db -> Z -> User -> exception + (User * db).

(** [update] *)
Definition update (d : db) (now : Z) (id : Z) (dto : UpdateUserDto)
  : exception + (User * db) :=
  match findOne d id with
  | inl ex => inl ex
  | inr user => save d now (assign user dto)
  end.

End WithRepository.

End Service.

(** *** [users.controller.ts]; [id] is the route parameter after
    [ParseIntPipe]. *)

Module Controller.

(** [GET /users] *)
Definition findAll (d : db) : response :=
  match Service.findAll d with
  | inr l => mkResponse 200 (UserList l)
  | inl ex => filter_exception ex
  end.

(** [GET /users/:id] *)
Definition findOne (d : db) (id : Z) : response :=
  match Service.findOne d id with
  | inr user => mkResponse 200 (UserBody user)
  | inl ex => filter_exception ex
  end.

(** [DELETE /users/:id], with [@HttpCode(HttpStatus.NO_CONTENT)] *)
Definition remove (d : db) (id : Z) : response * db :=
  match Service.remove d id with
  | inr d' => (mkResponse 204 NoBody, d')
  | inl ex => (filter_exception ex, d)
  end.

Section WithRepository.

Variable UpdateUserDto : Type.
Variable assign : User -> UpdateUserDto -> User.
Variable save : db -> Z -> User -> exception + (User * db).

(** [PUT /users/:id] *)
Definition update (d : db) (now : Z) (id : Z) (dto : UpdateUserDto) : response * db :=
  match Service.update UpdateUserDto assign save d now id dto with
  | inr (user, d') => (mkResponse 200 (UserBody user), d')
  | inl ex => (filter_exception ex, d)
  end.

End WithRepository.

End Controller.

(** The 404 for the user [id] *)
Definition not_found (id : Z) : response :=
  mkResponse 404
    (ErrorBody 404 ("User with id " ++ template id ++ " not found") (Some "Not Found")).

(** Newest first *)
Definition newest_first (l : list User) : Prop :=
  StronglySorted (fun a b => createdAt b <= createdAt a) l.

End Users.

(** ** php-mysql: the health check *)

Module PhpHealth.

Local Open Scope Z_scope.

(** The MySQL server as a request meets it: whether a connection can be
    opened and whether a statement is answered, with the message of the
    [PDOException] otherwise. *)
Record server := mkServer {
  connects : bool;
  answers : bool;
  connect_error : string;
  query_error : string;
}.

(** What is written to the client: [http_response_code] and the JSON that is
    echoed. *)
Inductive json :=
| HealthOk (status database : string) (timestamp : Z)
| HealthError (status database detail : string)
| ConnectionError (error : string).

Record response := mkResponse {
  code : Z;
  output : json;
}.

(** [Database::getInstance] when no connection exists yet: the connection,
    or the response it writes before [exit(1)]. *)
Definition getInstance (s : server) : response + unit :=
  if connects s then inr tt
  else inl (mkResponse 500
              (ConnectionError ("Database connection failed: " ++ connect_error s))).

(** [HealthController::check]; [exit] is not caught by [catch (\Exception)]. *)
Definition check (s : server) (now : Z) : response :=
  match getInstance s with
  | inl written => written
  | inr _ =>
      if answers s
      then mkResponse 200 (HealthOk "ok" "ok" now)
      else mkResponse 500 (HealthError "error" "unreachable" (query_error s))
  end.

End PhpHealth.

(** ** php-mysql: the students table *)

Module Students.

Local Open Scope Z_scope.

(** A row of the table [createTable] declares, as [fetchAll] returns it:
    [id INT AUTO_INCREMENT PRIMARY KEY, name VARCHAR(100) NOT NULL,
     email VARCHAR(200) NOT NULL UNIQUE,
     grade ENUM('A', 'B', 'C', 'D', 'F') DEFAULT 'C',
     enrolled TINYINT(1) DEFAULT 1,
     created_at TIMESTAMP DEFAULT CURRENT_TIMESTAMP,
     updated_at TIMESTAMP DEFAULT CURRENT_TIMESTAMP ON UPDATE
     CURRENT_TIMESTAMP].
    Timestamps are instants on an integer time line; no statement of the
    model writes [created_at], which is the default's. *)
Record student := mkStudent {
  id : Z;
  name : string;
  email : string;
  grade : string;
  enrolled : Z;
  created_at : Z;
  updated_at : Z;
}.

(** The server behind the connection of [Database::getInstance]: whether it
    answers a statement, the message of the [PDOException] it raises when it
    does not, and the rows of [students] in the order of their primary
    key. *)
Record db := mkDb {
  answers : bool;
  query_error : string;
  students : list student;
}.

(** What a method of the model throws: under [PDO::ERRMODE_EXCEPTION] a
    statement that fails raises. *)
Inductive thrown :=
| PDOException (message : string).

(** [ORDER BY created_at DESC]; among rows of equal [created_at] this is one
    of the orders the server may give. *)
Fixpoint insert_desc (s : student) (l : list student) : list student :=
  match l with
  | [] => [s]
  | h :: r => if created_at h <? created_at s then s :: l else h :: insert_desc s r
  end.

Definition order_by_created_at_desc (l : list student) : list student :=
  fold_right insert_desc [] l.

(** [Student::findAll]:
    [query('SELECT * FROM students ORDER BY created_at DESC')], then
    [fetchAll()] *)
Definition findAll (d : db) : thrown + list student :=
  if answers d then inr (order_by_created_at_desc (students d))
  else inl (PDOException (query_error d)).

(** Newest first *)
Definition newest_first (l : list student) : Prop :=
  StronglySorted (fun a b => created_at b <= created_at a) l.

(** A table of three students; the second was enrolled last. *)
Definition sample : db :=
  mkDb true ""
       [mkStudent 1 "Ann" "ann@example.org" "A" 1 3 3;
        mkStudent 2 "Bob" "bob@example.org" "C" 1 9 9;
        mkStudent 3 "Cy" "cy@example.org" "B" 0 5 5].

End Students.

(** * Properties *)

(** ** [trim] *)

Module JsFacts.

Import Js.

Lemma append_assoc (a b c : string) : ((a ++ b) ++ c = a ++ (b ++ c))%string.
Proof. induction a as [|x a IH]; simpl; [reflexivity|]. rewrite IH. reflexivity. Qed.

Lemma append_empty_r (a : string) : (a ++ "")%string = a.
Proof. induction a as [|x a IH]; simpl; [reflexivity|]. rewrite IH. reflexivity. Qed.

Lemma trimStart_starts (s : string) : startsWithWhiteSpace (trimStart s) = false.
Proof.
  induction s as [|c s IH]; simpl; [reflexivity|].
  destruct (isWhiteSpace c) eqn:E; [exact IH|].
  simpl. exact E.
Qed.

Lemma trimEnd_ends (s : string) : endsWithWhiteSpace (trimEnd s) = false.
Proof.
  induction s as [|c s IH]; simpl; [reflexivity|].
  destruct (trimEnd s) as [|c' t] eqn:E.
  - destruct (isWhiteSpace c) eqn:W; simpl; [reflexivity|exact W].
  - exact IH.
Qed.

Lemma trimEnd_starts (s : string) :
  startsWithWhiteSpace s = false -> startsWithWhiteSpace (trimEnd s) = false.
Proof.
  destruct s as [|c s]; simpl; [reflexivity|].
  intros W. destruct (trimEnd s); [rewrite W|]; simpl; exact W.
Qed.

Lemma trim_trimmed (s : string) : trimmed (trim s).
Proof.
  split.
  - apply trimEnd_starts, trimStart_starts.
  - apply trimEnd_ends.
Qed.

Lemma trimStart_fixed (s : string) :
  startsWithWhiteSpace s = false -> trimStart s = s.
Proof.
  destruct s as [|c s]; simpl; [reflexivity|].
  intros W. rewrite W. reflexivity.
Qed.

Lemma trimEnd_fixed (s : string) :
  endsWithWhiteSpace s = false -> trimEnd s = s.
Proof.
  induction s as [|c s IH]; simpl; [reflexivity|].
  destruct s as [|c' s'].
  - intros W. simpl. rewrite W. reflexivity.
  - intros W. rewrite (IH W). reflexivity.
Qed.

(** [trim] changes exactly the strings that are not trimmed. *)
Lemma trim_fixed (s : string) : trimmed s <-> trim s = s.
Proof.
  split.
  - intros [W1 W2]. unfold trim. rewrite (trimStart_fixed s W1). apply trimEnd_fixed, W2.
  - intros E. rewrite <- E. apply trim_trimmed.
Qed.

End JsFacts.

(** ** The todos API *)

Module TodosFacts.

Import Todos.
Local Open Scope Z_scope.

(** *** The sort behind [ORDER BY created_at DESC] *)

Lemma insert_desc_perm (t : todo) (l : list todo) : Permutation (t :: l) (insert_desc t l).
Proof.
  induction l as [|h r IH]; simpl; [apply Permutation_refl|].
  destruct (created_at h <? created_at t).
  - apply Permutation_refl.
  - apply perm_trans with (h :: t :: r); [apply perm_swap|].
    apply perm_skip, IH.
Qed.

Lemma order_by_perm (l : list todo) : Permutation l (order_by_created_at_desc l).
Proof.
  induction l as [|t l IH]; simpl; [apply perm_nil|].
  apply perm_trans with (t :: order_by_created_at_desc l).
  - apply perm_skip, IH.
  - apply insert_desc_perm.
Qed.

Lemma insert_desc_sorted (t : todo) (l : list todo) :
  newest_first l -> newest_first (insert_desc t l).
Proof.
  unfold newest_first.
  induction l as [|h r IH]; intros S; simpl.
  - constructor; constructor.
  - destruct (created_at h <? created_at t) eqn:E.
    + apply Z.ltb_lt in E.
      constructor; [exact S|].
      inversion S as [|? ? S' F]; subst.
      constructor; [lia|].
      eapply Forall_impl; [|exact F]. simpl. intros; lia.
    + apply Z.ltb_ge in E.
      inversion S as [|? ? S' F]; subst.
      constructor; [apply IH, S'|].
      eapply Permutation_Forall; [apply insert_desc_perm|].
      constructor; [exact E|exact F].
Qed.

Lemma order_by_sorted (l : list todo) : newest_first (order_by_created_at_desc l).
Proof.
  induction l as [|t l IH]; simpl; [constructor|].
  apply insert_desc_sorted, IH.
Qed.

(** *** How a request changes the table *)

Lemma assign_all_id (now : Z) (fs : list assignment) (t : todo) :
  id (assign_all now fs t) = id t.
Proof.
  unfold assign_all. revert t.
  induction fs as [|a fs IH]; intros t; simpl; [reflexivity|].
  rewrite IH. destruct a; reflexivity.
Qed.

Lemma assign_all_trimmed (now : Z) (fs : list assignment) (t : todo) :
  Forall (fun a => match a with SetTitle v => Js.trimmed v | _ => True end) fs ->
  Js.trimmed (title t) -> Js.trimmed (title (assign_all now fs t)).
Proof.
  unfold assign_all. revert t.
  induction fs as [|a fs IH]; intros t F T; simpl; [exact T|].
  inversion F as [|? ? Ha Hfs]; subst.
  apply IH; [exact Hfs|].
  destruct a; simpl; assumption.
Qed.

Lemma title_fields_trimmed (v : Js.value) (fs : list assignment) :
  title_fields v = inr fs ->
  Forall (fun a => match a with SetTitle v => Js.trimmed v | _ => True end) fs.
Proof.
  destruct v; simpl; try discriminate.
  - intros E. injection E as <-. constructor.
  - destruct (Js.trim s =? "")%string; [discriminate|].
    intros E. injection E as <-.
    constructor; [apply JsFacts.trim_trimmed|constructor].
Qed.

Lemma completed_fields_trimmed (v : Js.value) (fs : list assignment) :
  completed_fields v = inr fs ->
  Forall (fun a => match a with SetTitle v => Js.trimmed v | _ => True end) fs.
Proof.
  destruct v; simpl; try discriminate; intros E; injection E as <-;
    repeat constructor.
Qed.

Section WithServer.

Variable int4_in : string -> option Z.

(** A request leaves the table alone, appends one row with a fresh id and a
    trimmed title, rewrites the rows of one id, or removes them. *)
Lemma handle_shape (d : db) (now : Z) (r : request) :
  let d' := snd (handle int4_in d now r) in
  online d' = online d /\
  (d' = d
   \/ (exists v, Js.trimmed v /\
        rows d' = (rows d ++ [mkTodo (todos_id_seq d) v false now now])%list /\
        todos_id_seq d' = todos_id_seq d + 1)
   \/ (exists k fs,
        Forall (fun a => match a with SetTitle v => Js.trimmed v | _ => True end) fs /\
        rows d' = map (fun t => if id t =? k then assign_all now fs t else t) (rows d) /\
        todos_id_seq d' = todos_id_seq d)
   \/ (exists k,
        rows d' = filter (fun t => negb (id t =? k)) (rows d) /\
        todos_id_seq d' = todos_id_seq d)).
Proof.
  destruct r as [|b|p|p b|p|]; simpl.
  - unfold listTodos. destruct (select_all d); simpl; auto.
  - unfold createTodo.
    destruct (negb (Js.truthy (body_title b)) || negb (Js.typeof (body_title b) =? "string")%string);
      [simpl; auto|].
    destruct (body_title b) as [| | | |s|]; simpl; auto.
    destruct (Js.trim s =? "")%string; [simpl; auto|].
    unfold insert.
    destruct (negb (online d)); [simpl; auto|].
    destruct (has_nul (Js.trim s)); [simpl; auto|].
    destruct (VARCHAR_LIMIT <? String.length (Js.trim s))%nat; [simpl; auto|].
    destruct (INT4_MAX <? todos_id_seq d); [simpl; auto|].
    simpl. split; [reflexivity|]. right; left.
    exists (Js.trim s). split; [apply JsFacts.trim_trimmed|]. split; reflexivity.
  - unfold getTodo. destruct (select_by_id int4_in d p) as [res|e]; simpl; auto.
    destruct (rowCount res =? 0)%nat; simpl; auto.
  - unfold updateTodo.
    destruct (title_fields (body_title b)) as [bad|ft] eqn:Et; [simpl; auto|].
    destruct (completed_fields (body_completed b)) as [bad|fc] eqn:Ec; [simpl; auto|].
    destruct (List.length (ft ++ fc) =? 0)%nat; [simpl; auto|].
    unfold update.
    destruct (negb (online d)); [simpl; auto|].
    destruct (existsb holds_nul ((ft ++ fc) ++ [SetUpdatedAtNow])); [simpl; auto|].
    destruct (int4_in p) as [k|]; [|simpl; auto].
    destruct (existsb overlong ((ft ++ fc) ++ [SetUpdatedAtNow])); [simpl; auto|].
    match goal with
    | |- context [if ?c then _ else _] => destruct c
    end; simpl; (split; [reflexivity|]); right; right; left;
      exists k, ((ft ++ fc) ++ [SetUpdatedAtNow])%list;
      (split; [|split; reflexivity]);
      (apply Forall_app; split;
       [apply Forall_app; split;
        [eapply title_fields_trimmed; eassumption
        |eapply completed_fields_trimmed; eassumption]
       |repeat constructor]).
  - unfold deleteTodo, delete.
    destruct (negb (online d)); [simpl; auto|].
    destruct (int4_in p) as [k|]; [|simpl; auto].
    simpl. split; [reflexivity|]. right; right; right.
    exists k. split; reflexivity.
  - unfold health. destruct (select_one d); simpl; auto.
Qed.

Lemma NoDup_map_filter {A B : Type} (f : A -> B) (g : A -> bool) (l : list A) :
  NoDup (map f l) -> NoDup (map f (filter g l)).
Proof.
  induction l as [|a l IH]; simpl; intros N; [constructor|].
  inversion N as [|? ? Hn N']; subst.
  destruct (g a); simpl; [|apply IH, N'].
  constructor; [|apply IH, N'].
  intros Hin. apply Hn.
  apply in_map_iff in Hin. destruct Hin as [x [E Hx]].
  apply filter_In in Hx. destruct Hx as [Hx _].
  rewrite <- E. apply in_map, Hx.
Qed.

Lemma map_id_rewrite (now k : Z) (fs : list assignment) (l : list todo) :
  map id (map (fun t => if id t =? k then assign_all now fs t else t) l) = map id l.
Proof.
  rewrite map_map. apply map_ext. intros t.
  destruct (id t =? k); [apply assign_all_id|reflexivity].
Qed.

(** The three invariants of the table are kept by every request. *)
Lemma handle_invariants (d : db) (now : Z) (r : request) :
  ids_below d /\ unique_ids d /\ titles_trimmed d ->
  ids_below (snd (handle int4_in d now r)) /\
  unique_ids (snd (handle int4_in d now r)) /\
  titles_trimmed (snd (handle int4_in d now r)).
Proof.
  intros [B [U T]].
  destruct (handle_shape d now r) as [_ H].
  set (d' := snd (handle int4_in d now r)) in *.
  unfold ids_below, unique_ids, titles_trimmed in *.
  destruct H as [E|[[v [Tv [Er Es]]]|[[k [fs [Ffs [Er Es]]]]|[k [Er Es]]]]].
  - rewrite E. auto.
  - rewrite Er, Es. repeat split.
    + apply Forall_app. split.
      * eapply Forall_impl; [|exact B]. simpl. intros; lia.
      * constructor; [simpl; lia|constructor].
    + rewrite map_app. simpl.
      assert (Hn : ~ In (todos_id_seq d) (map id (rows d))).
      { intros Hin. apply in_map_iff in Hin. destruct Hin as [x [E Hx]].
        rewrite Forall_forall in B. specialize (B x Hx). lia. }
      clear - U Hn. induction (map id (rows d)) as [|a l IH]; simpl.
      * constructor; [intros []|constructor].
      * inversion U as [|? ? Ha U']; subst.
        constructor.
        -- intros Hin. apply in_app_or in Hin. destruct Hin as [Hin|[Hin|[]]].
           ++ exact (Ha Hin).
           ++ apply Hn. left. symmetry. exact Hin.
        -- apply IH; [exact U'|]. intros Hin. apply Hn. right. exact Hin.
    + apply Forall_app. split; [exact T|].
      constructor; [exact Tv|constructor].
  - rewrite Er, Es. repeat split.
    + apply Forall_forall. intros t Hin.
      apply in_map_iff in Hin. destruct Hin as [x [E Hx]].
      rewrite Forall_forall in B. specialize (B x Hx).
      destruct (id x =? k); subst t; [rewrite assign_all_id|]; exact B.
    + rewrite map_id_rewrite. exact U.
    + apply Forall_forall. intros t Hin.
      apply in_map_iff in Hin. destruct Hin as [x [E Hx]].
      rewrite Forall_forall in T. specialize (T x Hx).
      destruct (id x =? k); subst t; [apply assign_all_trimmed; assumption|exact T].
  - rewrite Er, Es. repeat split.
    + apply Forall_forall. intros t Hin. apply filter_In in Hin.
      rewrite Forall_forall in B. apply B, Hin.
    + apply NoDup_map_filter, U.
    + apply Forall_forall. intros t Hin. apply filter_In in Hin.
      rewrite Forall_forall in T. apply T, Hin.
Qed.

Lemma reachable_invariants (d : db) :
  reachable int4_in d -> ids_below d /\ unique_ids d /\ titles_trimmed d.
Proof.
  induction 1 as [o|d now r R IH|d o R IH].
  - unfold ids_below, unique_ids, titles_trimmed. simpl.
    repeat split; constructor.
  - apply handle_invariants, IH.
  - exact IH.
Qed.




(** A creation payload without the required [title] is answered with 400 and
    an error that names the field; no query is issued, so no row is inserted,
    whatever else the payload carries and whatever the state of the
    database. *)
Lemma create_without_title (d : db) (now : Z) (completed : Js.value) :
  exists msg,
    createTodo d now (mkBody Js.Undefined completed)
      = (mkResponse 400 (ErrorBody msg), d) /\
    names_field "title" msg.
Proof.
  exists "title is required and must be a non-empty string"%string.
  split; [reflexivity|].
  exists ""%string, " is required and must be a non-empty string"%string.
  reflexivity.
Qed.

Lemma filter_absent (k : Z) (l : list todo) :
  (forall t, In t l -> id t <> k) -> filter (fun t => id t =? k) l = [].
Proof.
  induction l as [|a l IH]; simpl; intros H; [reflexivity|].
  destruct (id a =? k) eqn:E.
  - apply Z.eqb_eq in E. exfalso. apply (H a); [left; reflexivity|exact E].
  - apply IH. intros t Hin. apply H. right. exact Hin.
Qed.

Lemma filter_unique (t : todo) (l : list todo) :
  NoDup (map id l) -> In t l -> filter (fun u => id u =? id t) l = [t].
Proof.
  induction l as [|a l IH]; simpl; intros N Hin; [contradiction|].
  inversion N as [|? ? Ha N']; subst.
  destruct Hin as [->|Hin].
  - rewrite Z.eqb_refl. f_equal.
    apply filter_absent. intros u Hu E. apply Ha. rewrite <- E. apply in_map, Hu.
  - destruct (id a =? id t) eqn:E.
    + apply Z.eqb_eq in E. exfalso. apply Ha. rewrite E. apply in_map, Hin.
    + apply IH; assumption.
Qed.


(** An [UPDATE] of the one row [t] with id [k]: what every accepted update
    comes down to on a table with a primary key. *)
Lemma update_one_row (d : db) (now : Z) (p : string) (k : Z) (t : todo)
      (fs : list assignment) :
  unique_ids d -> online d = true ->
  existsb holds_nul fs = false -> existsb overlong fs = false ->
  int4_in p = Some k -> In t (rows d) -> id t = k ->
  update int4_in d now fs p =
    (Resolved (mkResult 1 [assign_all now fs t]),
     mkDb (online d)
          (map (fun u => if id u =? k then assign_all now fs t else u) (rows d))
          (todos_id_seq d)).
Proof.
  intros U O Z0 L Hp Hin Hk. unfold update. rewrite O, Z0, Hp, L. simpl.
  subst k. rewrite (filter_unique t (rows d) U Hin). simpl.
  f_equal. f_equal.
  apply map_ext_in. intros u Hu.
  destruct (id u =? id t) eqn:E; [|reflexivity].
  apply Z.eqb_eq in E.
  assert (In u (filter (fun u => id u =? id t) (rows d))) as Hf.
  { apply filter_In. split; [exact Hu|apply Z.eqb_eq, E]. }
  rewrite (filter_unique t (rows d) U Hin) in Hf.
  destruct Hf as [->|[]]. reflexivity.
Qed.


(** *** Requests for an id that is not in the table *)

Lemma todo_delete_leaves_absent (d : db) (p : string) (r : response) (d1 : db) :
  deleteTodo int4_in d p = (r, d1) -> status r = 200 ->
  online d1 = true /\ exists k, int4_in p = Some k /\ absent k d1.
Proof.
  unfold deleteTodo, delete.
  destruct (online d) eqn:O; simpl.
  2:{ intros E. injection E as <- _. discriminate. }
  destruct (int4_in p) as [k|].
  2:{ intros E. injection E as <- _. discriminate. }
  intros E _. injection E as _ <-. simpl.
  split; [reflexivity|]. exists k. split; [reflexivity|].
  intros t Hin. simpl in Hin. apply filter_In in Hin. destruct Hin as [_ Hin].
  intros E. rewrite E, Z.eqb_refl in Hin. discriminate.
Qed.

Lemma todo_get_absent (d : db) (p : string) (k : Z) :
  online d = true -> int4_in p = Some k -> absent k d ->
  getTodo int4_in d p = (not_found p, d).
Proof.
  intros O Hp A. unfold getTodo, select_by_id. rewrite O, Hp. simpl.
  rewrite (filter_absent k (rows d) A). reflexivity.
Qed.

Lemma map_absent (k : Z) (f : todo -> todo) (l : list todo) :
  (forall t, In t l -> id t <> k) ->
  map (fun t => if id t =? k then f t else t) l = l.
Proof.
  intros A. rewrite <- (map_id l) at 2. apply map_ext_in.
  intros t Hin. destruct (id t =? k) eqn:E; [|reflexivity].
  apply Z.eqb_eq in E. exfalso. exact (A t Hin E).
Qed.

Lemma todo_put_absent (d : db) (now : Z) (p : string) (k : Z) (b : req_body) :
  online d = true -> int4_in p = Some k -> absent k d ->
  (accepted_update b = true -> updateTodo int4_in d now p b = (not_found p, d)) /\
  status (fst (updateTodo int4_in d now p b)) <> 200.
Proof.
  intros O Hp A. destruct d as [o rs sq]. unfold absent in A. simpl in O, A. subst o.
  unfold accepted_update, updateTodo.
  destruct (title_fields (body_title b)) as [bad|ft] eqn:Et.
  { split; [discriminate|].
    destruct (body_title b) as [| | | |s|]; simpl in Et; try discriminate;
      try (injection Et as <-; simpl; discriminate).
    destruct (Js.trim s =? "")%string; [|discriminate].
    injection Et as <-. simpl. discriminate. }
  destruct (completed_fields (body_completed b)) as [bad|fc] eqn:Ec.
  { split; [discriminate|].
    destruct (body_completed b); simpl in Ec; try discriminate;
      injection Ec as <-; simpl; discriminate. }
  destruct (List.length (ft ++ fc) =? 0)%nat; [split; simpl; discriminate|].
  unfold update. simpl.
  rewrite !existsb_app. simpl. rewrite !orb_false_r.
  assert (existsb overlong fc = false /\ existsb holds_nul fc = false) as [Hfc Hfn].
  { destruct (body_completed b); simpl in Ec; try discriminate;
      injection Ec as <-; split; reflexivity. }
  rewrite Hfc, Hfn, !orb_false_r.
  destruct (existsb holds_nul ft); [split; simpl; discriminate|].
  rewrite Hp.
  destruct (existsb overlong ft); [split; simpl; discriminate|].
  rewrite (filter_absent k rs A). simpl.
  rewrite (map_absent k _ rs A).
  split; [reflexivity|simpl; discriminate].
Qed.

Lemma todo_delete_absent (d : db) (p : string) (k : Z) :
  online d = true -> int4_in p = Some k -> absent k d ->
  deleteTodo int4_in d p = (mkResponse 200 (MessageBody "Todo deleted"), d).
Proof.
  intros O Hp A. destruct d as [o rs sq]. unfold absent in A. simpl in O, A. subst o.
  unfold deleteTodo, delete. simpl. rewrite Hp. simpl.
  f_equal. f_equal.
  clear - A.
  induction rs as [|a l IH]; simpl; [reflexivity|].
  destruct (id a =? k) eqn:E.
  - apply Z.eqb_eq in E. exfalso. apply (A a); [left; reflexivity|exact E].
  - simpl. f_equal. apply IH. intros t Hin. apply A. right. exact Hin.
Qed.

End WithServer.

End TodosFacts.

(** ** The products API *)

Module ProductsFacts.

Import Products.
Local Open Scope Z_scope.

Lemma find_absent (oid : N) (l : list product) :
  (forall p, In p l -> _id p <> oid) ->
  List.find (fun p => (_id p =? oid)%N) l = None.
Proof.
  induction l as [|a l IH]; simpl; intros A; [reflexivity|].
  destruct (_id a =? oid)%N eqn:E.
  - apply N.eqb_eq in E. exfalso. apply (A a); [left; reflexivity|exact E].
  - apply IH. intros p Hin. apply A. right. exact Hin.
Qed.

Lemma remove_first_absent (oid : N) (l : list product) :
  (forall p, In p l -> _id p <> oid) -> remove_first oid l = l.
Proof.
  induction l as [|a l IH]; simpl; intros A; [reflexivity|].
  destruct (_id a =? oid)%N eqn:E.
  - apply N.eqb_eq in E. exfalso. apply (A a); [left; reflexivity|exact E].
  - f_equal. apply IH. intros p Hin. apply A. right. exact Hin.
Qed.

Lemma remove_first_gone (oid : N) (l : list product) :
  NoDup (map _id l) -> forall p, In p (remove_first oid l) -> _id p <> oid.
Proof.
  induction l as [|a l IH]; simpl; intros U p Hin; [contradiction|].
  inversion U as [|? ? Ha U']; subst.
  destruct (_id a =? oid)%N eqn:E.
  - apply N.eqb_eq in E. intros E'. apply Ha. rewrite E, <- E'. apply in_map, Hin.
  - destruct Hin as [<-|Hin].
    + apply N.eqb_neq, E.
    + apply IH; assumption.
Qed.

Lemma update_first_ids (oid : N) (f : product -> product) (l : list product) :
  (forall p, _id (f p) = _id p) -> map _id (update_first oid f l) = map _id l.
Proof.
  intros Hf. induction l as [|a l IH]; simpl; [reflexivity|].
  destruct (_id a =? oid)%N; simpl; [rewrite Hf|rewrite IH]; reflexivity.
Qed.

Lemma update_first_absent (oid : N) (f : product -> product) (l : list product) :
  (forall p, In p l -> _id p <> oid) -> update_first oid f l = l.
Proof.
  induction l as [|a l IH]; simpl; intros A; [reflexivity|].
  destruct (_id a =? oid)%N eqn:E.
  - apply N.eqb_eq in E. exfalso. apply (A a); [left; reflexivity|exact E].
  - f_equal. apply IH. intros p Hin. apply A. right. exact Hin.
Qed.

Lemma update_first_Forall (P : product -> Prop) (oid : N) (f : product -> product)
      (l : list product) :
  (forall p, P p -> P (f p)) -> Forall P l -> Forall P (update_first oid f l).
Proof.
  intros Hf. induction 1 as [|a l Ha F IH]; simpl; [constructor|].
  destruct (_id a =? oid)%N; constructor; auto.
Qed.

Lemma remove_first_incl (oid : N) (l : list product) (p : product) :
  In p (remove_first oid l) -> In p l.
Proof.
  induction l as [|a l IH]; simpl; [tauto|].
  destruct (_id a =? oid)%N; simpl; [tauto|]. intros [E|Hin]; [left; exact E|right; auto].
Qed.

Lemma remove_first_NoDup (oid : N) (l : list product) :
  NoDup (map _id l) -> NoDup (map _id (remove_first oid l)).
Proof.
  induction l as [|a l IH]; simpl; intros U; [constructor|].
  inversion U as [|? ? Ha U']; subst.
  destruct (_id a =? oid)%N; simpl; [exact U'|].
  constructor; [|apply IH, U'].
  intros Hin. apply Ha.
  apply in_map_iff in Hin. destruct Hin as [x [E Hx]].
  rewrite <- E. apply in_map. eapply remove_first_incl, Hx.
Qed.

Lemma updated_document_trimmed (now : Z) (b : input) (p : product) :
  Js.trimmed (name p) -> Js.trimmed (name (updated_document now b p)).
Proof.
  intros T. unfold updated_document. simpl.
  destruct (in_name b); [apply JsFacts.trim_trimmed|exact T].
Qed.

Lemma new_document_trimmed (oid : N) (now : Z) (b : input) :
  Js.trimmed (name (new_document oid now b)).
Proof.
  unfold new_document. simpl.
  destruct (in_name b); [apply JsFacts.trim_trimmed|split; reflexivity].
Qed.

Section WithMongoose.

Variable castObjectId : string -> option N.

(** A request leaves the collection alone, appends one new document under an
    id no document has, rewrites the first document of one id, or removes
    it. *)
Lemma product_handle_shape (s : store) (now : Z) (oid : N) (r : request) :
  let s' := snd (handle castObjectId s now oid r) in
  s' = s
  \/ (exists b, absent oid s /\
                products s' = (products s ++ [new_document oid now b])%list)
  \/ (exists k b, products s' = update_first k (updated_document now b) (products s))
  \/ (exists k, products s' = remove_first k (products s)).
Proof.
  destruct r as [q|b|id|id b|id]; simpl.
  - unfold listProducts. destruct (find s _); simpl; auto.
  - unfold createProduct, create.
    destruct (validate_new b); [|simpl; auto].
    destruct (negb (readyState s =? 1)); [simpl; auto|].
    destruct (existsb _ (products s)) eqn:E; [simpl; auto|].
    simpl. right; left. exists b. split; [|reflexivity].
    intros p Hin Hp.
    assert (existsb (fun p => (_id p =? oid)%N) (products s) = true) as E'.
    { apply existsb_exists. exists p. split; [exact Hin|apply N.eqb_eq, Hp]. }
    rewrite E in E'. discriminate.
  - unfold getProduct. destruct (findById castObjectId s id) as [[p|]|e]; simpl; auto.
    destruct (isCastError e); simpl; auto.
  - unfold updateProduct, findByIdAndUpdate.
    destruct (castObjectId id) as [k|]; [|simpl; auto].
    destruct (validate_update b); [|simpl; auto].
    destruct (negb (readyState s =? 1)); [simpl; auto|].
    destruct (List.find _ (products s)); simpl; right; right; left; exists k, b; reflexivity.
  - unfold deleteProduct, findByIdAndDelete.
    destruct (castObjectId id) as [k|]; [|simpl; auto].
    destruct (negb (readyState s =? 1)); [simpl; auto|].
    destruct (List.find _ (products s)); simpl; right; right; right; exists k; reflexivity.
Qed.

Lemma product_handle_invariants (s : store) (now : Z) (oid : N) (r : request) :
  unique_ids s /\ names_trimmed s ->
  unique_ids (snd (handle castObjectId s now oid r)) /\
  names_trimmed (snd (handle castObjectId s now oid r)).
Proof.
  intros [U T]. unfold unique_ids, names_trimmed in *.
  destruct (product_handle_shape s now oid r) as [E|[[b [A E]]|[[k [b E]]|[k E]]]].
  - rewrite E. auto.
  - rewrite E. split.
    + rewrite map_app. simpl.
      assert (Hn : ~ In oid (map _id (products s))).
      { intros Hin. apply in_map_iff in Hin. destruct Hin as [x [Ex Hx]].
        exact (A x Hx Ex). }
      clear - U Hn. induction (map _id (products s)) as [|a l IH]; simpl.
      * constructor; [intros []|constructor].
      * inversion U as [|? ? Ha U']; subst.
        constructor.
        -- intros Hin. apply in_app_or in Hin. destruct Hin as [Hin|[Hin|[]]].
           ++ exact (Ha Hin).
           ++ apply Hn. left. symmetry. exact Hin.
        -- apply IH; [exact U'|]. intros Hin. apply Hn. right. exact Hin.
    + apply Forall_app. split; [exact T|].
      constructor; [apply new_document_trimmed|constructor].
  - rewrite E. split.
    + rewrite update_first_ids; [exact U|reflexivity].
    + apply update_first_Forall; [apply updated_document_trimmed|exact T].
  - rewrite E. split.
    + apply remove_first_NoDup, U.
    + apply Forall_forall. intros p Hin. apply remove_first_incl in Hin.
      rewrite Forall_forall in T. apply T, Hin.
Qed.

Lemma product_reachable_invariants (s : store) :
  reachable castObjectId s -> unique_ids s /\ names_trimmed s.
Proof.
  induction 1 as [rs|s now oid r R IH|s rs R IH].
  - unfold unique_ids, names_trimmed. simpl. split; constructor.
  - apply product_handle_invariants, IH.
  - exact IH.
Qed.

Lemma product_put_absent (s : store) (now : Z) (id : string) (oid : N) (b : input) :
  readyState s = 1 -> castObjectId id = Some oid -> absent oid s ->
  (accepted_update b = true ->
   updateProduct castObjectId s now id b
     = (mkResponse 404 (ErrorBody "Product not found"), s)) /\
  status (fst (updateProduct castObjectId s now id b)) <> 200.
Proof.
  intros C Hc A. destruct s as [rs ps]. unfold absent in A. simpl in C, A. subst rs.
  unfold accepted_update, updateProduct, findByIdAndUpdate. rewrite Hc.
  destruct (validate_update b); simpl.
  - rewrite (find_absent oid ps A), (update_first_absent oid _ ps A). simpl.
    split; [reflexivity|discriminate].
  - split; discriminate.
Qed.

(** Fetch-or-404: deleting an id no document has answers 404 and changes
    nothing. *)
Lemma product_delete_absent (s : store) (id : string) (oid : N) :
  readyState s = 1 -> castObjectId id = Some oid -> absent oid s ->
  deleteProduct castObjectId s id = (mkResponse 404 (ErrorBody "Product not found"), s).
Proof.
  intros C Hc A. destruct s as [rs ps]. unfold absent in A. simpl in C, A. subst rs.
  unfold deleteProduct, findByIdAndDelete. rewrite Hc. simpl.
  rewrite (find_absent oid ps A), (remove_first_absent oid ps A). reflexivity.
Qed.

Lemma product_get_absent (s : store) (id : string) (oid : N) :
  readyState s = 1 -> castObjectId id = Some oid -> absent oid s ->
  getProduct castObjectId s id = (mkResponse 404 (ErrorBody "Product not found"), s).
Proof.
  intros C Hc A. unfold getProduct, findById. rewrite Hc, C. simpl.
  rewrite (find_absent oid (products s) A). reflexivity.
Qed.

Lemma product_delete_leaves_absent (s : store) (id : string) (r : response) (s1 : store) :
  unique_ids s ->
  deleteProduct castObjectId s id = (r, s1) -> status r = 200 ->
  readyState s1 = 1 /\ exists oid, castObjectId id = Some oid /\ absent oid s1.
Proof.
  intros U. unfold deleteProduct, findByIdAndDelete.
  destruct (castObjectId id) as [oid|].
  2:{ simpl. intros E. injection E as <- _. discriminate. }
  destruct (readyState s =? 1) eqn:C; simpl.
  2:{ intros E. injection E as <- _. discriminate. }
  destruct (List.find _ (products s)).
  2:{ intros E. injection E as <- _. discriminate. }
  intros E _. injection E as _ <-. simpl.
  split; [apply Z.eqb_eq, C|].
  exists oid. split; [reflexivity|].
  unfold absent. simpl. apply remove_first_gone, U.
Qed.

End WithMongoose.

(** With the connection up the list endpoint answers 200 with: every
    document, when the [category] parameter is absent or empty; otherwise
    exactly the documents, in collection order, whose category equals the
    parameter's value as the schema casts it, that is, trimmed. *)
Lemma product_list_filter (s : store) :
  readyState s = 1 ->
  listProducts s None
    = (mkResponse 200 (ListBody (List.length (products s)) (products s)), s) /\
  listProducts s (Some ""%string)
    = (mkResponse 200 (ListBody (List.length (products s)) (products s)), s) /\
  (forall v, v <> ""%string ->
     exists l,
       listProducts s (Some v) = (mkResponse 200 (ListBody (List.length l) l), s) /\
       l = filter (fun p => (category p =? Js.trim v)%string) (products s) /\
       forall p, In p l <-> In p (products s) /\ category p = Js.trim v).
Proof.
  intros C. unfold listProducts, find. rewrite C. simpl.
  split; [reflexivity|]. split; [reflexivity|].
  intros v Hv. destruct v as [|a v']; [contradiction|]. simpl.
  eexists. split; [reflexivity|]. split; [reflexivity|].
  intros p. rewrite filter_In, String.eqb_eq. reflexivity.
Qed.

End ProductsFacts.

(** ** The inventory API *)

Module InventoryFacts.

Import Inventory.
Local Open Scope Z_scope.

Lemma get_app (m m' : map) (key : string) :
  get (m ++ m')%list key = match get m key with Some v => Some v | None => get m' key end.
Proof.
  induction m as [|[k v] m IH]; simpl; [reflexivity|].
  destruct (k =? key)%string; [reflexivity|exact IH].
Qed.

Lemma merge_first_keeps (m : map) (k v key value : string) :
  get m key = Some value -> get (merge_first m k v) key = Some value.
Proof.
  intros G. unfold merge_first. destruct (get m k); [exact G|].
  rewrite get_app, G. reflexivity.
Qed.

Lemma merge_first_has (m : map) (k v : string) :
  exists value, get (merge_first m k v) k = Some value.
Proof.
  unfold merge_first. destruct (get m k) as [x|] eqn:G.
  - exists x. exact G.
  - exists v. rewrite get_app, G. simpl. rewrite String.eqb_refl. reflexivity.
Qed.

Lemma fold_merge_keeps (errors : list FieldError) (m : map) (key value : string) :
  get m key = Some value ->
  get (fold_left
         (fun m fe =>
            merge_first m (getField fe)
              (match getDefaultMessage fe with
               | Some msg => msg
               | None => "Invalid value"%string
               end))
         errors m) key = Some value.
Proof.
  revert m. induction errors as [|fe errors IH]; intros m G; simpl; [exact G|].
  apply IH, merge_first_keeps, G.
Qed.

(** Every field in error has an entry in the map. *)
Lemma toMap_has (errors : list FieldError) (fe : FieldError) :
  In fe errors -> exists value, get (toMap errors) (getField fe) = Some value.
Proof.
  unfold toMap. generalize (@nil (string * string)) as m.
  induction errors as [|e errors IH]; intros m Hin; [destruct Hin|].
  simpl. destruct Hin as [->|Hin].
  - destruct (merge_first_has m (getField fe)
                (match getDefaultMessage fe with
                 | Some msg => msg
                 | None => "Invalid value"%string
                 end)) as [value G].
    exists value. apply fold_merge_keeps, G.
  - apply IH, Hin.
Qed.

(** The first error reported for a field is the one the map shows. *)
Lemma toMap_first (fe : FieldError) (errors : list FieldError) (msg : string) :
  getDefaultMessage fe = Some msg ->
  get (toMap (fe :: errors)) (getField fe) = Some msg.
Proof.
  intros E. unfold toMap. simpl. apply fold_merge_keeps.
  unfold merge_first. simpl. rewrite E, String.eqb_refl. reflexivity.
Qed.

(** What [listItems] shows with the database up. *)
Lemma item_list_filter (d : db) (now : Z) :
  up d = true ->
  listItems d now None = mkResponse 200 (ItemList (items d)) /\
  (forall v, isBlank v = true ->
             listItems d now (Some v) = mkResponse 200 (ItemList (items d))) /\
  (forall v, isBlank v = false ->
     exists l,
       listItems d now (Some v) = mkResponse 200 (ItemList l) /\
       forall i, In i l <-> In i (items d) /\ warehouse i = Some v).
Proof.
  intros U. unfold listItems, findAll, findByWarehouse. rewrite U.
  split; [reflexivity|]. split.
  - intros v B. rewrite B. reflexivity.
  - intros v B. rewrite B. simpl. eexists. split; [reflexivity|].
    intros i. rewrite filter_In. split.
    + intros [Hin E]. split; [exact Hin|].
      destruct (warehouse i) as [x|]; [|discriminate].
      apply String.eqb_eq in E. rewrite E. reflexivity.
    + intros [Hin E]. split; [exact Hin|]. rewrite E. apply String.eqb_refl.
Qed.

(** A payload that fails validation is answered by [handleValidation] and
    never saved. *)
Lemma invalid_item_is_rejected (save : db -> Z -> Item -> exception + (Item * db))
      (d : db) (now : Z) (item : Item) (fe : FieldError) (errors : list FieldError) :
  validate item = fe :: errors ->
  createItem save d now item = (handleValidation now (fe :: errors), d).
Proof. intros E. unfold createItem. rewrite E. reflexivity. Qed.

End InventoryFacts.

(** ** The PHP router *)

Module PhpRouterFacts.

Import PhpRouter.
Import JsFacts.

Lemma at_end_spec (s : string) :
  at_end s = true <-> s = EmptyString \/ s = String "010"%char EmptyString.
Proof.
  destruct s as [|c [|c' s']]; simpl.
  - split; auto.
  - rewrite Ascii.eqb_eq. split.
    + intros ->. right. reflexivity.
    + intros [E|E]; [discriminate|]. injection E as ->. reflexivity.
  - split; [discriminate|]. intros [E|E]; discriminate.
Qed.

Lemma strtoupper_idem (s : string) : strtoupper (strtoupper s) = strtoupper s.
Proof.
  induction s as [|c s IH]; simpl; [reflexivity|]. rewrite IH. f_equal.
  unfold toupper.
  destruct ((97 <=? N_of_ascii c) && (N_of_ascii c <=? 122))%N eqn:E.
  - apply andb_prop in E. destruct E as [E1 E2].
    apply N.leb_le in E1, E2.
    rewrite N_ascii_embedding by lia.
    replace ((97 <=? N_of_ascii c - 32)%N) with false; [reflexivity|].
    symmetry. apply N.leb_gt. lia.
  - rewrite E. reflexivity.
Qed.

(** *** The group [[^/]+] *)

Lemma capture_then_sound (k : string -> string -> option params) (s seg : string)
      (ps : params) :
  capture_then k seg s = Some ps ->
  exists taken rest,
    taken <> EmptyString /\ slash_free taken = true /\
    s = (taken ++ rest)%string /\ k (seg ++ taken)%string rest = Some ps.
Proof.
  revert seg. induction s as [|c s IH]; intros seg; simpl; [discriminate|].
  destruct (Ascii.eqb c "/") eqn:Ec; [discriminate|].
  destruct (capture_then k (seg ++ String c EmptyString) s) as [ps'|] eqn:E.
  - intros H. injection H as <-.
    destruct (IH _ E) as [taken [rest [Hn [Hs [Hc Hk]]]]].
    exists (String c taken), rest. repeat split.
    + discriminate.
    + simpl. rewrite Ec, Hs. reflexivity.
    + simpl. rewrite Hc. reflexivity.
    + rewrite append_assoc in Hk. exact Hk.
  - intros H. exists (String c EmptyString), s. repeat split.
    + discriminate.
    + simpl. rewrite Ec. reflexivity.
    + exact H.
Qed.

Lemma capture_then_complete (k : string -> string -> option params)
      (taken rest seg : string) (ps : params) :
  taken <> EmptyString -> slash_free taken = true ->
  k (seg ++ taken)%string rest = Some ps ->
  exists ps', capture_then k seg (taken ++ rest)%string = Some ps'.
Proof.
  revert seg. induction taken as [|c t IH]; intros seg Hn Hs Hk; [contradiction|].
  simpl in Hs. apply andb_prop in Hs. destruct Hs as [Hc Hs].
  simpl. apply negb_true_iff in Hc. rewrite Hc.
  destruct (capture_then k (seg ++ String c EmptyString) (t ++ rest)) as [ps1|] eqn:E.
  - exists ps1. reflexivity.
  - destruct t as [|c' t'].
    + simpl. exists ps. exact Hk.
    + exfalso.
      destruct (IH (seg ++ String c EmptyString)%string) as [ps1 H1].
      * discriminate.
      * exact Hs.
      * rewrite append_assoc. exact Hk.
      * rewrite H1 in E. discriminate.
Qed.

(** *** [preg_match] against the declarative match *)

Lemma preg_match_sound (p : list token) (s : string) (ps : params) :
  preg_match p s = Some ps -> subject_match p s ps.
Proof.
  revert s ps. induction p as [|t p IH]; intros s ps; simpl.
  - destruct (at_end s) eqn:E; [|discriminate].
    intros H. injection H as <-.
    apply at_end_spec in E. destruct E as [->| ->].
    + left. constructor.
    + right. exists EmptyString. split; [reflexivity|constructor].
  - destruct t as [c|n].
    + destruct s as [|c' s']; [discriminate|].
      destruct (Ascii.eqb c c') eqn:Ec; [|discriminate].
      apply Ascii.eqb_eq in Ec. subst c'.
      intros H. destruct (IH _ _ H) as [W|[u [-> W]]].
      * left. constructor. exact W.
      * right. exists (String c u). split; [reflexivity|constructor; exact W].
    + intros H. apply capture_then_sound in H.
      destruct H as [taken [rest [Hn [Hs [-> Hk]]]]]. simpl in Hk.
      destruct (preg_match p rest) as [ps'|] eqn:E; [|discriminate].
      injection Hk as <-.
      destruct (IH _ _ E) as [W|[u [-> W]]].
      * left. constructor; assumption.
      * right. exists (taken ++ u)%string. split.
        -- rewrite append_assoc. reflexivity.
        -- constructor; assumption.
Qed.

Lemma whole_match_preg_match (p : list token) (s : string) (ps : params) (tail : string) :
  whole_match p s ps -> at_end tail = true ->
  exists ps', preg_match p (s ++ tail)%string = Some ps'.
Proof.
  intros W T. induction W as [|c p s ps W IH|n seg p s ps Hn Hs W IH]; simpl.
  - rewrite T. exists []. reflexivity.
  - rewrite Ascii.eqb_refl. exact IH.
  - destruct IH as [ps' IH]. rewrite append_assoc.
    eapply capture_then_complete with (ps := (n, seg) :: ps'); [exact Hn|exact Hs|].
    simpl. rewrite IH. reflexivity.
Qed.

Lemma preg_match_complete (p : list token) (s : string) (ps : params) :
  subject_match p s ps -> exists ps', preg_match p s = Some ps'.
Proof.
  intros [W|[u [-> W]]].
  - rewrite <- (append_empty_r s).
    eapply whole_match_preg_match; [exact W|reflexivity].
  - eapply whole_match_preg_match; [exact W|reflexivity].
Qed.

(** *** The loop of [dispatch] *)

Lemma dispatch_routes_skips (r : route) (rest : list route) (m uri : string) :
  ~ (method r = strtoupper m /\ exists ps, subject_match (pattern r) uri ps) ->
  dispatch_routes (r :: rest) m uri = dispatch_routes rest m uri.
Proof.
  intros N. simpl.
  destruct (method r =? strtoupper m)%string eqn:E; simpl; [|reflexivity].
  destruct (preg_match (pattern r) uri) as [ps|] eqn:P; [|reflexivity].
  exfalso. apply N. split; [apply String.eqb_eq, E|].
  exists ps. apply preg_match_sound, P.
Qed.

Lemma dispatch_routes_first (before : list route) (r : route) (after : list route)
      (m uri : string) :
  Forall (fun r' => ~ (method r' = strtoupper m /\
                       exists ps, subject_match (pattern r') uri ps)) before ->
  method r = strtoupper m -> (exists ps, subject_match (pattern r) uri ps) ->
  exists ps,
    dispatch_routes (before ++ r :: after) m uri
      = Invoke (fst (handler r)) (snd (handler r)) ps /\
    subject_match (pattern r) uri ps.
Proof.
  intros F Hm [ps0 Hps0].
  induction F as [|r' before N F IH].
  - simpl. rewrite Hm, String.eqb_refl. simpl.
    destruct (preg_match_complete _ _ _ Hps0) as [ps P]. rewrite P.
    exists ps. split; [reflexivity|apply preg_match_sound, P].
  - rewrite <- app_comm_cons, dispatch_routes_skips by exact N. exact IH.
Qed.

Lemma dispatch_routes_none (routes : list route) (m uri : string) :
  Forall (fun r' => ~ (method r' = strtoupper m /\
                       exists ps, subject_match (pattern r') uri ps)) routes ->
  dispatch_routes routes m uri = Respond 404 "Route not found" uri.
Proof.
  induction 1 as [|r' routes N F IH]; [reflexivity|].
  rewrite dispatch_routes_skips by exact N. exact IH.
Qed.

Lemma dispatch_unfold (routes : list route) (override : option string) (method uri : string) :
  exists m, dispatch routes override method uri = dispatch_routes routes m uri /\
            strtoupper m = effective_method override method.
Proof.
  unfold dispatch, effective_method.
  destruct override as [o|]; [|exists method; split; reflexivity].
  destruct (method =? "POST")%string.
  - exists (strtoupper o). split; [reflexivity|apply strtoupper_idem].
  - exists method. split; reflexivity.
Qed.

(** C8, as the code has it. For routes whose paths are plain text with
    well-named placeholders: [dispatch] invokes the handler of the first
    registered route that answers to the request, that is, whose method
    equals the request's effective method (the request method in upper case,
    or the [_method] field in upper case when the request is a POST that
    carries one) and whose pattern, each [{name}] standing for one non-empty
    run without a slash, covers the request URI up to a line feed that may end
    it; the params are the named captures of such a match.  If no registered
    route answers, it responds 404 with an error body that repeats the
    URI. *)
Theorem dispatch_first_match (routes : list route) (override : option string)
        (method uri : string) :
  Forall well_formed routes ->
  (forall before r after,
      routes = (before ++ r :: after)%list ->
      Forall (fun r' => ~ selected override method uri r') before ->
      selected override method uri r ->
      exists ps,
        dispatch routes override method uri
          = Invoke (fst (handler r)) (snd (handler r)) ps /\
        subject_match (pattern r) uri ps) /\
  (Forall (fun r' => ~ selected override method uri r') routes ->
   dispatch routes override method uri = Respond 404 "Route not found" uri).
Proof.
  intros _.
  destruct (dispatch_unfold routes override method uri) as [m [-> Hm]].
  unfold selected. rewrite <- Hm.
  split.
  - intros before r after -> F [Hr Hps].
    apply dispatch_routes_first; assumption.
  - apply dispatch_routes_none.
Qed.

End PhpRouterFacts.

(** ** Across the two Express services *)

Module ServiceFacts.

Local Open Scope Z_scope.

(** C1, as the code has it. In the products API delete is fetch-or-404:
    deleting an id that no document has answers 404, and after a DELETE
    answered with 200 a GET or a DELETE for that id answers 404, and a PUT
    never answers 200 and answers 404 when its body is acceptable.  In the
    todos API DELETE is idempotent: it answers 200 whether or not a row has
    the id and leaves a table without that row; after a DELETE answered with
    200 a GET for that id answers 404, a PUT never answers 200 and answers 404
    when its body is acceptable, and a second DELETE answers 200 again. *)
Theorem requests_after_delete (int4_in : string -> option Z)
        (castObjectId : string -> option N) :
  (forall d p r d1,
      Todos.deleteTodo int4_in d p = (r, d1) -> Todos.status r = 200 ->
      Todos.getTodo int4_in d1 p = (Todos.not_found p, d1) /\
      (forall now b,
          Todos.status (fst (Todos.updateTodo int4_in d1 now p b)) <> 200 /\
          (Todos.accepted_update b = true ->
           Todos.updateTodo int4_in d1 now p b = (Todos.not_found p, d1))) /\
      Todos.deleteTodo int4_in d1 p
        = (Todos.mkResponse 200 (Todos.MessageBody "Todo deleted"), d1)) /\
  (forall d p k,
      Todos.online d = true -> int4_in p = Some k -> Todos.absent k d ->
      Todos.deleteTodo int4_in d p
        = (Todos.mkResponse 200 (Todos.MessageBody "Todo deleted"), d)) /\
  (forall s id r s1,
      Products.reachable castObjectId s ->
      Products.deleteProduct castObjectId s id = (r, s1) -> Products.status r = 200 ->
      Products.getProduct castObjectId s1 id
        = (Products.mkResponse 404 (Products.ErrorBody "Product not found"), s1) /\
      (forall now b,
          Products.status (fst (Products.updateProduct castObjectId s1 now id b)) <> 200 /\
          (Products.accepted_update b = true ->
           Products.updateProduct castObjectId s1 now id b
             = (Products.mkResponse 404 (Products.ErrorBody "Product not found"), s1))) /\
      Products.deleteProduct castObjectId s1 id
        = (Products.mkResponse 404 (Products.ErrorBody "Product not found"), s1)) /\
  (forall s id oid,
      Products.readyState s = 1 -> castObjectId id = Some oid -> Products.absent oid s ->
      Products.deleteProduct castObjectId s id
        = (Products.mkResponse 404 (Products.ErrorBody "Product not found"), s)).
Proof.
  split; [|split; [|split]].
  - intros d p r d1 E S.
    destruct (TodosFacts.todo_delete_leaves_absent int4_in d p r d1 E S) as [O [k [Hp A]]].
    split; [apply (TodosFacts.todo_get_absent int4_in d1 p k O Hp A)|].
    split; [|apply (TodosFacts.todo_delete_absent int4_in d1 p k O Hp A)].
    intros now b.
    destruct (TodosFacts.todo_put_absent int4_in d1 now p k b O Hp A) as [H1 H2].
    split; assumption.
  - intros d p k. apply TodosFacts.todo_delete_absent.
  - intros s id r s1 R E S.
    destruct (ProductsFacts.product_reachable_invariants castObjectId s R) as [U _].
    destruct (ProductsFacts.product_delete_leaves_absent castObjectId s id r s1 U E S)
      as [C [oid [Hc A]]].
    split; [apply (ProductsFacts.product_get_absent castObjectId s1 id oid C Hc A)|].
    split; [|apply (ProductsFacts.product_delete_absent castObjectId s1 id oid C Hc A)].
    intros now b.
    destruct (ProductsFacts.product_put_absent castObjectId s1 now id oid b C Hc A)
      as [H1 H2].
    split; assumption.
  - intros s id oid. apply ProductsFacts.product_delete_absent.
Qed.

(** C5. The health endpoints have exactly two outcomes.  express-mongo: 200
    with [{status: 'ok', database: 'ok', timestamp}] when the connection is in
    state 1, and 500 with [{status: 'error', database: 'unavailable',
    timestamp}] in every other state.  react-node: 200 with the same fields
    when the probe query succeeds, and 503 with status, database, the error's
    message and the timestamp when it does not. *)
Theorem health_outcomes :
  (forall s now,
      (Products.readyState s = 1 /\
       Products.health s now
         = Products.mkResponse 200 (Products.HealthBody "ok" "ok" now)) \/
      (Products.readyState s <> 1 /\
       Products.health s now
         = Products.mkResponse 500 (Products.HealthBody "error" "unavailable" now))) /\
  (forall d now,
      (Todos.online d = true /\
       Todos.health d now
         = (Todos.mkResponse 200 (Todos.HealthOk "ok" "ok" now), d)) \/
      (Todos.online d = false /\
       Todos.health d now
         = (Todos.mkResponse 503
              (Todos.HealthError "error" "unreachable" Todos.ConnectionFailure now), d))).
Proof.
  split.
  - intros s now. unfold Products.health.
    destruct (Products.readyState s =? 1) eqn:E; simpl.
    + left. split; [apply Z.eqb_eq, E|reflexivity].
    + right. split; [apply Z.eqb_neq, E|reflexivity].
  - intros d now. unfold Todos.health, Todos.select_one.
    destruct (Todos.online d); simpl; [left|right]; split; reflexivity.
Qed.

(** C9. Whenever a list response carries the envelope, its count is the
    number of records in its array; with the database reachable the envelope
    is what the list endpoints answer. *)
Theorem list_count_is_length :
  (forall d r d' c l,
      Todos.listTodos d = (r, d') -> Todos.body r = Todos.ListBody c l ->
      c = List.length l) /\
  (forall s q r s' c l,
      Products.listProducts s q = (r, s') -> Products.body r = Products.ListBody c l ->
      c = List.length l) /\
  (forall d, Todos.online d = true ->
      exists c l, Todos.body (fst (Todos.listTodos d)) = Todos.ListBody c l) /\
  (forall s q, Products.readyState s = 1 ->
      exists c l, Products.body (fst (Products.listProducts s q)) = Products.ListBody c l).
Proof.
  split; [|split; [|split]].
  - intros d r d' c l. unfold Todos.listTodos, Todos.select_all.
    destruct (negb (Todos.online d)); simpl; intros E; injection E as <- _; simpl;
      [discriminate|].
    intros B. injection B as <- <-. reflexivity.
  - intros s q r s' c l. unfold Products.listProducts, Products.find.
    destruct (negb (Products.readyState s =? 1)); simpl.
    { intros E; injection E as <- _; discriminate. }
    destruct (Products.filter_category _); intros E; injection E as <- _; simpl;
      intros B; injection B as <- <-; reflexivity.
  - intros d O. unfold Todos.listTodos, Todos.select_all. rewrite O. simpl.
    eexists _, _. reflexivity.
  - intros s q C. unfold Products.listProducts, Products.find. rewrite C. simpl.
    destruct (Products.filter_category _); simpl; eexists _, _; reflexivity.
Qed.

Lemma join_errors_names (path msg : string) (errors : list (string * string)) :
  In (path, msg) errors -> Products.names_field path (Products.join_errors errors).
Proof.
  induction errors as [|[p m] rest IH]; [intros []|].
  intros [E|Hin].
  - injection E as -> ->.
    exists ""%string.
    destruct rest as [|e rest]; simpl; eexists; reflexivity.
  - destruct rest as [|e rest]; [destruct Hin|].
    destruct (IH Hin) as [pre [post E]].
    exists (p ++ ": " ++ m ++ ", " ++ pre)%string, post.
    change (Products.join_errors ((p, m) :: e :: rest))
      with (p ++ ": " ++ m ++ ", " ++ Products.join_errors (e :: rest))%string.
    rewrite E. rewrite !JsFacts.append_assoc. reflexivity.
Qed.

Lemma invalid_product_is_rejected (s : Products.store) (now : Z) (oid : N)
      (b : Products.input) (path msg : string) :
  In (path, msg) (Products.validate_new b) ->
  exists text,
    Products.createProduct s now oid b
      = (Products.mkResponse 400 (Products.ErrorBody text), s) /\
    Products.names_field path text.
Proof.
  intros Hin. unfold Products.createProduct, Products.create.
  destruct (Products.validate_new b) as [|e errors] eqn:E; [destruct Hin|].
  exists (Products.error_message
            (Products.ValidationError "Product validation failed" (e :: errors))).
  split; [reflexivity|].
  destruct (join_errors_names path msg (e :: errors) Hin) as [pre [post Ej]].
  exists ("Product validation failed: " ++ pre)%string, post.
  unfold Products.error_message.
  rewrite Ej. rewrite !JsFacts.append_assoc. reflexivity.
Qed.

(** C4. A creation payload that omits a required field is answered with 400
    and an error that names the field, and nothing is inserted: the todos API
    for [title], the products API for [name] and for [price], the inventory
    API for [name], whatever else the payload carries and whatever the state
    of the database.  The inventory's handler answers every validation
    failure with 400 and a [fieldErrors] map that has an entry for each field
    in error. *)
Theorem create_without_required_field :
  (forall save d now id description price quantity warehouse available createdAt updatedAt,
      exists r,
        Inventory.createItem save d now
            (Inventory.mkItem id None description price quantity warehouse available
               createdAt updatedAt)
          = (r, d) /\
        Inventory.status r = 400 /\
        Inventory.get (Inventory.field_errors r) "name"
          = Some "Item name must not be blank"%string) /\
  (forall now errors fe,
      In fe errors ->
      Inventory.status (Inventory.handleValidation now errors) = 400 /\
      exists msg,
        Inventory.get (Inventory.field_errors (Inventory.handleValidation now errors))
                      (Inventory.getField fe) = Some msg) /\
  (forall d now completed,
      exists msg,
        Todos.createTodo d now (Todos.mkBody Js.Undefined completed)
          = (Todos.mkResponse 400 (Todos.ErrorBody msg), d) /\
        Todos.names_field "title" msg) /\
  (forall s now oid description price category inStock,
      exists msg,
        Products.createProduct s now oid
            (Products.mkInput None description price category inStock)
          = (Products.mkResponse 400 (Products.ErrorBody msg), s) /\
        Products.names_field "name" msg) /\
  (forall s now oid name description category inStock,
      exists msg,
        Products.createProduct s now oid
            (Products.mkInput name description None category inStock)
          = (Products.mkResponse 400 (Products.ErrorBody msg), s) /\
        Products.names_field "price" msg).
Proof.
  split; [|split; [|split; [|split]]].
  - intros save d now id description price quantity warehouse available createdAt updatedAt.
    eexists. split; [|split].
    + apply InventoryFacts.invalid_item_is_rejected. unfold Inventory.validate. simpl.
      reflexivity.
    + reflexivity.
    + unfold Inventory.field_errors, Inventory.handleValidation. simpl.
      apply InventoryFacts.toMap_first. reflexivity.
  - intros now errors fe Hin. split; [reflexivity|].
    unfold Inventory.field_errors, Inventory.handleValidation. simpl.
    apply InventoryFacts.toMap_has, Hin.
  - apply TodosFacts.create_without_title.
  - intros s now oid description price category inStock.
    apply invalid_product_is_rejected with (msg := "Product name is required"%string).
    unfold Products.validate_new. simpl.
    apply in_or_app. right. left. reflexivity.
  - intros s now oid name description category inStock.
    apply invalid_product_is_rejected with (msg := "Product price is required"%string).
    unfold Products.validate_new. simpl. left. reflexivity.
Qed.

(** C6, as the code has it. With the datastore up the list endpoints answer
    200 with every record when the filter parameter is absent, or empty
    (products) or blank (inventory); otherwise with exactly the records, in
    store order, whose filter field equals the parameter's value: for the
    products' [category] the value as the schema casts it, that is, trimmed;
    for the inventory's [warehouse] the value as it is. *)
Theorem list_filter_is_exact :
  (forall s, Products.readyState s = 1 ->
     Products.listProducts s None
       = (Products.mkResponse 200
            (Products.ListBody (List.length (Products.products s)) (Products.products s)),
          s) /\
     Products.listProducts s (Some ""%string)
       = (Products.mkResponse 200
            (Products.ListBody (List.length (Products.products s)) (Products.products s)),
          s) /\
     (forall v, v <> ""%string ->
        exists l,
          Products.listProducts s (Some v)
            = (Products.mkResponse 200 (Products.ListBody (List.length l) l), s) /\
          l = filter (fun p => (Products.category p =? Js.trim v)%string)
                     (Products.products s) /\
          forall p, In p l <-> In p (Products.products s) /\
                               Products.category p = Js.trim v)) /\
  (forall d now, Inventory.up d = true ->
     Inventory.listItems d now None
       = Inventory.mkResponse 200 (Inventory.ItemList (Inventory.items d)) /\
     (forall v, Inventory.isBlank v = true ->
        Inventory.listItems d now (Some v)
          = Inventory.mkResponse 200 (Inventory.ItemList (Inventory.items d))) /\
     (forall v, Inventory.isBlank v = false ->
        exists l,
          Inventory.listItems d now (Some v)
            = Inventory.mkResponse 200 (Inventory.ItemList l) /\
          forall i, In i l <-> In i (Inventory.items d) /\
                               Inventory.warehouse i = Some v)).
Proof.
  split.
  - apply ProductsFacts.product_list_filter.
  - apply InventoryFacts.item_list_filter.
Qed.


End ServiceFacts.

(** * Further properties *)

Module TodoTableFacts.

Import Todos TodoTable.
Local Open Scope Z_scope.

Lemma db_eta (d : db) : mkDb (online d) (rows d) (todos_id_seq d) = d.
Proof. destruct d; reflexivity. Qed.

Lemma filter_nil_absent (k : Z) (l : list todo) :
  filter (fun t => id t =? k) l = [] -> forall t, In t l -> id t <> k.
Proof.
  intros E t Hin Hk.
  assert (In t (filter (fun t => id t =? k) l)) as H.
  { apply filter_In. split; [exact Hin|apply Z.eqb_eq, Hk]. }
  rewrite E in H. destruct H.
Qed.

Lemma filter_negb_absent (k : Z) (l : list todo) :
  (forall t, In t l -> id t <> k) -> filter (fun t => negb (id t =? k)) l = l.
Proof.
  induction l as [|a l IH]; simpl; intros A; [reflexivity|].
  destruct (id a =? k) eqn:E.
  - apply Z.eqb_eq in E. exfalso. apply (A a); [left; reflexivity|exact E].
  - simpl. f_equal. apply IH. intros t Hin. apply A. right. exact Hin.
Qed.

(** *** The sort commutes with what the requests do to the table *)

Lemma insert_desc_first (t : todo) (l : list todo) :
  Forall (fun u => created_at u < created_at t) l -> insert_desc t l = t :: l.
Proof.
  destruct l as [|h r]; [reflexivity|].
  intros F. inversion F as [|? ? Hh _]; subst. simpl.
  destruct (created_at h <? created_at t) eqn:E; [reflexivity|].
  apply Z.ltb_ge in E. lia.
Qed.

Lemma insert_desc_filter (g : todo -> bool) (t : todo) (l : list todo) :
  newest_first l ->
  filter g (insert_desc t l) = if g t then insert_desc t (filter g l) else filter g l.
Proof.
  unfold newest_first.
  induction l as [|h r IH]; intros S; simpl.
  - destruct (g t); reflexivity.
  - inversion S as [|? ? S' F]; subst.
    destruct (created_at h <? created_at t) eqn:E; simpl.
    + apply Z.ltb_lt in E.
      destruct (g t) eqn:Gt; [|reflexivity].
      destruct (g h) eqn:Gh.
      * simpl. apply Z.ltb_lt in E. rewrite E. reflexivity.
      * symmetry. apply insert_desc_first.
        apply Forall_forall. intros u Hu. apply filter_In in Hu. destruct Hu as [Hu _].
        rewrite Forall_forall in F. specialize (F u Hu). simpl in F. lia.
    + rewrite (IH S').
      destruct (g h) eqn:Gh; destruct (g t) eqn:Gt; simpl; try rewrite E; reflexivity.
Qed.

Lemma order_by_filter (g : todo -> bool) (l : list todo) :
  order_by_created_at_desc (filter g l) = filter g (order_by_created_at_desc l).
Proof.
  induction l as [|t l IH]; simpl; [reflexivity|].
  rewrite insert_desc_filter by apply TodosFacts.order_by_sorted.
  destruct (g t); simpl; rewrite IH; reflexivity.
Qed.

Lemma insert_desc_map (f : todo -> todo) (t : todo) (l : list todo) :
  created_at (f t) = created_at t ->
  (forall u, In u l -> created_at (f u) = created_at u) ->
  map f (insert_desc t l) = insert_desc (f t) (map f l).
Proof.
  intros Ht. induction l as [|h r IH]; intros Hf; simpl; [reflexivity|].
  rewrite Ht, (Hf h) by (left; reflexivity).
  destruct (created_at h <? created_at t); simpl; [reflexivity|].
  rewrite IH; [reflexivity|]. intros u Hu. apply Hf. right. exact Hu.
Qed.

Lemma order_by_map (f : todo -> todo) (l : list todo) :
  (forall u, In u l -> created_at (f u) = created_at u) ->
  order_by_created_at_desc (map f l) = map f (order_by_created_at_desc l).
Proof.
  induction l as [|t l IH]; intros Hf; simpl; [reflexivity|].
  rewrite IH by (intros u Hu; apply Hf; right; exact Hu).
  rewrite insert_desc_map; [reflexivity|apply Hf; left; reflexivity|].
  intros u Hu. apply Hf. right.
  eapply Permutation_in; [apply Permutation_sym, TodosFacts.order_by_perm|exact Hu].
Qed.

Lemma order_by_newest (t : todo) (l : list todo) :
  Forall (fun u => created_at u < created_at t) l ->
  order_by_created_at_desc (l ++ [t]) = t :: order_by_created_at_desc l.
Proof.
  induction l as [|a l IH]; intros F; simpl; [reflexivity|].
  inversion F as [|? ? Ha F']; subst.
  rewrite (IH F'). simpl.
  destruct (created_at t <? created_at a) eqn:E; [|reflexivity].
  apply Z.ltb_lt in E. lia.
Qed.

Lemma assign_all_created_at (now : Z) (fs : list assignment) (t : todo) :
  created_at (assign_all now fs t) = created_at t.
Proof.
  unfold assign_all. revert t.
  induction fs as [|a fs IH]; intros t; simpl; [reflexivity|].
  rewrite IH. destruct a; reflexivity.
Qed.

Lemma listed_online (d : db) :
  online d = true -> listed d = order_by_created_at_desc (rows d).
Proof. intros O. unfold listed, listTodos, select_all. rewrite O. reflexivity. Qed.

Lemma assign_all_title (P : string -> Prop) (now : Z) (fs : list assignment) (t : todo) :
  Forall (fun a => match a with SetTitle v => P v | _ => True end) fs ->
  P (title t) -> P (title (assign_all now fs t)).
Proof.
  unfold assign_all. revert t.
  induction fs as [|a fs IH]; intros t F T; simpl; [exact T|].
  inversion F as [|? ? Ha Hfs]; subst.
  apply IH; [exact Hfs|].
  destruct a; simpl; assumption.
Qed.

(** *** Tables whose rows were created at different instants *)

(** A list with distinct creation times has one arrangement that is newest
    first. *)
Lemma newest_first_unique (l1 l2 : list todo) :
  NoDup (map created_at l1) -> Permutation l1 l2 ->
  newest_first l1 -> newest_first l2 -> l1 = l2.
Proof.
  unfold newest_first. revert l2.
  induction l1 as [|a r1 IH]; intros l2 N P S1 S2.
  - apply Permutation_nil in P. symmetry. exact P.
  - destruct l2 as [|b r2]; [apply Permutation_sym, Permutation_nil in P; discriminate|].
    inversion N as [|? ? Na N']; subst.
    inversion S1 as [|? ? S1' F1]; subst.
    inversion S2 as [|? ? S2' F2]; subst.
    assert (a = b) as ->.
    { assert (In b (a :: r1)) as Hb
        by (eapply Permutation_in; [apply Permutation_sym, P|left; reflexivity]).
      destruct Hb as [E|Hb]; [exact E|].
      assert (In a (b :: r2)) as Ha
        by (eapply Permutation_in; [exact P|left; reflexivity]).
      destruct Ha as [E|Ha]; [symmetry; exact E|].
      rewrite Forall_forall in F1, F2.
      pose proof (F1 b Hb) as H1. pose proof (F2 a Ha) as H2. simpl in H1, H2.
      exfalso. apply Na.
      replace (created_at a) with (created_at b) by lia.
      apply in_map, Hb. }
    f_equal.
    apply IH; [exact N'|eapply Permutation_cons_inv; exact P|exact S1'|exact S2'].
Qed.

Lemma listed_is_the_listing (d : db) (l : list todo) :
  online d = true -> distinct_times d ->
  Permutation (rows d) l -> newest_first l -> l = listed d.
Proof.
  intros O N P S. rewrite (listed_online d O).
  apply newest_first_unique.
  - eapply Permutation_NoDup; [apply Permutation_map, P|exact N].
  - eapply perm_trans; [apply Permutation_sym, P|apply TodosFacts.order_by_perm].
  - exact S.
  - apply TodosFacts.order_by_sorted.
Qed.

Lemma distinct_after_map (f : todo -> todo) (l : list todo) :
  (forall t, created_at (f t) = created_at t) ->
  NoDup (map created_at l) -> NoDup (map created_at (map f l)).
Proof.
  intros Hf N. rewrite map_map.
  rewrite (map_ext (fun t => created_at (f t)) created_at Hf). exact N.
Qed.

Lemma distinct_after_append (t : todo) (l : list todo) :
  Forall (fun u => created_at u < created_at t) l ->
  NoDup (map created_at l) -> NoDup (map created_at (l ++ [t])).
Proof.
  intros F N. rewrite map_app. simpl.
  apply NoDup_app; [exact N|constructor; [intros []|constructor]|].
  intros x Hx [E|[]]. subst x.
  apply in_map_iff in Hx. destruct Hx as [u [E Hu]].
  rewrite Forall_forall in F. specialize (F u Hu). simpl in F. lia.
Qed.

Section WithServer.

Variable int4_in : string -> option Z.

(** The statuses of each route. *)
Lemma route_statuses (d : db) (now : Z) (r : request) :
  In (status (fst (handle int4_in d now r)))
     match r with
     | GET_todos => [200; 500]
     | POST_todos _ => [201; 400; 500]
     | GET_todo _ => [200; 404; 500]
     | PUT_todo _ _ => [200; 400; 404; 500]
     | DELETE_todo _ => [200; 500]
     | GET_health => [200; 503]
     end.
Proof.
  destruct r as [|b|p|p b|p|]; simpl.
  - unfold listTodos. destruct (select_all d); simpl; auto.
  - unfold createTodo.
    destruct (negb (Js.truthy (body_title b)) || negb (Js.typeof (body_title b) =? "string")%string);
      [simpl; auto|].
    destruct (body_title b) as [| | | |s|]; simpl; auto.
    destruct (Js.trim s =? "")%string; [simpl; auto|].
    destruct (insert d now (Js.trim s)) as [[res|e] d']; simpl; auto.
  - unfold getTodo. destruct (select_by_id int4_in d p) as [res|e]; simpl; auto.
    destruct (rowCount res =? 0)%nat; simpl; auto.
  - unfold updateTodo.
    destruct (title_fields (body_title b)) as [bad|ft] eqn:Et.
    { destruct (body_title b) as [| | | |s|]; simpl in Et; try discriminate;
        try (injection Et as <-; simpl; auto).
      destruct (Js.trim s =? "")%string; [|discriminate].
      injection Et as <-. simpl; auto. }
    destruct (completed_fields (body_completed b)) as [bad|fc] eqn:Ec.
    { destruct (body_completed b); simpl in Ec; try discriminate;
        injection Ec as <-; simpl; auto. }
    destruct (List.length (ft ++ fc) =? 0)%nat; [simpl; auto|].
    destruct (update int4_in d now _ p) as [[res|e] d']; simpl; auto.
    destruct (rowCount res =? 0)%nat; simpl; auto.
  - unfold deleteTodo. destruct (delete int4_in d p) as [[res|e] d']; simpl; auto.
  - unfold health. destruct (select_one d); simpl; auto.
Qed.

(** A request leaves the table as it was unless it is a POST answered 201, a
    PUT answered 200 or a DELETE answered 200. *)
Lemma table_kept_or_success (d : db) (now : Z) (r : request) :
  snd (handle int4_in d now r) = d \/
  match r with
  | POST_todos _ => status (fst (handle int4_in d now r)) = 201
  | PUT_todo _ _ | DELETE_todo _ => status (fst (handle int4_in d now r)) = 200
  | _ => False
  end.
Proof.
  destruct r as [|b|p|p b|p|]; simpl.
  - unfold listTodos. destruct (select_all d); simpl; left; reflexivity.
  - unfold createTodo.
    destruct (negb (Js.truthy (body_title b)) || negb (Js.typeof (body_title b) =? "string")%string);
      [simpl; left; reflexivity|].
    destruct (body_title b) as [| | | |s|]; simpl; try (left; reflexivity).
    destruct (Js.trim s =? "")%string; [simpl; left; reflexivity|].
    destruct (insert d now (Js.trim s)) as [[res|e] d'] eqn:E; simpl; [right; reflexivity|].
    left. unfold insert in E.
    destruct (negb (online d)); [injection E as _ <-; reflexivity|].
    destruct (has_nul (Js.trim s)); [injection E as _ <-; reflexivity|].
    destruct (VARCHAR_LIMIT <? String.length (Js.trim s))%nat; [injection E as _ <-; reflexivity|].
    destruct (INT4_MAX <? todos_id_seq d); [injection E as _ <-; reflexivity|].
    discriminate.
  - unfold getTodo. destruct (select_by_id int4_in d p) as [res|e]; simpl.
    + destruct (rowCount res =? 0)%nat; simpl; left; reflexivity.
    + left; reflexivity.
  - unfold updateTodo.
    destruct (title_fields (body_title b)) as [bad|ft]; [simpl; left; reflexivity|].
    destruct (completed_fields (body_completed b)) as [bad|fc]; [simpl; left; reflexivity|].
    destruct (List.length (ft ++ fc) =? 0)%nat; [simpl; left; reflexivity|].
    unfold update.
    destruct (negb (online d)); [simpl; left; reflexivity|].
    destruct (existsb holds_nul _); [simpl; left; reflexivity|].
    destruct (int4_in p) as [k|]; [|simpl; left; reflexivity].
    destruct (existsb overlong _); [simpl; left; reflexivity|].
    simpl.
    destruct (filter (fun t => id t =? k) (rows d)) as [|t0 l0] eqn:F; simpl;
      [|right; reflexivity].
    left.
    rewrite (TodosFacts.map_absent k _ (rows d) (filter_nil_absent k (rows d) F)).
    apply db_eta.
  - unfold deleteTodo, delete.
    destruct (negb (online d)); [simpl; left; reflexivity|].
    destruct (int4_in p) as [k|]; [|simpl; left; reflexivity].
    right. reflexivity.
  - unfold health. destruct (select_one d); simpl; left; reflexivity.
Qed.

(** X1. The table changes only through a POST answered 201, a PUT answered 200
    or a DELETE answered 200: a request that is refused (400, 404, 500) and
    every GET leave it as it was. *)
Theorem todo_table_changes_only_on_success (d : db) (now : Z) (r : request) :
  snd (handle int4_in d now r) <> d ->
  match r with
  | POST_todos _ => status (fst (handle int4_in d now r)) = 201
  | PUT_todo _ _ | DELETE_todo _ => status (fst (handle int4_in d now r)) = 200
  | _ => False
  end.
Proof.
  intros H. destruct (table_kept_or_success d now r) as [E|S]; [contradiction|exact S].
Qed.

Lemma leads_to_seq (d d' : db) :
  leads_to int4_in d d' -> todos_id_seq d <= todos_id_seq d'.
Proof.
  induction 1 as [|d' now r L IH|d' o L IH]; simpl; [lia| |exact IH].
  destruct (TodosFacts.handle_shape int4_in d' now r) as [_ H].
  destruct H as [E|[[v [_ [_ Es]]]|[[k [fs [_ [_ Es]]]]|[k [_ Es]]]]].
  - rewrite E. exact IH.
  - rewrite Es. lia.
  - rewrite Es. exact IH.
  - rewrite Es. exact IH.
Qed.

(** X2. Ids are never handed out twice. The id of a todo created later is
    larger than the id of every row the table ever held before, whether or not
    that row was deleted in between. *)
Theorem todo_ids_are_never_reused (d d' : db) (t : todo) (now : Z) (b : req_body)
        (r : response) (d'' : db) :
  reachable int4_in d -> In t (rows d) -> leads_to int4_in d d' ->
  createTodo d' now b = (r, d'') -> status r = 201 ->
  exists t', body r = RowBody (Some t') /\ id t < id t'.
Proof.
  intros R Hin L.
  destruct (TodosFacts.reachable_invariants int4_in d R) as [B _].
  unfold ids_below in B. rewrite Forall_forall in B. specialize (B t Hin).
  pose proof (leads_to_seq d d' L) as M.
  unfold createTodo.
  destruct (negb (Js.truthy (body_title b)) || negb (Js.typeof (body_title b) =? "string")%string).
  { intros E. injection E as <- _. discriminate. }
  destruct (body_title b) as [| | | |s|];
    try (intros E; injection E as <- _; discriminate).
  destruct (Js.trim s =? "")%string.
  { intros E. injection E as <- _. discriminate. }
  unfold insert.
  destruct (negb (online d')).
  { intros E. injection E as <- _. discriminate. }
  destruct (has_nul (Js.trim s)).
  { intros E. injection E as <- _. discriminate. }
  destruct (VARCHAR_LIMIT <? String.length (Js.trim s))%nat.
  { intros E. injection E as <- _. discriminate. }
  destruct (INT4_MAX <? todos_id_seq d').
  { intros E. injection E as <- _. discriminate. }
  intros E _. injection E as <- _.
  eexists. split; [reflexivity|]. simpl. lia.
Qed.

(** X3. GET by id is lookup in the table. On a table the service has reached
    and with the database reachable, GET answers 200 with the row that has the
    id, and 404 with a message that repeats the id when no row has it. *)
Theorem get_answers_with_the_stored_row (d : db) (p : string) (k : Z) :
  reachable int4_in d -> online d = true -> int4_in p = Some k ->
  (forall t, In t (rows d) -> id t = k ->
             getTodo int4_in d p = (mkResponse 200 (RowBody (Some t)), d)) /\
  (absent k d ->
   getTodo int4_in d p
     = (mkResponse 404 (ErrorBody ("Todo with id " ++ p ++ " not found")), d)).
Proof.
  intros R O Hp.
  destruct (TodosFacts.reachable_invariants int4_in d R) as [_ [U _]].
  split.
  - intros t Hin Hk. subst k. unfold getTodo, select_by_id. rewrite O, Hp. simpl.
    rewrite (TodosFacts.filter_unique t (rows d) U Hin). reflexivity.
  - intros A. apply (TodosFacts.todo_get_absent int4_in d p k O Hp A).
Qed.

Lemma title_fields_valid (v : Js.value) (fs : list assignment) :
  title_fields v = inr fs -> existsb holds_nul fs = false -> existsb overlong fs = false ->
  Forall (fun a => match a with SetTitle v => valid_title v | _ => True end) fs.
Proof.
  destruct v; simpl; try discriminate.
  - intros E. injection E as <-. constructor.
  - destruct (Js.trim s =? "")%string eqn:Es; [discriminate|].
    intros E. injection E as <-. simpl. rewrite !orb_false_r. intros N L.
    constructor; [|constructor].
    split; [apply String.eqb_neq, Es|]. split; [exact N|].
    apply Nat.ltb_ge in L. exact L.
Qed.

Lemma completed_fields_valid (v : Js.value) (fs : list assignment) :
  completed_fields v = inr fs ->
  Forall (fun a => match a with SetTitle v => valid_title v | _ => True end) fs.
Proof.
  destruct v; simpl; try discriminate; intros E; injection E as <-;
    repeat constructor.
Qed.

Lemma handle_keeps_valid_titles (d : db) (now : Z) (r : request) :
  Forall (fun t => valid_title (title t)) (rows d) ->
  Forall (fun t => valid_title (title t)) (rows (snd (handle int4_in d now r))).
Proof.
  intros V.
  destruct r as [|b|p|p b|p|]; simpl.
  - unfold listTodos. destruct (select_all d); exact V.
  - unfold createTodo.
    destruct (negb (Js.truthy (body_title b)) || negb (Js.typeof (body_title b) =? "string")%string);
      [exact V|].
    destruct (body_title b) as [| | | |s|]; simpl; try exact V.
    destruct (Js.trim s =? "")%string eqn:Es; [exact V|].
    unfold insert.
    destruct (negb (online d)); [exact V|].
    destruct (has_nul (Js.trim s)) eqn:N; [exact V|].
    destruct (VARCHAR_LIMIT <? String.length (Js.trim s))%nat eqn:L; [exact V|].
    destruct (INT4_MAX <? todos_id_seq d); [exact V|].
    simpl. apply Forall_app. split; [exact V|].
    constructor; [|constructor]. simpl.
    split; [apply String.eqb_neq, Es|]. split; [exact N|].
    apply Nat.ltb_ge in L. exact L.
  - unfold getTodo. destruct (select_by_id int4_in d p) as [res|e]; [|exact V].
    destruct (rowCount res =? 0)%nat; exact V.
  - unfold updateTodo.
    destruct (title_fields (body_title b)) as [bad|ft] eqn:Et; [exact V|].
    destruct (completed_fields (body_completed b)) as [bad|fc] eqn:Ec; [exact V|].
    destruct (List.length (ft ++ fc) =? 0)%nat; [exact V|].
    unfold update.
    destruct (negb (online d)); [exact V|].
    destruct (existsb holds_nul ((ft ++ fc) ++ [SetUpdatedAtNow])) eqn:N; [exact V|].
    destruct (int4_in p) as [k|]; [|exact V].
    destruct (existsb overlong ((ft ++ fc) ++ [SetUpdatedAtNow])) eqn:L; [exact V|].
    rewrite !existsb_app in N, L.
    apply orb_false_elim in N, L. destruct N as [N _], L as [L _].
    apply orb_false_elim in N, L. destruct N as [N _], L as [L _].
    assert (Forall (fun a => match a with SetTitle v => valid_title v | _ => True end)
                   ((ft ++ fc) ++ [SetUpdatedAtNow])) as F.
    { apply Forall_app; split;
        [apply Forall_app; split;
         [eapply title_fields_valid; eassumption
         |eapply completed_fields_valid; eassumption]
        |repeat constructor]. }
    match goal with
    | |- context [if ?c then _ else _] => destruct c
    end; simpl;
      (apply Forall_forall; intros t Hin;
       apply in_map_iff in Hin; destruct Hin as [x [E Hx]];
       rewrite Forall_forall in V; specialize (V x Hx);
       destruct (id x =? k); subst t; [apply assign_all_title; assumption|exact V]).
  - unfold deleteTodo, delete.
    destruct (negb (online d)); [exact V|].
    destruct (int4_in p) as [k|]; [|exact V].
    simpl. apply Forall_forall. intros t Hin. apply filter_In in Hin.
    rewrite Forall_forall in V. apply V, Hin.
  - unfold health. destruct (select_one d); exact V.
Qed.

(** X4. Every title the service stores is one the column holds: in every table
    reached from the fresh one, each row's title is not empty, has no NUL and
    is at most 255 characters long. *)
Theorem stored_titles_are_valid (d : db) (t : todo) :
  reachable int4_in d -> In t (rows d) ->
  title t <> ""%string /\ has_nul (title t) = false /\
  (String.length (title t) <= 255)%nat.
Proof.
  intros R. revert t.
  assert (Forall (fun t => valid_title (title t)) (rows d)) as V.
  { induction R as [o|d now r R IH|d o R IH].
    - constructor.
    - apply handle_keeps_valid_titles, IH.
    - exact IH. }
  intros t Hin. rewrite Forall_forall in V. exact (V t Hin).
Qed.

(** X5. An id that is not an integer is answered 500. With the database
    reachable, GET and DELETE hand the server's complaint about the text to
    the error handler, and so does a PUT whose body passes the checks; the
    table stays as it is. *)
Theorem malformed_id_answers_500 (d : db) (now : Z) (p : string) :
  online d = true -> int4_in p = None ->
  getTodo int4_in d p
    = (mkResponse 500 (UnhandledError (InvalidTextRepresentation p)), d) /\
  deleteTodo int4_in d p
    = (mkResponse 500 (UnhandledError (InvalidTextRepresentation p)), d) /\
  (forall b, accepted_update b = true ->
     updateTodo int4_in d now p b
       = (mkResponse 500 (UnhandledError (InvalidTextRepresentation p)), d)).
Proof.
  intros O Hp. split; [|split].
  - unfold getTodo, select_by_id. rewrite O, Hp. reflexivity.
  - unfold deleteTodo, delete. rewrite O, Hp. reflexivity.
  - intros b. unfold accepted_update, updateTodo.
    destruct (title_fields (body_title b)) as [bad|ft]; [discriminate|].
    destruct (completed_fields (body_completed b)) as [bad|fc] eqn:Ec; [discriminate|].
    destruct (List.length (ft ++ fc) =? 0)%nat; [discriminate|].
    simpl. intros A. apply andb_prop in A. destruct A as [N _].
    apply negb_true_iff in N.
    unfold update. rewrite O. simpl.
    rewrite !existsb_app. simpl. rewrite N, !orb_false_r.
    assert (existsb holds_nul fc = false) as Hfn.
    { destruct (body_completed b); simpl in Ec; try discriminate;
        injection Ec as <-; reflexivity. }
    rewrite Hfn, Hp. reflexivity.
Qed.

(** *** The sorted table after a change *)

Lemma sorted_after_delete (d : db) (p : string) (r : response) (d' : db) :
  deleteTodo int4_in d p = (r, d') -> status r = 200 ->
  online d' = true /\
  exists k, int4_in p = Some k /\
            order_by_created_at_desc (rows d')
              = filter (fun t => negb (id t =? k)) (order_by_created_at_desc (rows d)).
Proof.
  unfold deleteTodo, delete.
  destruct (online d) eqn:O; simpl.
  2:{ intros E. injection E as <- _. discriminate. }
  destruct (int4_in p) as [k|].
  2:{ intros E. injection E as <- _. discriminate. }
  intros E _. injection E as _ <-. simpl.
  split; [reflexivity|].
  exists k. split; [reflexivity|]. apply order_by_filter.
Qed.

Lemma sorted_after_update (d : db) (now : Z) (p : string) (b : req_body)
      (r : response) (d' : db) :
  unique_ids d ->
  updateTodo int4_in d now p b = (r, d') -> status r = 200 ->
  online d' = true /\
  exists k t, int4_in p = Some k /\ body r = RowBody (Some t) /\ id t = k /\
              order_by_created_at_desc (rows d')
                = map (fun u => if id u =? k then t else u)
                      (order_by_created_at_desc (rows d)).
Proof.
  intros U. unfold updateTodo.
  destruct (title_fields (body_title b)) as [bad|ft] eqn:Et.
  { destruct (body_title b) as [| | | |s|]; simpl in Et; try discriminate;
      try (injection Et as <-; intros E; injection E as <- _; discriminate).
    destruct (Js.trim s =? "")%string; [|discriminate].
    injection Et as <-. intros E; injection E as <- _; discriminate. }
  destruct (completed_fields (body_completed b)) as [bad|fc] eqn:Ec.
  { destruct (body_completed b); simpl in Ec; try discriminate;
      injection Ec as <-; intros E; injection E as <- _; discriminate. }
  destruct (List.length (ft ++ fc) =? 0)%nat.
  { intros E; injection E as <- _; discriminate. }
  unfold update.
  destruct (online d) eqn:O; simpl.
  2:{ intros E. injection E as <- _. discriminate. }
  destruct (existsb holds_nul _).
  { intros E; injection E as <- _; discriminate. }
  destruct (int4_in p) as [k|].
  2:{ intros E. injection E as <- _. discriminate. }
  destruct (existsb overlong _).
  { intros E; injection E as <- _; discriminate. }
  simpl.
  destruct (filter (fun t => id t =? k) (rows d)) as [|t0 l0] eqn:F; simpl.
  { intros E; injection E as <- _; discriminate. }
  intros E _. injection E as <- <-. simpl.
  split; [reflexivity|].
  assert (In t0 (rows d) /\ id t0 = k) as [Hin Hk].
  { assert (In t0 (filter (fun t => id t =? k) (rows d))) as H by (rewrite F; left; reflexivity).
    apply filter_In in H. destruct H as [H1 H2]. split; [exact H1|apply Z.eqb_eq, H2]. }
  set (fs := ((ft ++ fc) ++ [SetUpdatedAtNow])%list) in *.
  exists k, (assign_all now fs t0).
  split; [reflexivity|]. split; [reflexivity|].
  split; [rewrite TodosFacts.assign_all_id; exact Hk|].
  rewrite order_by_map.
  2:{ intros u _. destruct (id u =? k); [apply assign_all_created_at|reflexivity]. }
  apply map_ext_in. intros u Hu.
  destruct (id u =? k) eqn:E; [|reflexivity].
  apply Z.eqb_eq in E.
  assert (In u (rows d)) as Hu'.
  { eapply Permutation_in; [apply Permutation_sym, TodosFacts.order_by_perm|exact Hu]. }
  assert (In u (filter (fun u => id u =? id t0) (rows d))) as Hf.
  { apply filter_In. split; [exact Hu'|apply Z.eqb_eq; congruence]. }
  rewrite (TodosFacts.filter_unique t0 (rows d) U Hin) in Hf.
  destruct Hf as [->|[]]. reflexivity.
Qed.

Lemma sorted_after_create (d : db) (now : Z) (b : req_body) (r : response) (d' : db) :
  createTodo d now b = (r, d') -> status r = 201 ->
  Forall (fun t => created_at t < now) (rows d) ->
  online d' = true /\
  exists t, body r = RowBody (Some t) /\
            order_by_created_at_desc (rows d') = t :: order_by_created_at_desc (rows d).
Proof.
  unfold createTodo.
  destruct (negb (Js.truthy (body_title b)) || negb (Js.typeof (body_title b) =? "string")%string).
  { intros E. injection E as <- _. discriminate. }
  destruct (body_title b) as [| | | |s|];
    try (intros E; injection E as <- _; discriminate).
  destruct (Js.trim s =? "")%string.
  { intros E. injection E as <- _. discriminate. }
  unfold insert.
  destruct (online d) eqn:O; simpl.
  2:{ intros E. injection E as <- _. discriminate. }
  destruct (has_nul (Js.trim s)).
  { intros E. injection E as <- _. discriminate. }
  destruct (VARCHAR_LIMIT <? String.length (Js.trim s))%nat.
  { intros E. injection E as <- _. discriminate. }
  destruct (INT4_MAX <? todos_id_seq d).
  { intros E. injection E as <- _. discriminate. }
  intros E _ F. injection E as <- <-. simpl.
  split; [reflexivity|].
  eexists. split; [reflexivity|].
  apply order_by_newest. exact F.
Qed.

Lemma status_200_online (d : db) (now : Z) (r : request) :
  status (fst (handle int4_in d now r)) = 200 \/ status (fst (handle int4_in d now r)) = 201 ->
  online d = true.
Proof.
  destruct (online d) eqn:O; [reflexivity|].
  destruct r as [|b|p|p b|p|]; simpl.
  - unfold listTodos, select_all. rewrite O. simpl. intros [E|E]; discriminate.
  - unfold createTodo.
    destruct (negb (Js.truthy (body_title b)) || negb (Js.typeof (body_title b) =? "string")%string);
      [simpl; intros [E|E]; discriminate|].
    destruct (body_title b) as [| | | |s|]; simpl; try (intros [E|E]; discriminate).
    destruct (Js.trim s =? "")%string; [simpl; intros [E|E]; discriminate|].
    unfold insert. rewrite O. simpl. intros [E|E]; discriminate.
  - unfold getTodo, select_by_id. rewrite O. simpl. intros [E|E]; discriminate.
  - unfold updateTodo.
    destruct (title_fields (body_title b)) as [bad|ft] eqn:Et.
    { destruct (body_title b) as [| | | |s|]; simpl in Et; try discriminate;
        try (injection Et as <-; simpl; intros [E|E]; discriminate).
      destruct (Js.trim s =? "")%string; [|discriminate].
      injection Et as <-. simpl; intros [E|E]; discriminate. }
    destruct (completed_fields (body_completed b)) as [bad|fc] eqn:Ec.
    { destruct (body_completed b); simpl in Ec; try discriminate;
        injection Ec as <-; simpl; intros [E|E]; discriminate. }
    destruct (List.length (ft ++ fc) =? 0)%nat; [simpl; intros [E|E]; discriminate|].
    unfold update. rewrite O. simpl. intros [E|E]; discriminate.
  - unfold deleteTodo, delete. rewrite O. simpl. intros [E|E]; discriminate.
  - unfold health, select_one. rewrite O. simpl. intros [E|E]; discriminate.
Qed.

(** A request keeps the creation times distinct; a POST, when it is served
    later than every row was created. *)
Lemma distinct_after (d : db) (now : Z) (r : request) :
  distinct_times d ->
  match r with
  | POST_todos _ => Forall (fun t => created_at t < now) (rows d)
  | _ => True
  end ->
  distinct_times (snd (handle int4_in d now r)).
Proof.
  unfold distinct_times. intros N F.
  destruct r as [|b|p|p b|p|]; simpl.
  - unfold listTodos. destruct (select_all d); exact N.
  - unfold createTodo.
    destruct (negb (Js.truthy (body_title b)) || negb (Js.typeof (body_title b) =? "string")%string);
      [exact N|].
    destruct (body_title b) as [| | | |s|]; simpl; try exact N.
    destruct (Js.trim s =? "")%string; [exact N|].
    unfold insert.
    destruct (negb (online d)); [exact N|].
    destruct (has_nul (Js.trim s)); [exact N|].
    destruct (VARCHAR_LIMIT <? String.length (Js.trim s))%nat; [exact N|].
    destruct (INT4_MAX <? todos_id_seq d); [exact N|].
    simpl. apply distinct_after_append; [exact F|exact N].
  - unfold getTodo. destruct (select_by_id int4_in d p) as [res|e]; [|exact N].
    destruct (rowCount res =? 0)%nat; exact N.
  - unfold updateTodo.
    destruct (title_fields (body_title b)) as [bad|ft]; [exact N|].
    destruct (completed_fields (body_completed b)) as [bad|fc]; [exact N|].
    destruct (List.length (ft ++ fc) =? 0)%nat; [exact N|].
    unfold update.
    destruct (negb (online d)); [exact N|].
    destruct (existsb holds_nul _); [exact N|].
    destruct (int4_in p) as [k|]; [|exact N].
    destruct (existsb overlong _); [exact N|].
    match goal with
    | |- context [if ?c then _ else _] => destruct c
    end; simpl;
      (apply distinct_after_map; [|exact N];
       intros t; destruct (id t =? k); [apply assign_all_created_at|reflexivity]).
  - unfold deleteTodo, delete.
    destruct (negb (online d)); [exact N|].
    destruct (int4_in p) as [k|]; [|exact N].
    simpl. apply TodosFacts.NoDup_map_filter, N.
  - unfold health. destruct (select_one d); exact N.
Qed.

(** X6. What the list shows after a change, on a table whose rows were
    created at different instants.  The list is then the one arrangement of
    the rows that is newest first.  After a DELETE answered 200 it is the list
    before without the todo of that id; after a PUT answered 200 it is the
    list before with the answered row in the place of the one with that id;
    after a POST answered 201 at an instant later than every row's creation
    it is the new row followed by the list before.  The creation times stay
    distinct. *)
Theorem list_after_a_change (d : db) (now : Z) :
  reachable int4_in d -> distinct_times d ->
  (online d = true ->
   forall l, Permutation (rows d) l -> newest_first l -> l = listed d) /\
  (forall p r d',
      deleteTodo int4_in d p = (r, d') -> status r = 200 ->
      distinct_times d' /\
      exists k, int4_in p = Some k /\
                listed d' = filter (fun t => negb (id t =? k)) (listed d)) /\
  (forall p b r d',
      updateTodo int4_in d now p b = (r, d') -> status r = 200 ->
      distinct_times d' /\
      exists k t, int4_in p = Some k /\ body r = RowBody (Some t) /\ id t = k /\
                  listed d' = map (fun u => if id u =? k then t else u) (listed d)) /\
  (forall b r d',
      createTodo d now b = (r, d') -> status r = 201 ->
      Forall (fun t => created_at t < now) (rows d) ->
      distinct_times d' /\
      exists t, body r = RowBody (Some t) /\ listed d' = t :: listed d).
Proof.
  intros R N.
  destruct (TodosFacts.reachable_invariants int4_in d R) as [_ [U _]].
  split; [|split; [|split]].
  - intros O l P S. apply listed_is_the_listing; assumption.
  - intros p r d' E S.
    assert (online d = true) as O.
    { apply (status_200_online d now (DELETE_todo p)). simpl. rewrite E. left. exact S. }
    split.
    { pose proof (distinct_after d now (DELETE_todo p) N I) as N'.
      simpl in N'. rewrite E in N'. exact N'. }
    destruct (sorted_after_delete d p r d' E S) as [O' [k [Hp H]]].
    exists k. split; [exact Hp|]. rewrite !listed_online by assumption. exact H.
  - intros p b r d' E S.
    assert (online d = true) as O.
    { apply (status_200_online d now (PUT_todo p b)). simpl. rewrite E. left. exact S. }
    split.
    { pose proof (distinct_after d now (PUT_todo p b) N I) as N'.
      simpl in N'. rewrite E in N'. exact N'. }
    destruct (sorted_after_update d now p b r d' U E S) as [O' [k [t [Hp [Hb [Hk H]]]]]].
    exists k, t. repeat (split; [assumption|]).
    rewrite !listed_online by assumption. exact H.
  - intros b r d' E S F.
    assert (online d = true) as O.
    { apply (status_200_online d now (POST_todos b)). simpl. rewrite E. right. exact S. }
    split.
    { pose proof (distinct_after d now (POST_todos b) N F) as N'.
      simpl in N'. rewrite E in N'. exact N'. }
    destruct (sorted_after_create d now b r d' E S F) as [O' [t [Hb H]]].
    exists t. split; [exact Hb|].
    rewrite !listed_online by assumption. exact H.
Qed.

End WithServer.

End TodoTableFacts.

Module TodoAppFacts.

Import Todos TodoTable TodoApp.
Local Open Scope Z_scope.

Lemma resolves_status (res : response) :
  resolves res = true -> 200 <= status res < 300.
Proof.
  unfold resolves. intros E. apply andb_prop in E. destruct E as [E1 E2].
  apply Z.leb_le in E1. apply Z.ltb_lt in E2. lia.
Qed.

Section WithBackend.

Variable int4_in : string -> option Z.
Variable message : pg_error -> string.

(** The table after a handler of the page is the table after the request
    it sends. *)
Lemma handleCreate_table (st : state) (d : db) (now : Z) (title : string) :
  snd (handleCreate message st d now title)
    = snd (handle int4_in d now (POST_todos (mkBody (Js.Str title) Js.Undefined))).
Proof.
  unfold handleCreate. simpl.
  destruct (createTodo d now (mkBody (Js.Str title) Js.Undefined)) as [res d'].
  destruct (resolves res); reflexivity.
Qed.

Lemma handleUpdate_table (st : state) (d : db) (now : Z) (k : Z) (data : req_body) :
  snd (handleUpdate int4_in message st d now k data)
    = snd (handle int4_in d now (PUT_todo (template k) data)).
Proof.
  unfold handleUpdate. simpl.
  destruct (updateTodo int4_in d now (template k) data) as [res d'].
  destruct (resolves res); reflexivity.
Qed.

Lemma handleDelete_table (st : state) (d : db) (k : Z) :
  snd (handleDelete int4_in message st d k)
    = snd (handle int4_in d 0 (DELETE_todo (template k))).
Proof.
  unfold handleDelete. simpl.
  destruct (deleteTodo int4_in d (template k)) as [res d'].
  destruct (resolves res); reflexivity.
Qed.

(** X7. The page stays in step with the table, on a table whose rows were
    created at different instants.  Loading shows the table's rows, newest
    first.  From then on each handler leaves the array equal to what the list
    endpoint would now answer, whether its request succeeded or failed, and
    the creation times distinct: a create served at an instant later than
    every row's creation, an update and a delete of an id the server reads
    back as the client wrote it. *)
Theorem page_mirrors_the_table (st : state) (d : db) (now : Z) :
  distinct_times d ->
  (online d = true ->
   in_sync (fst (loadTodos message st d)) d /\
   snd (loadTodos message st d) = d /\
   loading (fst (loadTodos message st d)) = false /\
   error (fst (loadTodos message st d)) = Js.Null) /\
  (in_sync st d ->
   forall title,
     Forall (fun t => created_at t < now) (rows d) ->
     in_sync (fst (handleCreate message st d now title))
             (snd (handleCreate message st d now title)) /\
     distinct_times (snd (handleCreate message st d now title))) /\
  (in_sync st d -> reachable int4_in d ->
   forall k data,
     isSafeInteger k = true ->
     (forall k', int4_in (template k) = Some k' -> k' = k) ->
     in_sync (fst (handleUpdate int4_in message st d now k data))
             (snd (handleUpdate int4_in message st d now k data)) /\
     distinct_times (snd (handleUpdate int4_in message st d now k data))) /\
  (in_sync st d ->
   forall k,
     isSafeInteger k = true ->
     (forall k', int4_in (template k) = Some k' -> k' = k) ->
     in_sync (fst (handleDelete int4_in message st d k))
             (snd (handleDelete int4_in message st d k)) /\
     distinct_times (snd (handleDelete int4_in message st d k))).
Proof.
  intros N.
  split; [|split; [|split]].
  - intros O. unfold loadTodos, listTodos, select_all, in_sync. rewrite O. simpl.
    repeat split; reflexivity.
  - intros S title F.
    split; [|rewrite handleCreate_table; apply TodoTableFacts.distinct_after; assumption].
    unfold handleCreate, in_sync in *.
    destruct (createTodo d now (mkBody (Js.Str title) Js.Undefined)) as [res d'] eqn:E.
    destruct (resolves res) eqn:V; simpl.
    + pose proof (TodoTableFacts.route_statuses int4_in d now
                    (POST_todos (mkBody (Js.Str title) Js.Undefined))) as H.
      simpl in H. rewrite E in H. simpl in H.
      apply resolves_status in V.
      assert (status res = 201) as St by (intuition lia).
      destruct (TodoTableFacts.sorted_after_create d now _ res d' E St F) as [_ [t [Hb Hs]]].
      rewrite Hs, Hb, S. reflexivity.
    + assert (d' = d) as ->; [|exact S].
      destruct (Z.eq_dec (status res) 201) as [St|St].
      { unfold resolves in V. rewrite St in V. discriminate. }
      pose proof (TodoTableFacts.table_kept_or_success int4_in d now
                    (POST_todos (mkBody (Js.Str title) Js.Undefined))) as K.
      simpl in K. rewrite E in K. simpl in K.
      destruct K as [K|K]; [exact K|contradiction].
  - intros S R k data _ Hk.
    split; [|rewrite handleUpdate_table; apply TodoTableFacts.distinct_after;
             [exact N|exact I]].
    unfold handleUpdate, in_sync in *.
    destruct (updateTodo int4_in d now (template k) data) as [res d'] eqn:E.
    destruct (TodosFacts.reachable_invariants int4_in d R) as [_ [U _]].
    destruct (resolves res) eqn:V; simpl.
    + pose proof (TodoTableFacts.route_statuses int4_in d now
                    (PUT_todo (template k) data)) as H.
      simpl in H. rewrite E in H. simpl in H.
      apply resolves_status in V.
      assert (status res = 200) as St by (intuition lia).
      destruct (TodoTableFacts.sorted_after_update int4_in d now _ data res d' U E St)
        as [_ [k' [t [Hp [Hb [Hid Hs]]]]]].
      apply Hk in Hp. subst k'.
      rewrite Hs, Hb, S, !map_map. apply map_ext. intros u. simpl.
      destruct (id u =? k); reflexivity.
    + assert (d' = d) as ->; [|exact S].
      destruct (Z.eq_dec (status res) 200) as [St|St].
      { unfold resolves in V. rewrite St in V. discriminate. }
      pose proof (TodoTableFacts.table_kept_or_success int4_in d now
                    (PUT_todo (template k) data)) as K.
      simpl in K. rewrite E in K. simpl in K.
      destruct K as [K|K]; [exact K|contradiction].
  - intros S k _ Hk.
    split; [|rewrite handleDelete_table; apply TodoTableFacts.distinct_after;
             [exact N|exact I]].
    unfold handleDelete, in_sync in *.
    destruct (deleteTodo int4_in d (template k)) as [res d'] eqn:E.
    destruct (resolves res) eqn:V; simpl.
    + pose proof (TodoTableFacts.route_statuses int4_in d 0
                    (DELETE_todo (template k))) as H.
      simpl in H. rewrite E in H. simpl in H.
      apply resolves_status in V.
      assert (status res = 200) as St by (intuition lia).
      destruct (TodoTableFacts.sorted_after_delete int4_in d _ res d' E St)
        as [_ [k' [Hp Hs]]].
      apply Hk in Hp. subst k'.
      rewrite Hs, S. clear.
      induction (order_by_created_at_desc (rows d)) as [|u l IH]; simpl; [reflexivity|].
      destruct (id u =? k); simpl; rewrite IH; reflexivity.
    + assert (d' = d) as ->; [|exact S].
      destruct (Z.eq_dec (status res) 200) as [St|St].
      { unfold resolves in V. rewrite St in V. discriminate. }
      pose proof (TodoTableFacts.table_kept_or_success int4_in d 0
                    (DELETE_todo (template k))) as K.
      simpl in K. rewrite E in K. simpl in K.
      destruct K as [K|K]; [exact K|contradiction].
Qed.

(** X8. The checkbox flips that todo and no other.  With the page in step
    with a reachable table whose rows were created at different instants and
    the database reachable, a click on the checkbox of a listed todo sets its
    [completed] to the opposite and its [updated_at] to the instant of the
    request, in what the list endpoint answers and on the page, and leaves
    every other todo and the order as they were. *)
Theorem checkbox_flips_that_todo (st : state) (d : db) (now : Z) (t : todo) :
  reachable int4_in d -> online d = true -> distinct_times d -> in_sync st d ->
  In t (rows d) -> isSafeInteger (id t) = true ->
  int4_in (template (id t)) = Some (id t) ->
  let flipped := mkTodo (id t) (title t) (negb (completed t)) (created_at t) now in
  let st' := fst (onChange int4_in message st d now t) in
  let d' := snd (onChange int4_in message st d now t) in
  listed d' = map (fun u => if id u =? id t then flipped else u) (listed d) /\
  todos st' = map row (listed d') /\
  distinct_times d' /\ error st' = Js.Null.
Proof.
  intros R O N S Hin _ Hp flipped st' d'.
  assert (distinct_times d') as N'.
  { unfold d', onChange. rewrite handleUpdate_table.
    apply TodoTableFacts.distinct_after; [exact N|exact I]. }
  destruct (TodosFacts.reachable_invariants int4_in d R) as [_ [U _]].
  assert (onChange int4_in message st d now t
          = (mkState
               (map (fun todo => match entry_id todo with
                                 | Some k => if k =? id t then row flipped else todo
                                 | None => todo
                                 end) (todos st))
               (loading st) Js.Null,
             mkDb (online d)
                  (map (fun u => if id u =? id t then flipped else u) (rows d))
                  (todos_id_seq d))) as E.
  { unfold onChange, handleUpdate, updateTodo. simpl.
    rewrite (TodosFacts.update_one_row int4_in d now (template (id t)) (id t) t _ U O);
      try assumption; reflexivity. }
  assert (listed d' = map (fun u => if id u =? id t then flipped else u) (listed d)) as L.
  { unfold d'. rewrite E. simpl.
    rewrite !TodoTableFacts.listed_online by (simpl; assumption). simpl.
    apply TodoTableFacts.order_by_map.
    intros u Hu. destruct (id u =? id t) eqn:Eu; [|reflexivity].
    apply Z.eqb_eq in Eu.
    assert (In u (filter (fun u => id u =? id t) (rows d))) as Hf
      by (apply filter_In; split; [exact Hu|apply Z.eqb_eq, Eu]).
    rewrite (TodosFacts.filter_unique t (rows d) U Hin) in Hf.
    destruct Hf as [->|[]]. reflexivity. }
  split; [exact L|].
  split; [|split; [exact N'|unfold st'; rewrite E; reflexivity]].
  rewrite L. unfold st'. rewrite E. simpl.
  assert (todos st = map row (order_by_created_at_desc (rows d))) as S' by exact S.
  rewrite S', (TodoTableFacts.listed_online d O), !map_map.
  apply map_ext. intros u. simpl.
  destruct (id u =? id t); reflexivity.
Qed.

End WithBackend.

(** X9. What the form submits, the API accepts. [handleSubmit] sends nothing
    for a blank input and leaves the input as it is; otherwise it passes on
    the input trimmed and clears the input, and a POST of that title is never
    refused with 400, and when it is answered 201 the stored title is the
    submitted text itself. *)
Theorem form_submits_acceptable_titles (title : string) :
  match handleSubmit title with
  | (None, rest) => Js.trim title = ""%string /\ rest = title
  | (Some t, rest) =>
      t = Js.trim title /\ t <> ""%string /\ rest = ""%string /\
      forall d now,
        status (fst (createTodo d now (mkBody (Js.Str t) Js.Undefined))) <> 400 /\
        (forall r d',
            createTodo d now (mkBody (Js.Str t) Js.Undefined) = (r, d') ->
            status r = 201 ->
            exists t', body r = RowBody (Some t') /\ Todos.title t' = t)
  end.
Proof.
  unfold handleSubmit. simpl.
  destruct (Js.trim title =? "")%string eqn:E; simpl.
  - split; [apply String.eqb_eq, E|reflexivity].
  - split; [reflexivity|]. split; [apply String.eqb_neq, E|]. split; [reflexivity|].
    intros d now.
    assert (Js.trim (Js.trim title) = Js.trim title) as T
      by (apply JsFacts.trim_fixed, JsFacts.trim_trimmed).
    unfold createTodo. simpl. rewrite E. simpl. rewrite T, E.
    unfold insert.
    destruct (negb (online d)); [split; [simpl; discriminate|]|].
    { intros r d' H. injection H as <- _. discriminate. }
    destruct (has_nul (Js.trim title)); [split; [simpl; discriminate|]|].
    { intros r d' H. injection H as <- _. discriminate. }
    destruct (VARCHAR_LIMIT <? String.length (Js.trim title))%nat;
      [split; [simpl; discriminate|]|].
    { intros r d' H. injection H as <- _. discriminate. }
    destruct (INT4_MAX <? todos_id_seq d); [split; [simpl; discriminate|]|].
    { intros r d' H. injection H as <- _. discriminate. }
    split; [simpl; discriminate|].
    intros r d' H _. injection H as <- _. eexists. split; reflexivity.
Qed.

End TodoAppFacts.

Module ProductRulesFacts.

Import Products ProductRules.
Local Open Scope Z_scope.






Lemma check_name_ok (v : string) :
  check_name v = [] -> v <> ""%string /\ (String.length v <= 200)%nat.
Proof.
  unfold check_name.
  destruct (v =? "")%string eqn:E; [discriminate|].
  destruct (200 <? String.length v)%nat eqn:L; [discriminate|].
  intros _. split; [apply String.eqb_neq, E|apply Nat.ltb_ge, L].
Qed.

Lemma check_price_ok (v : Z) : check_price v = [] -> 0 <= v.
Proof.
  unfold check_price. destruct (v <? 0) eqn:E; [discriminate|].
  intros _. apply Z.ltb_ge, E.
Qed.

Lemma check_category_ok (v : string) : check_category v = [] -> In v categories.
Proof.
  unfold check_category.
  destruct (existsb (String.eqb v) categories) eqn:E; [|discriminate].
  intros _. apply existsb_exists in E. destruct E as [x [Hx E]].
  apply String.eqb_eq in E. subst x. exact Hx.
Qed.

Lemma trimmed_empty : Js.trimmed ""%string.
Proof. split; reflexivity. Qed.

Lemma new_document_conforms (oid : N) (now : Z) (b : input) :
  validate_new b = [] -> conforms (new_document oid now b).
Proof.
  unfold validate_new. intros E.
  apply app_eq_nil in E. destruct E as [Rp E].
  apply app_eq_nil in E. destruct E as [Rn E].
  apply app_eq_nil in E. destruct E as [En E].
  apply app_eq_nil in E. destruct E as [Ep Ec].
  unfold conforms, new_document. simpl.
  destruct (in_name b) as [n|]; [|discriminate].
  destruct (in_price b) as [pr|]; [|discriminate].
  destruct (check_name_ok _ En) as [N1 N2].
  split; [exact N1|]. split; [exact N2|].
  split; [apply JsFacts.trim_trimmed|].
  split; [destruct (in_description b); [apply JsFacts.trim_trimmed|apply trimmed_empty]|].
  split; [apply check_price_ok, Ep|].
  destruct (in_category b) as [c|]; [apply check_category_ok, Ec|].
  simpl. auto 6.
Qed.

Lemma updated_document_conforms (now : Z) (b : input) (p : product) :
  validate_update b = [] -> conforms p -> conforms (updated_document now b p).
Proof.
  unfold validate_update. intros E [N1 [N2 [T1 [T2 [P C]]]]].
  apply app_eq_nil in E. destruct E as [Ec E].
  apply app_eq_nil in E. destruct E as [Ep En].
  unfold conforms, updated_document. simpl.
  split; [destruct (in_name b); [apply (check_name_ok _ En)|exact N1]|].
  split; [destruct (in_name b); [apply (check_name_ok _ En)|exact N2]|].
  split; [destruct (in_name b); [apply JsFacts.trim_trimmed|exact T1]|].
  split; [destruct (in_description b); [apply JsFacts.trim_trimmed|exact T2]|].
  split; [destruct (in_price b); [apply check_price_ok, Ep|exact P]|].
  destruct (in_category b); [apply check_category_ok, Ec|exact C].
Qed.

Section WithMongoose.

Variable castObjectId : string -> option N.

(** The statuses of each route. *)
Lemma product_route_statuses (s : store) (now : Z) (oid : N) (r : request) :
  In (status (fst (handle castObjectId s now oid r)))
     match r with
     | GET_products _ => [200; 500]
     | POST_products _ => [201; 400; 500]
     | GET_product _ => [200; 400; 404; 500]
     | PUT_product _ _ => [200; 400; 404; 500]
     | DELETE_product _ => [200; 400; 404; 500]
     end.
Proof.
  destruct r as [q|b|id|id b|id]; simpl.
  - unfold listProducts. destruct (find s _); simpl; auto.
  - unfold createProduct. destruct (create s now oid b) as [[p|e] s']; simpl; auto.
    destruct (error_name e =? "ValidationError")%string; simpl; auto.
  - unfold getProduct. destruct (findById castObjectId s id) as [[p|]|e]; simpl; auto.
    destruct (isCastError e); simpl; auto.
  - unfold updateProduct.
    destruct (findByIdAndUpdate castObjectId s now id b) as [[[p|]|e] s']; simpl; auto.
    destruct (isCastError e); simpl; auto.
    destruct (error_name e =? "ValidationError")%string; simpl; auto.
  - unfold deleteProduct.
    destruct (findByIdAndDelete castObjectId s id) as [[[p|]|e] s']; simpl; auto.
    destruct (isCastError e); simpl; auto.
Qed.



Lemma handle_keeps_conforming (s : store) (now : Z) (oid : N) (r : request) :
  Forall conforms (products s) ->
  Forall conforms (products (snd (handle castObjectId s now oid r))).
Proof.
  intros V.
  destruct r as [q|b|id|id b|id]; simpl.
  - unfold listProducts. destruct (find s _); exact V.
  - unfold createProduct, create.
    destruct (validate_new b) eqn:E; [|exact V].
    destruct (negb (readyState s =? 1)); [exact V|].
    destruct (existsb _ (products s)); [exact V|].
    simpl. apply Forall_app. split; [exact V|].
    constructor; [apply new_document_conforms, E|constructor].
  - unfold getProduct. destruct (findById castObjectId s id) as [[p|]|e]; simpl;
      try exact V.
    destruct (isCastError e); exact V.
  - unfold updateProduct, findByIdAndUpdate.
    destruct (castObjectId id) as [k|]; [|exact V].
    destruct (validate_update b) eqn:E; [|exact V].
    destruct (negb (readyState s =? 1)); [exact V|].
    destruct (List.find _ (products s)); simpl;
      (apply ProductsFacts.update_first_Forall;
       [intros x; apply updated_document_conforms, E|exact V]).
  - unfold deleteProduct, findByIdAndDelete.
    destruct (castObjectId id) as [k|]; [|exact V].
    destruct (negb (readyState s =? 1)); [exact V|].
    destruct (List.find _ (products s)); simpl;
      (apply Forall_forall; intros x Hin; apply ProductsFacts.remove_first_incl in Hin;
       rewrite Forall_forall in V; apply V, Hin).
Qed.

(** X11. Requests with plain bodies keep the collection within the schema.
    The bodies are those of [input]: the schema's fields, as values of their
    types.  If every stored document has a non-empty name of at most 200
    characters, a price that is not negative, one of the five categories, and
    a name and a description that neither start nor end with white space,
    then so has every document stored after the request, whatever the
    request and its answer: an update is validated like a creation. *)
Theorem plain_bodies_keep_the_schema (s : store) (now : Z) (oid : N) (r : request) :
  (forall p, In p (products s) -> conforms p) ->
  forall p, In p (products (snd (handle castObjectId s now oid r))) ->
    name p <> ""%string /\ (String.length (name p) <= 200)%nat /\
    Js.trimmed (name p) /\ Js.trimmed (description p) /\
    0 <= price p /\
    In (category p) ["electronics"; "clothing"; "books"; "food"; "other"]%string.
Proof.
  intros V.
  assert (Forall conforms (products (snd (handle castObjectId s now oid r)))) as V'.
  { apply handle_keeps_conforming, Forall_forall, V. }
  intros p Hin. rewrite Forall_forall in V'. exact (V' p Hin).
Qed.



(** X14. An id that is not an ObjectId is answered 400. GET, PUT and DELETE
    answer 400 with [Invalid product ID format] and leave the collection as it
    is, whatever the body of the PUT and whether or not the connection is up.
    *)
Theorem invalid_product_id_answers_400 (s : store) (now : Z) (id : string) (b : input) :
  castObjectId id = None ->
  getProduct castObjectId s id
    = (mkResponse 400 (ErrorBody "Invalid product ID format"), s) /\
  updateProduct castObjectId s now id b
    = (mkResponse 400 (ErrorBody "Invalid product ID format"), s) /\
  deleteProduct castObjectId s id
    = (mkResponse 400 (ErrorBody "Invalid product ID format"), s).
Proof.
  intros H.
  unfold getProduct, updateProduct, deleteProduct, findById, findByIdAndUpdate,
    findByIdAndDelete.
  rewrite H. repeat split; reflexivity.
Qed.

End WithMongoose.

End ProductRulesFacts.

Module ItemsFacts.

Import Inventory Items.
Local Open Scope Z_scope.

Lemma find_has_id_none (k : Z) (l : list Item) :
  (forall i, In i l -> Inventory.id i <> Some k) -> List.find (has_id k) l = None.
Proof.
  induction l as [|a l IH]; simpl; intros A; [reflexivity|].
  unfold has_id at 1.
  destruct (Inventory.id a) as [x|] eqn:E.
  - destruct (x =? k) eqn:X.
    + apply Z.eqb_eq in X. subst x. exfalso. apply (A a); [left; reflexivity|exact E].
    + apply IH. intros i Hin. apply A. right. exact Hin.
  - apply IH. intros i Hin. apply A. right. exact Hin.
Qed.

Lemma find_has_id_some (k : Z) (l : list Item) (i : Item) :
  In i l -> Inventory.id i = Some k -> exists j, List.find (has_id k) l = Some j.
Proof.
  intros Hin Hk.
  destruct (List.find (has_id k) l) as [j|] eqn:F; [exists j; reflexivity|].
  apply (find_none _ _ F) in Hin. unfold has_id in Hin. rewrite Hk, Z.eqb_refl in Hin.
  discriminate.
Qed.

(** X15. An item that is not there. With the database up, GET, PUT and DELETE
    for an id no row has are answered 404 with the error [Item not found with
    id: <id>], and the table stays as it is: neither [save] nor [delete] is
    reached. A PUT whose body fails validation is answered 400 first, whether
    or not the item exists. *)
Theorem missing_item_answers_404 (unavailable : exception)
        (save : db -> Z -> Item -> exception + (Item * db))
        (d : db) (now : Z) (k : Z) :
  up d = true -> (forall i, In i (items d) -> Inventory.id i <> Some k) ->
  getItem unavailable d now k = not_found now k /\
  deleteItem unavailable d now k = (not_found now k, d) /\
  (forall item, validate item = [] ->
                updateItem unavailable save d now k item = (not_found now k, d)) /\
  (forall item, validate item <> [] ->
                updateItem unavailable save d now k item
                  = (handleValidation now (validate item), d)).
Proof.
  intros U A.
  pose proof (find_has_id_none k (items d) A) as F.
  split; [|split; [|split]].
  - unfold getItem, findById. rewrite U, F. reflexivity.
  - unfold deleteItem, delete, findById. rewrite U, F. reflexivity.
  - intros item V. unfold updateItem, update, findById. rewrite V, U, F. reflexivity.
  - intros item V. unfold updateItem.
    destruct (validate item) as [|e errors]; [contradiction|reflexivity].
Qed.

(** X16. Delete, then 404. With the database up, DELETE of a stored item
    answers 204 without a body and removes the rows of that id and no other;
    GET and a second DELETE for the id are then answered 404, and GET for
    every other id answers as before. *)
Theorem deleted_item_is_gone (unavailable : exception) (d : db) (now : Z) (k : Z)
        (i : Item) :
  up d = true -> In i (items d) -> Inventory.id i = Some k ->
  let d' := snd (deleteItem unavailable d now k) in
  deleteItem unavailable d now k = (mkResponse 204 NoBody, d') /\
  items d' = filter (fun j => negb (has_id k j)) (items d) /\
  (forall now', getItem unavailable d' now' k = not_found now' k) /\
  (forall now', deleteItem unavailable d' now' k = (not_found now' k, d')) /\
  (forall now' k', k' <> k ->
                   getItem unavailable d' now' k' = getItem unavailable d now' k').
Proof.
  intros U Hin Hk.
  destruct (find_has_id_some k (items d) i Hin Hk) as [j F].
  unfold deleteItem at 1 2, delete, findById. rewrite U, F. simpl.
  split; [reflexivity|]. split; [reflexivity|].
  assert (forall x, In x (filter (fun j => negb (has_id k j)) (items d)) ->
                    Inventory.id x <> Some k) as A.
  { intros x Hx E. apply filter_In in Hx. destruct Hx as [_ Hx].
    unfold has_id in Hx. rewrite E, Z.eqb_refl in Hx. discriminate. }
  pose proof (find_has_id_none k _ A) as F'.
  split; [|split].
  - intros now'. unfold getItem, findById. simpl. rewrite F'. reflexivity.
  - intros now'. unfold deleteItem, delete, findById. simpl. rewrite F'. reflexivity.
  - intros now' k' Hne. unfold getItem, findById. simpl. rewrite U.
    replace (List.find (has_id k') (filter (fun j => negb (has_id k j)) (items d)))
      with (List.find (has_id k') (items d)); [reflexivity|].
    clear - Hne. induction (items d) as [|a l IH]; simpl; [reflexivity|].
    destruct (has_id k' a) eqn:E'.
    + assert (has_id k a = false) as E.
      { unfold has_id in *. destruct (Inventory.id a) as [x|]; [|reflexivity].
        apply Z.eqb_eq in E'. subst x. apply Z.eqb_neq. exact Hne. }
      rewrite E. simpl. rewrite E'. reflexivity.
    + destruct (has_id k a); simpl; [|rewrite E']; exact IH.
Qed.

Lemma get_fold_merge (errors : list FieldError) (m : map) (key : string) :
  get (fold_left (fun m fe => merge_first m (getField fe) (shown fe)) errors m) key
    = match get m key with
      | Some v => Some v
      | None => option_map shown
                  (List.find (fun fe => (getField fe =? key)%string) errors)
      end.
Proof.
  revert m. induction errors as [|fe errors IH]; intros m; simpl.
  - destruct (get m key); reflexivity.
  - rewrite IH. unfold merge_first.
    destruct (get m (getField fe)) as [x|] eqn:G.
    + destruct (get m key) as [v|] eqn:Gk; [reflexivity|].
      destruct (getField fe =? key)%string eqn:E; [|reflexivity].
      apply String.eqb_eq in E. rewrite E in G. rewrite G in Gk. discriminate.
    + rewrite InventoryFacts.get_app. simpl.
      destruct (get m key) as [v|]; [reflexivity|].
      destruct (getField fe =? key)%string; reflexivity.
Qed.

Lemma keys_fold_merge (errors : list FieldError) (m : map) :
  NoDup (List.map fst m) ->
  NoDup (List.map fst
           (fold_left (fun m fe => merge_first m (getField fe) (shown fe)) errors m)).
Proof.
  revert m. induction errors as [|fe errors IH]; intros m N; simpl; [exact N|].
  apply IH. unfold merge_first.
  destruct (get m (getField fe)) eqn:G; [exact N|].
  rewrite map_app. simpl.
  assert (~ In (getField fe) (List.map fst m)) as Hn.
  { clear - G. induction m as [|[k v] m IH]; simpl in *; [tauto|].
    destruct (k =? getField fe)%string eqn:E; [discriminate|].
    apply String.eqb_neq in E. intros [H|H]; [contradiction|]. exact (IH G H). }
  clear - N Hn. induction (List.map fst m) as [|a l IH]; simpl.
  - constructor; [intros []|constructor].
  - inversion N as [|? ? Ha N']; subst.
    constructor.
    + intros Hin. apply in_app_or in Hin. destruct Hin as [Hin|[Hin|[]]].
      * exact (Ha Hin).
      * apply Hn. left. symmetry. exact Hin.
    + apply IH; [exact N'|]. intros Hin. apply Hn. right. exact Hin.
Qed.

(** X17. The [fieldErrors] of a validation response. The response is a 400
    whose map has one entry for each field in error and none for any other
    field: the entry of a field is the message of the first error reported for
    it, or [Invalid value] when that error has no message. *)
Theorem field_errors_keep_the_first (now : Z) (errors : list FieldError) :
  status (handleValidation now errors) = 400 /\
  NoDup (List.map fst (field_errors (handleValidation now errors))) /\
  forall key,
    get (field_errors (handleValidation now errors)) key
      = option_map shown (List.find (fun fe => (getField fe =? key)%string) errors).
Proof.
  split; [reflexivity|].
  unfold field_errors, handleValidation. simpl. unfold toMap.
  split.
  - apply (keys_fold_merge errors []). constructor.
  - intros key. apply (get_fold_merge errors [] key).
Qed.

End ItemsFacts.

Module PhpRoutesFacts.

Import PhpRouter PhpRoutes.
Import JsFacts.

Lemma literals_cons (c : ascii) (s : string) :
  literals (String c s) = Lit c :: literals s.
Proof. reflexivity. Qed.

Lemma replace_no_brace (path : string) :
  no_brace path = true -> replace_placeholders path None = literals path.
Proof.
  induction path as [|c path IH]; simpl; [reflexivity|].
  intros H. apply andb_prop in H. destruct H as [Hc Hp].
  apply negb_true_iff in Hc. rewrite Hc, (IH Hp). reflexivity.
Qed.

Lemma replace_word (w acc rest : string) :
  forallb is_word (list_ascii_of_string w) = true ->
  replace_placeholders (w ++ rest) (Some acc)
    = replace_placeholders rest (Some (acc ++ w)%string).
Proof.
  revert acc. induction w as [|c w IH]; intros acc; simpl.
  - intros _. rewrite append_empty_r. reflexivity.
  - intros H. apply andb_prop in H. destruct H as [Hc Hw].
    rewrite Hc, (IH _ Hw), append_assoc. reflexivity.
Qed.

(** X18. What counts as a placeholder. [addRoute] keeps a path without an
    opening brace as it is; it turns [{name}], where the name is a non-empty
    run of letters, digits and underscores, into a group of that name and goes
    on with the rest of the path; and it leaves [{}] in the pattern as the two
    characters. *)
Theorem placeholders_become_groups :
  (forall path, no_brace path = true -> replace_placeholders path None = literals path) /\
  (forall before name rest,
      no_brace before = true -> word name = true ->
      replace_placeholders (before ++ "{" ++ name ++ "}" ++ rest) None
        = (literals before ++ Capture name :: replace_placeholders rest None)%list) /\
  (forall rest,
      replace_placeholders ("{}" ++ rest) None
        = Lit "{"%char :: Lit "}"%char :: replace_placeholders rest None).
Proof.
  split; [exact replace_no_brace|]. split.
  - intros before name rest Hb Hw.
    unfold word in Hw. apply andb_prop in Hw. destruct Hw as [Hn Hw].
    apply negb_true_iff in Hn.
    change ("{" ++ name ++ "}" ++ rest)%string
      with (String "{" (name ++ String "}" rest))%string.
    induction before as [|c before IH]; simpl.
    + rewrite (replace_word name EmptyString _ Hw). simpl.
      rewrite Hn. reflexivity.
    + simpl in Hb. apply andb_prop in Hb. destruct Hb as [Hc Hb].
      apply negb_true_iff in Hc. rewrite Hc, (IH Hb). reflexivity.
  - intros rest. simpl.
    destruct rest as [|c rest]; reflexivity.
Qed.

Lemma whole_match_params (p : list token) (s : string) (ps : params) :
  whole_match p s ps ->
  map fst ps = capture_names p /\ Forall segment (map snd ps) /\ s = expand p ps.
Proof.
  induction 1 as [|c p s ps W [IH1 [IH2 IH3]]|n seg p s ps Hn Hs W [IH1 [IH2 IH3]]]; simpl.
  - repeat split. constructor.
  - repeat split; [exact IH1|exact IH2|]. rewrite IH3. reflexivity.
  - repeat split.
    + rewrite IH1. reflexivity.
    + constructor; [split; assumption|exact IH2].
    + rewrite IH3. reflexivity.
Qed.

Lemma dispatch_routes_invokes (routes : list route) (m uri c a : string) (ps : params) :
  dispatch_routes routes m uri = Invoke c a ps ->
  exists r, In r routes /\ handler r = (c, a) /\ method r = strtoupper m /\
            preg_match (pattern r) uri = Some ps.
Proof.
  induction routes as [|r routes IH]; simpl; [discriminate|].
  destruct (method r =? strtoupper m)%string eqn:E; simpl.
  - destruct (preg_match (pattern r) uri) as [ps'|] eqn:P.
    + intros H. injection H as <- <- <-.
      exists r. split; [left; reflexivity|].
      split; [destruct (handler r); reflexivity|].
      split; [apply String.eqb_eq, E|exact P].
    + intros H. destruct (IH H) as [r' [Hin Hr]]. exists r'. split; [right; exact Hin|exact Hr].
  - intros H. destruct (IH H) as [r' [Hin Hr]]. exists r'. split; [right; exact Hin|exact Hr].
Qed.

(** X19. What a controller is handed, by routes whose paths hold no
    character that is syntax in a pattern and whose placeholders have names
    PCRE accepts, each once.  Whenever [dispatch] invokes an action, it is the
    action of a registered route whose method is the request's effective
    method; the params are one entry per placeholder of the route's path,
    keyed by the placeholders' names in path order, no name twice, each value
    a non-empty text without a slash; and the URI is the path with every
    placeholder replaced by its value, possibly followed by one line feed. *)
Theorem invoked_action_gets_the_placeholders (routes : list route)
        (override : option string) (method uri c a : string) (ps : params) :
  Forall well_formed routes ->
  dispatch routes override method uri = Invoke c a ps ->
  exists r,
    In r routes /\ handler r = (c, a) /\
    PhpRouter.method r = effective_method override method /\
    map fst ps = capture_names (pattern r) /\ NoDup (map fst ps) /\
    Forall segment (map snd ps) /\
    (uri = expand (pattern r) ps \/ uri = (expand (pattern r) ps ++ LF)%string).
Proof.
  intros WF.
  destruct (PhpRouterFacts.dispatch_unfold routes override method uri) as [m [-> Hm]].
  intros H. destruct (dispatch_routes_invokes routes m uri c a ps H) as [r [Hin [Hh [Hr P]]]].
  exists r. split; [exact Hin|]. split; [exact Hh|].
  split; [rewrite Hr; exact Hm|].
  rewrite Forall_forall in WF. destruct (WF r Hin) as [_ ND].
  destruct (PhpRouterFacts.preg_match_sound _ _ _ P) as [W|[u [-> W]]];
    destruct (whole_match_params _ _ _ W) as [H1 [H2 H3]].
  - split; [exact H1|]. split; [rewrite H1; exact ND|]. split; [exact H2|].
    left. exact H3.
  - split; [exact H1|]. split; [rewrite H1; exact ND|]. split; [exact H2|].
    right. rewrite H3. reflexivity.
Qed.

(** *** Registration order *)

Lemma dispatch_routes_app (l1 l2 : list route) (m uri : string) :
  dispatch_routes (l1 ++ l2) m uri
    = match dispatch_routes l1 m uri with
      | Invoke c a ps => Invoke c a ps
      | Respond _ _ _ => dispatch_routes l2 m uri
      end.
Proof.
  induction l1 as [|r l1 IH]; simpl; [reflexivity|].
  destruct (negb (PhpRouter.method r =? strtoupper m)%string); [exact IH|].
  destruct (preg_match (pattern r) uri); [reflexivity|exact IH].
Qed.

(** X20. A route registered later never takes a request from an earlier one.
    After [addRoute], every request that invoked an action before invokes the
    same action with the same params; a request that was answered 404 is
    dispatched as if the new route were the only one. *)
Theorem later_route_does_not_shadow (routes : list route) (m' path : string)
        (h : string * string) (override : option string) (method uri : string) :
  match dispatch routes override method uri with
  | Invoke c a ps =>
      dispatch (addRoute routes m' path h) override method uri = Invoke c a ps
  | Respond _ _ _ =>
      dispatch (addRoute routes m' path h) override method uri
        = dispatch (addRoute [] m' path h) override method uri
  end.
Proof.
  unfold dispatch, addRoute.
  rewrite dispatch_routes_app.
  destruct (dispatch_routes routes _ uri); reflexivity.
Qed.

(** X21. Methods are compared without regard to case, the override is not. The
    request method and the method a route is registered under are put in upper
    case before they are compared. A [_method] field replaces the method of a
    request whose method is spelled [POST], and only of such a request: with
    any other spelling the field is ignored. *)
Theorem method_case_and_override (routes : list route) (uri : string) :
  (forall m, dispatch routes None m uri = dispatch routes None (strtoupper m) uri) /\
  (forall m path h, addRoute routes m path h = addRoute routes (strtoupper m) path h) /\
  (forall o, dispatch routes (Some o) "POST" uri = dispatch routes None o uri) /\
  (forall o m, m <> "POST" -> dispatch routes (Some o) m uri = dispatch routes None m uri).
Proof.
  split; [|split; [|split]].
  - intros m. unfold dispatch.
    induction routes as [|r routes IH]; simpl; [reflexivity|].
    rewrite PhpRouterFacts.strtoupper_idem.
    destruct (negb (PhpRouter.method r =? strtoupper m)%string); [exact IH|].
    destruct (preg_match (pattern r) uri); [reflexivity|exact IH].
  - intros m path h. unfold addRoute. rewrite PhpRouterFacts.strtoupper_idem. reflexivity.
  - intros o. unfold dispatch. simpl.
    induction routes as [|r routes IH]; simpl; [reflexivity|].
    rewrite PhpRouterFacts.strtoupper_idem.
    destruct (negb (PhpRouter.method r =? strtoupper o)%string); [exact IH|].
    destruct (preg_match (pattern r) uri); [reflexivity|exact IH].
  - intros o m Hm. unfold dispatch.
    destruct (m =? "POST")%string eqn:E; [|reflexivity].
    apply String.eqb_eq in E. contradiction.
Qed.

(** *** The table of [public/index.php] *)

Lemma preg_match_literals (a : string) (p : list token) (rest : string) :
  preg_match (literals a ++ p) (a ++ rest)%string = preg_match p rest.
Proof.
  unfold literals. induction a as [|c a IH]; simpl; [reflexivity|].
  rewrite Ascii.eqb_refl. exact IH.
Qed.

Lemma preg_match_literals_inv (a : string) (p : list token) (s : string) (ps : params) :
  preg_match (literals a ++ p) s = Some ps ->
  exists rest, s = (a ++ rest)%string /\ preg_match p rest = Some ps.
Proof.
  unfold literals. revert s. induction a as [|c a IH]; intros s; simpl.
  - intros H. exists s. split; [reflexivity|exact H].
  - destruct s as [|c' s']; [discriminate|].
    destruct (Ascii.eqb c c') eqn:E; [|discriminate].
    apply Ascii.eqb_eq in E. subst c'.
    intros H. destruct (IH _ H) as [rest [-> Hr]].
    exists rest. split; [reflexivity|exact Hr].
Qed.

Lemma capture_to_the_end (n : string) (s seg : string) :
  s <> EmptyString -> slash_free s = true ->
  capture_then
    (fun seg rest => match preg_match [] rest with
                     | Some ps => Some ((n, seg) :: ps)
                     | None => None
                     end) seg s
  = Some [(n, (seg ++ s)%string)].
Proof.
  revert seg. induction s as [|c s IH]; intros seg Hn Hs; [contradiction|].
  simpl in Hs. apply andb_prop in Hs. destruct Hs as [Hc Hs].
  apply negb_true_iff in Hc.
  cbn [capture_then]. rewrite Hc.
  destruct s as [|c' s'].
  - simpl. reflexivity.
  - rewrite IH; [|discriminate|exact Hs].
    rewrite append_assoc. reflexivity.
Qed.

Lemma slash_free_app (a b : string) :
  slash_free (a ++ b) = slash_free a && slash_free b.
Proof.
  induction a as [|c a IH]; simpl; [reflexivity|].
  rewrite IH, andb_assoc. reflexivity.
Qed.

Lemma preg_match_whole_segment (n : string) (s : string) :
  s <> EmptyString -> slash_free s = true -> preg_match [Capture n] s = Some [(n, s)].
Proof. intros Hn Hs. exact (capture_to_the_end n s EmptyString Hn Hs). Qed.

Lemma preg_match_last_capture (n : string) (s : string) (ps : params) :
  preg_match [Capture n] s = Some ps <->
  segment s /\ ps = [(n, s)].
Proof.
  split.
  - intros H.
    assert (segment s) as [Hn Hs].
    { destruct (PhpRouterFacts.preg_match_sound _ _ _ H) as [W|[u [-> W]]].
      - inversion W as [| |? seg ? s' ? Hn Hs W']; subst.
        inversion W'; subst. rewrite append_empty_r. split; assumption.
      - inversion W as [| |? seg ? s' ? Hn Hs W']; subst.
        inversion W'; subst. rewrite append_empty_r. split.
        + destruct seg; [contradiction|discriminate].
        + rewrite slash_free_app, Hs. reflexivity. }
    split; [split; assumption|].
    rewrite (preg_match_whole_segment n s Hn Hs) in H.
    injection H as <-. reflexivity.
  - intros [[Hn Hs] ->]. apply (preg_match_whole_segment n s Hn Hs).
Qed.

Lemma preg_match_end (s : string) (ps : params) :
  preg_match [] s = Some ps <-> (s = EmptyString \/ s = LF) /\ ps = [].
Proof.
  simpl. split.
  - destruct (at_end s) eqn:E; [|discriminate].
    intros H. injection H as <-. split; [apply PhpRouterFacts.at_end_spec, E|reflexivity].
  - intros [H ->]. apply PhpRouterFacts.at_end_spec in H. rewrite H. reflexivity.
Qed.

Lemma index_routes_are :
  index_routes
  = [health_route; students_route "GET" "index"; students_route "POST" "store";
     student_route "GET" "show"; student_route "PUT" "update";
     student_route "DELETE" "destroy"].
Proof. vm_compute. reflexivity. Qed.

Lemma preg_match_static (a s : string) (ps : params) :
  preg_match (literals a) s = Some ps ->
  (s = a \/ s = (a ++ LF)%string) /\ ps = [].
Proof.
  rewrite <- (app_nil_r (literals a)). intros H.
  destruct (preg_match_literals_inv a [] s ps H) as [rest [-> Hr]].
  apply preg_match_end in Hr. destruct Hr as [[-> | ->] ->].
  - rewrite append_empty_r. split; [left; reflexivity|reflexivity].
  - split; [right; reflexivity|reflexivity].
Qed.

Lemma preg_match_static_self (a : string) : preg_match (literals a) a = Some [].
Proof.
  rewrite <- (app_nil_r (literals a)). rewrite <- (append_empty_r a) at 2.
  rewrite preg_match_literals. reflexivity.
Qed.

Lemma dispatch_routes_other_method (r : route) (rest : list route) (m uri : string) :
  PhpRouter.method r <> strtoupper m ->
  dispatch_routes (r :: rest) m uri = dispatch_routes rest m uri.
Proof.
  intros H. simpl. apply String.eqb_neq in H. rewrite H. reflexivity.
Qed.

Lemma dispatch_routes_no_match (r : route) (rest : list route) (m uri : string) :
  preg_match (pattern r) uri = None ->
  dispatch_routes (r :: rest) m uri = dispatch_routes rest m uri.
Proof.
  intros H. simpl. rewrite H.
  destruct (negb (PhpRouter.method r =? strtoupper m)%string); reflexivity.
Qed.

Lemma dispatch_routes_match (r : route) (rest : list route) (m uri : string) (ps : params) :
  PhpRouter.method r = strtoupper m -> preg_match (pattern r) uri = Some ps ->
  dispatch_routes (r :: rest) m uri = Invoke (fst (handler r)) (snd (handler r)) ps.
Proof.
  intros Hm H. simpl. rewrite Hm, String.eqb_refl, H. reflexivity.
Qed.

Lemma static_misses_student (a v : string) :
  (a = "/health" \/ a = "/api/students")%string ->
  preg_match (literals a) ("/api/students/" ++ v) = None.
Proof.
  intros Ha.
  destruct (preg_match (literals a) ("/api/students/" ++ v)) as [ps|] eqn:E; [|reflexivity].
  exfalso. apply preg_match_static in E. destruct E as [E _].
  destruct Ha as [-> | ->]; destruct E as [E|E]; discriminate.
Qed.

(** X22. The routes of [public/index.php]. The table serves exactly six kinds
    of request: GET [/health], GET and POST [/api/students], and GET, PUT and
    DELETE [/api/students/<id>] with a non-empty id without a slash, which the
    action receives as the param [id]. Every action that is invoked is invoked
    for one of these, the URI possibly followed by one line feed. *)
Theorem students_routing_table :
  (forall m,
      strtoupper m = "GET" ->
      dispatch index_routes None m "/health" = Invoke HealthController "check" [] /\
      dispatch index_routes None m "/api/students" = Invoke StudentController "index" []) /\
  (forall m,
      strtoupper m = "POST" ->
      dispatch index_routes None m "/api/students" = Invoke StudentController "store" []) /\
  (forall m v action,
      segment v ->
      (strtoupper m = "GET" /\ action = "show") \/
      (strtoupper m = "PUT" /\ action = "update") \/
      (strtoupper m = "DELETE" /\ action = "destroy") ->
      dispatch index_routes None m ("/api/students/" ++ v)
        = Invoke StudentController action [("id", v)]) /\
  (forall m uri c a ps,
      dispatch index_routes None m uri = Invoke c a ps ->
      (strtoupper m = "GET" /\ (uri = "/health" \/ uri = "/health" ++ LF) /\
       c = HealthController /\ a = "check" /\ ps = []) \/
      ((uri = "/api/students" \/ uri = "/api/students" ++ LF) /\
       c = StudentController /\ ps = [] /\
       ((strtoupper m = "GET" /\ a = "index") \/ (strtoupper m = "POST" /\ a = "store"))) \/
      (exists v,
          uri = "/api/students/" ++ v /\ segment v /\
          c = StudentController /\ ps = [("id", v)] /\
          ((strtoupper m = "GET" /\ a = "show") \/
           (strtoupper m = "PUT" /\ a = "update") \/
           (strtoupper m = "DELETE" /\ a = "destroy")))).
Proof.
  rewrite index_routes_are. unfold dispatch.
  split; [|split; [|split]].
  - intros m Hm. split.
    + apply (dispatch_routes_match health_route); [symmetry; exact Hm|].
      apply preg_match_static_self.
    + rewrite dispatch_routes_no_match by reflexivity.
      apply (dispatch_routes_match (students_route "GET" "index")); [symmetry; exact Hm|].
      apply preg_match_static_self.
  - intros m Hm.
    rewrite dispatch_routes_other_method by (simpl; rewrite Hm; discriminate).
    rewrite dispatch_routes_other_method by (simpl; rewrite Hm; discriminate).
    apply (dispatch_routes_match (students_route "POST" "store")); [symmetry; exact Hm|].
    apply preg_match_static_self.
  - intros m v action [Hn Hs] H.
    assert (preg_match (pattern (student_route (strtoupper m) action)) ("/api/students/" ++ v)
            = Some [("id", v)]) as P.
    { change (preg_match (literals "/api/students/" ++ [Capture "id"])
                         ("/api/students/" ++ v) = Some [("id", v)]).
      rewrite preg_match_literals.
      apply preg_match_whole_segment; assumption. }
    rewrite dispatch_routes_no_match
      by (apply static_misses_student; left; reflexivity).
    rewrite dispatch_routes_no_match
      by (apply static_misses_student; right; reflexivity).
    rewrite dispatch_routes_no_match
      by (apply static_misses_student; right; reflexivity).
    destruct H as [[Hm ->]|[[Hm ->]|[Hm ->]]]; rewrite Hm in P.
    + apply (dispatch_routes_match (student_route "GET" "show")); [symmetry; exact Hm|exact P].
    + rewrite dispatch_routes_other_method by (simpl; rewrite Hm; discriminate).
      apply (dispatch_routes_match (student_route "PUT" "update")); [symmetry; exact Hm|exact P].
    + rewrite dispatch_routes_other_method by (simpl; rewrite Hm; discriminate).
      rewrite dispatch_routes_other_method by (simpl; rewrite Hm; discriminate).
      apply (dispatch_routes_match (student_route "DELETE" "destroy"));
        [symmetry; exact Hm|exact P].
  - intros m uri c a ps H.
    destruct (dispatch_routes_invokes _ m uri c a ps H) as [r [Hin [Hh [Hm P]]]].
    assert (forall mm action, r = student_route mm action ->
              exists v, uri = ("/api/students/" ++ v)%string /\ segment v /\
                        c = StudentController /\ ps = [("id", v)]%string /\
                        strtoupper m = mm /\ a = action) as S.
    { intros mm action ->. simpl in Hh, Hm. injection Hh as <- <-.
      change (preg_match (literals "/api/students/" ++ [Capture "id"]) uri = Some ps) in P.
      apply preg_match_literals_inv in P. destruct P as [v [-> P]].
      apply preg_match_last_capture in P. destruct P as [Sv ->].
      exists v. repeat split; try reflexivity; try apply Sv. symmetry. exact Hm. }
    destruct Hin as [<-|[<-|[<-|[Hr|[Hr|[Hr|[]]]]]]].
    + left. simpl in Hh, Hm. injection Hh as <- <-.
      change (preg_match (literals "/health") uri = Some ps) in P.
      apply preg_match_static in P. destruct P as [P ->].
      split; [symmetry; exact Hm|]. split; [exact P|]. repeat split.
    + right; left. simpl in Hh, Hm. injection Hh as <- <-.
      change (preg_match (literals "/api/students") uri = Some ps) in P.
      apply preg_match_static in P. destruct P as [P ->].
      split; [exact P|]. split; [reflexivity|]. split; [reflexivity|].
      left. split; [symmetry; exact Hm|reflexivity].
    + right; left. simpl in Hh, Hm. injection Hh as <- <-.
      change (preg_match (literals "/api/students") uri = Some ps) in P.
      apply preg_match_static in P. destruct P as [P ->].
      split; [exact P|]. split; [reflexivity|]. split; [reflexivity|].
      right. split; [symmetry; exact Hm|reflexivity].
    + right; right. destruct (S _ _ (eq_sym Hr)) as [v [H1 [H2 [H3 [H4 [H5 H6]]]]]].
      exists v. repeat (split; [assumption|]). left. split; assumption.
    + right; right. destruct (S _ _ (eq_sym Hr)) as [v [H1 [H2 [H3 [H4 [H5 H6]]]]]].
      exists v. repeat (split; [assumption|]). right; left. split; assumption.
    + right; right. destruct (S _ _ (eq_sym Hr)) as [v [H1 [H2 [H3 [H4 [H5 H6]]]]]].
      exists v. repeat (split; [assumption|]). right; right. split; assumption.
Qed.

End PhpRoutesFacts.

Module PhpIndexFacts.

Import PhpIndex.

Lemma get_set (e : env) (key value k : string) :
  get (set e key value) k = if (key =? k)%string then Some value else get e k.
Proof.
  induction e as [|[k0 v0] e IH]; simpl.
  - destruct (key =? k)%string; reflexivity.
  - destruct (k0 =? key)%string eqn:E; simpl.
    + apply String.eqb_eq in E. rewrite E.
      destruct (key =? k)%string; reflexivity.
    + destruct (k0 =? k)%string eqn:E'; [|exact IH].
      apply String.eqb_eq in E'. rewrite <- E', String.eqb_sym, E. reflexivity.
Qed.

(** X23. The last assignment wins. When the loop runs to its end, [$_ENV]
    holds for every name the value of the last line that assigns it, and
    otherwise what it held before. It does not run to its end exactly when a
    line assigns to the empty name. *)
Theorem env_holds_the_last_assignment (lines : list string) (e : env) :
  (forall e', load e lines = Some e' ->
     forall key, get e' key = match last_assigned lines key with
                              | Some v => Some v
                              | None => get e key
                              end) /\
  (load e lines = None <->
   exists line value, In line lines /\ assignment line = Some (EmptyString, value)).
Proof.
  split.
  - revert e. induction lines as [|line rest IH]; intros e e'; simpl.
    + intros H key. injection H as <-. reflexivity.
    + unfold load_line.
      destruct (assignment line) as [[k v]|].
      * destruct (k =? "")%string; [discriminate|].
        intros H key. rewrite (IH _ _ H key).
        destruct (last_assigned rest key); [reflexivity|].
        rewrite get_set. destruct (k =? key)%string; reflexivity.
      * intros H key. rewrite (IH _ _ H key).
        destruct (last_assigned rest key); reflexivity.
  - revert e. induction lines as [|line rest IH]; intros e; simpl.
    + split; [discriminate|]. intros [line [value [[] _]]].
    + unfold load_line.
      destruct (assignment line) as [[k v]|] eqn:A.
      * destruct (k =? "")%string eqn:E.
        -- apply String.eqb_eq in E. subst k. split; [|reflexivity].
           intros _. exists line, v. split; [left; reflexivity|exact A].
        -- rewrite IH. split.
           ++ intros [l [value [Hin Hl]]]. exists l, value. split; [right; exact Hin|exact Hl].
           ++ intros [l [value [[<-|Hin] Hl]]].
              ** rewrite A in Hl. injection Hl as -> _. discriminate.
              ** exists l, value. split; assumption.
      * rewrite IH. split.
        -- intros [l [value [Hin Hl]]]. exists l, value. split; [right; exact Hin|exact Hl].
        -- intros [l [value [[<-|Hin] Hl]]].
           ++ rewrite A in Hl. discriminate.
           ++ exists l, value. split; assumption.
Qed.

Lemma explode_first (key value : string) :
  no_equals key = true -> explode (key ++ String "="%char value) = Some (key, value).
Proof.
  induction key as [|c key IH]; simpl; [reflexivity|].
  intros H. apply andb_prop in H. destruct H as [Hc Hk].
  apply negb_true_iff in Hc. rewrite Hc, (IH Hk). reflexivity.
Qed.

Lemma explode_none (line : string) : no_equals line = true -> explode line = None.
Proof.
  induction line as [|c line IH]; simpl; [reflexivity|].
  intros H. apply andb_prop in H. destruct H as [Hc Hk].
  apply negb_true_iff in Hc. rewrite Hc, (IH Hk). reflexivity.
Qed.

Lemma explode_splits (line key value : string) :
  explode line = Some (key, value) ->
  line = (key ++ String "="%char value)%string /\ no_equals key = true.
Proof.
  revert key. induction line as [|c line IH]; intros key; simpl; [discriminate|].
  destruct (Ascii.eqb c "=") eqn:E.
  - intros H. injection H as <- <-. apply Ascii.eqb_eq in E. subst c.
    split; reflexivity.
  - destruct (explode line) as [[k v]|]; [|discriminate].
    intros H. injection H as <- <-.
    destruct (IH k eq_refl) as [-> Hk]. simpl. rewrite E, Hk. split; reflexivity.
Qed.

(** X24. The syntax of a line. A line that starts with [#] and a line without
    an equals sign assign nothing. Any other line is split at its first equals
    sign: the name is the text before it and the value all the text after it,
    further equals signs and [#] included, both with the white space at their
    ends stripped. *)
Theorem env_line_splits_at_the_first_equals (line : string) :
  (is_comment line = true -> assignment line = None) /\
  (no_equals line = true -> assignment line = None) /\
  (forall key value,
      line = (key ++ String "="%char value)%string ->
      no_equals key = true -> is_comment line = false ->
      assignment line = Some (trim key, trim value)) /\
  (forall k v,
      assignment line = Some (k, v) ->
      exists key value,
        line = (key ++ String "="%char value)%string /\ no_equals key = true /\
        k = trim key /\ v = trim value).
Proof.
  unfold assignment. split; [|split; [|split]].
  - intros ->. reflexivity.
  - intros H. rewrite (explode_none line H). destruct (is_comment line); reflexivity.
  - intros key value -> Hk Hc. rewrite Hc, (explode_first key value Hk). reflexivity.
  - intros k v. destruct (is_comment line); [discriminate|].
    destruct (explode line) as [[key value]|] eqn:E; [|discriminate].
    intros H. injection H as <- <-.
    destruct (explode_splits line key value E) as [-> Hk].
    exists key, value. repeat split; try reflexivity. exact Hk.
Qed.

End PhpIndexFacts.

Module UsersFacts.

Import Users.
Local Open Scope Z_scope.

Lemma users_insert_perm (u : User) (l : list User) : Permutation (u :: l) (insert_desc u l).
Proof.
  induction l as [|h r IH]; simpl; [apply Permutation_refl|].
  destruct (createdAt h <? createdAt u).
  - apply Permutation_refl.
  - apply perm_trans with (h :: u :: r); [apply perm_swap|].
    apply perm_skip, IH.
Qed.

Lemma users_insert_sorted (u : User) (l : list User) :
  newest_first l -> newest_first (insert_desc u l).
Proof.
  unfold newest_first.
  induction l as [|h r IH]; intros S; simpl.
  - constructor; constructor.
  - destruct (createdAt h <? createdAt u) eqn:E.
    + apply Z.ltb_lt in E.
      constructor; [exact S|].
      inversion S as [|? ? S' F]; subst.
      constructor; [lia|].
      eapply Forall_impl; [|exact F]. simpl. intros; lia.
    + apply Z.ltb_ge in E.
      inversion S as [|? ? S' F]; subst.
      constructor; [apply IH, S'|].
      eapply Permutation_Forall; [apply users_insert_perm|].
      constructor; [exact E|exact F].
Qed.

Lemma users_order_perm (l : list User) : Permutation l (order_by_createdAt_desc l).
Proof.
  induction l as [|u l IH]; simpl; [apply perm_nil|].
  apply perm_trans with (u :: order_by_createdAt_desc l).
  - apply perm_skip, IH.
  - apply users_insert_perm.
Qed.

Lemma users_order_sorted (l : list User) : newest_first (order_by_createdAt_desc l).
Proof.
  induction l as [|u l IH]; simpl; [constructor|].
  apply users_insert_sorted, IH.
Qed.

(** X25. The users, newest first. With the database up, GET [/users] answers
    200 with every user of the table, ordered by creation time, newest first;
    an empty table gives the empty list. *)
Theorem users_are_listed_newest_first (d : db) :
  up d = true ->
  exists l, Controller.findAll d = mkResponse 200 (UserList l) /\
            Permutation (users d) l /\ newest_first l /\
            (users d = [] -> l = []).
Proof.
  intros U. exists (order_by_createdAt_desc (users d)).
  unfold Controller.findAll, Service.findAll. rewrite U.
  split; [reflexivity|]. split; [|split].
  - induction (users d) as [|u l IH]; simpl; [apply perm_nil|].
    apply perm_trans with (u :: order_by_createdAt_desc l).
    + apply perm_skip, IH.
    + apply users_insert_perm.
  - induction (users d) as [|u l IH]; simpl; [constructor|].
    apply users_insert_sorted, IH.
  - intros ->. reflexivity.
Qed.

Lemma find_id_none (k : Z) (l : list User) :
  (forall u, In u l -> id u <> k) -> List.find (fun u => id u =? k) l = None.
Proof.
  induction l as [|a l IH]; simpl; intros A; [reflexivity|].
  destruct (id a =? k) eqn:E.
  - apply Z.eqb_eq in E. exfalso. apply (A a); [left; reflexivity|exact E].
  - apply IH. intros u Hin. apply A. right. exact Hin.
Qed.

(** X26. A user that is not there, and one that is removed. With the database
    up and for an id within the column's type, GET, PUT and DELETE for an id
    no user has are answered 404 with [User with id <id> not found] and the
    table stays as it is: DELETE does not succeed silently. DELETE of a stored
    user answers 204 without a body and removes the user; GET and a second
    DELETE for the id are then answered 404. *)
Theorem missing_user_answers_404 (UpdateUserDto : Type)
        (assign : User -> UpdateUserDto -> User)
        (save : db -> Z -> User -> exception + (User * db)) (d : db) (now : Z) (k : Z) :
  up d = true -> int4 k = true ->
  ((forall u, In u (users d) -> id u <> k) ->
   Controller.findOne d k = not_found k /\
   Controller.remove d k = (not_found k, d) /\
   forall dto, Controller.update UpdateUserDto assign save d now k dto
               = (not_found k, d)) /\
  (forall u, In u (users d) -> id u = k ->
   let d' := snd (Controller.remove d k) in
   Controller.remove d k = (mkResponse 204 NoBody, d') /\
   users d' = filter (fun u => negb (id u =? k)) (users d) /\
   Controller.findOne d' k = not_found k /\
   Controller.remove d' k = (not_found k, d')).
Proof.
  intros U I. split.
  - intros A. pose proof (find_id_none k (users d) A) as F.
    split; [|split].
    + unfold Controller.findOne, Service.findOne. rewrite U, I, F. reflexivity.
    + unfold Controller.remove, Service.remove, Service.findOne. rewrite U, I, F. reflexivity.
    + intros dto. unfold Controller.update, Service.update, Service.findOne.
      rewrite U, I, F. reflexivity.
  - intros u Hin Hk.
    destruct (List.find (fun u => id u =? k) (users d)) as [user|] eqn:F.
    2:{ apply (find_none _ _ F) in Hin. rewrite Hk, Z.eqb_refl in Hin. discriminate. }
    assert (id user = k) as Hu by (apply find_some in F; apply Z.eqb_eq, F).
    unfold Controller.remove at 1 2, Service.remove, Service.findOne.
    rewrite U, I, F. simpl. rewrite Hu.
    split; [reflexivity|]. split; [reflexivity|].
    assert (List.find (fun u => id u =? k)
              (filter (fun u => negb (id u =? k)) (users d)) = None) as F'.
    { apply find_id_none. intros x Hx E. apply filter_In in Hx. destruct Hx as [_ Hx].
      rewrite E, Z.eqb_refl in Hx. discriminate. }
    split.
    + unfold Controller.findOne, Service.findOne. simpl. rewrite I, F'. reflexivity.
    + unfold Controller.remove, Service.remove, Service.findOne. simpl.
      rewrite I, F'. reflexivity.
Qed.

End UsersFacts.

Module PhpHealthFacts.

Import PhpHealth.
Local Open Scope Z_scope.

(** X27. The PHP health check has three outcomes. It answers 200 with
    [{status: 'ok', database: 'ok', timestamp}] exactly when the connection
    opens and the probe is answered. When the probe fails it answers 500 with
    [status], [database] and [detail]; when the connection cannot be opened,
    [Database::getInstance] ends the script with 500 and the one field
    [error], so that this response has none of the health fields. *)
Theorem php_health_has_three_outcomes (s : server) (now : Z) :
  (connects s = true /\ answers s = true /\
   check s now = mkResponse 200 (HealthOk "ok" "ok" now)) \/
  (connects s = true /\ answers s = false /\
   check s now = mkResponse 500 (HealthError "error" "unreachable" (query_error s))) \/
  (connects s = false /\
   check s now
     = mkResponse 500 (ConnectionError ("Database connection failed: " ++ connect_error s))).
Proof.
  unfold check, getInstance.
  destruct (connects s); [|right; right; split; reflexivity].
  destruct (answers s); [left|right; left]; repeat split; reflexivity.
Qed.

End PhpHealthFacts.

(** ** The statuses of the two Express services *)

Module StudentsFacts.

Import Students.
Local Open Scope Z_scope.

Lemma students_insert_perm (s : student) (l : list student) :
  Permutation (s :: l) (insert_desc s l).
Proof.
  induction l as [|h r IH]; simpl; [apply Permutation_refl|].
  destruct (created_at h <? created_at s).
  - apply Permutation_refl.
  - apply perm_trans with (h :: s :: r); [apply perm_swap|].
    apply perm_skip, IH.
Qed.

Lemma students_insert_sorted (s : student) (l : list student) :
  newest_first l -> newest_first (insert_desc s l).
Proof.
  unfold newest_first.
  induction l as [|h r IH]; intros S; simpl.
  - constructor; constructor.
  - destruct (created_at h <? created_at s) eqn:E.
    + apply Z.ltb_lt in E.
      constructor; [exact S|].
      inversion S as [|? ? S' F]; subst.
      constructor; [lia|].
      eapply Forall_impl; [|exact F]. simpl. intros; lia.
    + apply Z.ltb_ge in E.
      inversion S as [|? ? S' F]; subst.
      constructor; [apply IH, S'|].
      eapply Permutation_Forall; [apply students_insert_perm|].
      constructor; [exact E|exact F].
Qed.

Lemma students_order_perm (l : list student) :
  Permutation l (order_by_created_at_desc l).
Proof.
  induction l as [|s l IH]; simpl; [apply perm_nil|].
  apply perm_trans with (s :: order_by_created_at_desc l).
  - apply perm_skip, IH.
  - apply students_insert_perm.
Qed.

Lemma students_order_sorted (l : list student) :
  newest_first (order_by_created_at_desc l).
Proof.
  induction l as [|s l IH]; simpl; [constructor|].
  apply students_insert_sorted, IH.
Qed.

End StudentsFacts.

(** ** The list endpoints *)

Module ListingFacts.

Local Open Scope Z_scope.

(** C7. With the database answering, each list endpoint returns all rows of
    its table, ordered by creation time, newest first: [listTodos] answers 200
    with them and their number, [GET /users] answers 200 with them, and
    [Student::findAll] returns them to the controller.  Newest first leaves
    the order among rows created at the same instant open. *)
Theorem list_is_newest_first :
  (forall d,
      Todos.online d = true ->
      exists l,
        Todos.listTodos d
          = (Todos.mkResponse 200 (Todos.ListBody (List.length l) l), d) /\
        Permutation (Todos.rows d) l /\ Todos.newest_first l) /\
  (forall d,
      Users.up d = true ->
      exists l,
        Users.Service.findAll d = inr l /\
        Users.Controller.findAll d = Users.mkResponse 200 (Users.UserList l) /\
        Permutation (Users.users d) l /\ Users.newest_first l) /\
  (forall d,
      Students.answers d = true ->
      exists l,
        Students.findAll d = inr l /\
        Permutation (Students.students d) l /\ Students.newest_first l).
Proof.
  split; [|split].
  - intros d O. exists (Todos.order_by_created_at_desc (Todos.rows d)).
    unfold Todos.listTodos, Todos.select_all. rewrite O. simpl.
    split; [reflexivity|].
    split; [apply TodosFacts.order_by_perm|apply TodosFacts.order_by_sorted].
  - intros d U. exists (Users.order_by_createdAt_desc (Users.users d)).
    unfold Users.Controller.findAll, Users.Service.findAll. rewrite U.
    split; [reflexivity|]. split; [reflexivity|].
    split; [apply UsersFacts.users_order_perm|apply UsersFacts.users_order_sorted].
  - intros d A. exists (Students.order_by_created_at_desc (Students.students d)).
    unfold Students.findAll. rewrite A.
    split; [reflexivity|].
    split; [apply StudentsFacts.students_order_perm
           |apply StudentsFacts.students_order_sorted].
Qed.

End ListingFacts.

Module RouteFacts.

Local Open Scope Z_scope.

(** X28. Every route answers with one of its statuses. Todos: the list with
    200 or 500, a create with 201, 400 or 500, a get with 200, 404 or 500, an
    update with 200, 400, 404 or 500, a delete with 200 or 500 and never 404,
    the probe with 200 or 503. Products: the list with 200 or 500, a create
    with 201, 400 or 500, and get, update and delete with 200, 400, 404 or
    500. *)
Theorem routes_answer_with_their_statuses (int4_in : string -> option Z)
        (castObjectId : string -> option N) :
  (forall d now r,
      In (Todos.status (fst (Todos.handle int4_in d now r)))
         match r with
         | Todos.GET_todos => [200; 500]
         | Todos.POST_todos _ => [201; 400; 500]
         | Todos.GET_todo _ => [200; 404; 500]
         | Todos.PUT_todo _ _ => [200; 400; 404; 500]
         | Todos.DELETE_todo _ => [200; 500]
         | Todos.GET_health => [200; 503]
         end) /\
  (forall s now oid r,
      In (Products.status (fst (Products.handle castObjectId s now oid r)))
         match r with
         | Products.GET_products _ => [200; 500]
         | Products.POST_products _ => [201; 400; 500]
         | Products.GET_product _ => [200; 400; 404; 500]
         | Products.PUT_product _ _ => [200; 400; 404; 500]
         | Products.DELETE_product _ => [200; 400; 404; 500]
         end).
Proof.
  split.
  - apply TodoTableFacts.route_statuses.
  - apply ProductRulesFacts.product_route_statuses.
Qed.

End RouteFacts.

(** ** The code at concrete requests *)

Module Examples.

Local Open Scope Z_scope.

Example sample_is : Todos.sample = Todos.mkDb true [Todos.sample_row] 2.
Proof. reflexivity. Qed.

Example sample_store_is : Products.sample_store = Products.mkStore 1 [Products.book].
Proof. vm_compute. reflexivity. Qed.


(** *** Where the code departs from a claim *)

(** C1 as stated fails on the todos API: the row with id 1 is deleted with
    200, and a second DELETE of id 1, now absent, answers 200 again instead
    of 404. *)
Lemma second_delete_answers_200 :
  exists d1,
    Todos.deleteTodo Todos.decimal Todos.sample "1"
      = (Todos.mkResponse 200 (Todos.MessageBody "Todo deleted"), d1) /\
    Todos.rows d1 = [] /\
    Todos.deleteTodo Todos.decimal d1 "1"
      = (Todos.mkResponse 200 (Todos.MessageBody "Todo deleted"), d1) /\
    Todos.status (fst (Todos.deleteTodo Todos.decimal d1 "1")) <> 404.
Proof.
  eexists. split; [reflexivity|]. split; [reflexivity|].
  split; [reflexivity|]. simpl. discriminate.
Qed.



(** C6 as stated fails at the value [""]: [?category=] lists the book, whose
    category is not the empty string. *)
Lemma empty_filter_lists_everything :
  Products.listProducts Products.sample_store (Some ""%string)
    = (Products.mkResponse 200 (Products.ListBody 1 [Products.book]),
       Products.sample_store) /\
  Products.category Products.book <> ""%string.
Proof. split; [reflexivity|]. simpl. discriminate. Qed.

(** C8 as stated fails: a POST of [/api/students/7] that carries
    [_method=put] invokes the update action, although no route registered for
    POST matches that URI, so that the claim asks for a 404. *)
Lemma method_override_reaches_put_route :
  PhpRouter.dispatch PhpRouter.index_routes (Some "put"%string) "POST" "/api/students/7"
    = PhpRouter.Invoke "App\Controllers\StudentController" "update"
        [("id"%string, "7"%string)] /\
  Forall (fun r => ~ (PhpRouter.method r = "POST"%string /\
                      exists ps, PhpRouter.whole_match (PhpRouter.pattern r)
                                   "/api/students/7" ps))
         PhpRouter.index_routes.
Proof.
  split; [reflexivity|].
  assert (forall p, PhpRouter.preg_match p "/api/students/7" = None ->
                    ~ exists ps, PhpRouter.whole_match p "/api/students/7" ps) as N.
  { intros p E [ps W].
    destruct (PhpRouterFacts.preg_match_complete p _ ps (or_introl W)) as [ps' E'].
    rewrite E in E'. discriminate. }
  unfold PhpRouter.index_routes, PhpRouter.get, PhpRouter.post, PhpRouter.put,
    PhpRouter.delete, PhpRouter.addRoute. simpl.
  repeat constructor; intros [Hm Hw]; simpl in Hm; try discriminate.
  revert Hw. apply N. reflexivity.
Qed.

(** *** The theorems at concrete requests *)

Lemma sample_reachable : Todos.reachable Todos.decimal Todos.sample.
Proof.
  exact (Todos.reachable_request Todos.decimal (Todos.fresh true) 0
           (Todos.POST_todos (Todos.mkBody (Js.Str " a ") Js.Undefined))
           (Todos.reachable_fresh Todos.decimal true)).
Defined.

Lemma sample_store_reachable : Products.reachable Products.hex24 Products.sample_store.
Proof.
  exact (Products.reachable_request Products.hex24 (Products.mkStore 1 []) 0
           0x507f1f77bcf86cd799439011%N (Products.POST_products Products.book_input)
           (Products.reachable_empty Products.hex24 1)).
Defined.

Lemma requests_after_delete_witness :
  Todos.status (fst (Todos.deleteTodo Todos.decimal Todos.sample "1")) = 200 /\
  Todos.getTodo Todos.decimal (snd (Todos.deleteTodo Todos.decimal Todos.sample "1")) "1"
    = (Todos.not_found "1", snd (Todos.deleteTodo Todos.decimal Todos.sample "1")) /\
  Products.reachable Products.hex24 Products.sample_store /\
  Products.status
    (fst (Products.deleteProduct Products.hex24 Products.sample_store
            "507f1f77bcf86cd799439011")) = 200 /\
  Products.deleteProduct Products.hex24
    (snd (Products.deleteProduct Products.hex24 Products.sample_store
            "507f1f77bcf86cd799439011"))
    "507f1f77bcf86cd799439011"
  = (Products.mkResponse 404 (Products.ErrorBody "Product not found"),
     snd (Products.deleteProduct Products.hex24 Products.sample_store
            "507f1f77bcf86cd799439011")).
Proof.
  pose proof (requests_after_delete_at := ServiceFacts.requests_after_delete
                                            Todos.decimal Products.hex24).
  destruct requests_after_delete_at as [T [_ [P _]]].
  split; [reflexivity|].
  split.
  - exact (proj1 (T Todos.sample "1"%string _ _ eq_refl eq_refl)).
  - split; [exact sample_store_reachable|]. split; [vm_compute; reflexivity|].
    exact (proj2 (proj2 (P Products.sample_store "507f1f77bcf86cd799439011"%string
                           (fst (Products.deleteProduct Products.hex24 Products.sample_store
                                   "507f1f77bcf86cd799439011"))
                           (snd (Products.deleteProduct Products.hex24 Products.sample_store
                                   "507f1f77bcf86cd799439011"))
                           sample_store_reachable
                           ltac:(vm_compute; reflexivity) ltac:(vm_compute; reflexivity)))).
Defined.



Lemma list_filter_is_exact_witness :
  Products.readyState Products.sample_store = 1 /\
  " books " <> ""%string /\
  (exists l,
      Products.listProducts Products.sample_store (Some " books "%string)
        = (Products.mkResponse 200 (Products.ListBody (List.length l) l),
           Products.sample_store) /\
      l = [Products.book]) /\
  Inventory.up Inventory.sample_db = true /\
  Inventory.isBlank " " = true /\
  Inventory.listItems Inventory.sample_db 0 (Some " "%string)
    = Inventory.mkResponse 200 (Inventory.ItemList (Inventory.items Inventory.sample_db)).
Proof.
  assert (Hne : " books "%string <> ""%string) by discriminate.
  destruct ServiceFacts.list_filter_is_exact as [P I].
  split; [reflexivity|]. split; [exact Hne|].
  split.
  - destruct (proj2 (proj2 (P Products.sample_store eq_refl)) " books "%string Hne)
      as [l [E [El _]]].
    exists l. split; [exact E|]. rewrite El. reflexivity.
  - split; [reflexivity|]. split; [reflexivity|].
    exact (proj1 (proj2 (I Inventory.sample_db 0 eq_refl)) " "%string eq_refl).
Defined.

Lemma create_without_required_field_witness :
  In Inventory.sample_error [Inventory.sample_error] /\
  Inventory.status (Inventory.handleValidation 0 [Inventory.sample_error]) = 400 /\
  exists msg,
    Inventory.get
      (Inventory.field_errors (Inventory.handleValidation 0 [Inventory.sample_error]))
      (Inventory.getField Inventory.sample_error) = Some msg.
Proof.
  assert (Hin : In Inventory.sample_error [Inventory.sample_error]) by (left; reflexivity).
  split; [exact Hin|].
  exact (proj1 (proj2 ServiceFacts.create_without_required_field)
           0 [Inventory.sample_error] Inventory.sample_error Hin).
Defined.

(** The three lists at tables of three rows each, none of them stored
    newest first. *)
Example three_todos_listed :
  Todos.listTodos TodoTable.three_todos
    = (Todos.mkResponse 200
         (Todos.ListBody 3 [TodoTable.third_todo; TodoTable.second_todo; Todos.sample_row]),
       TodoTable.three_todos).
Proof. reflexivity. Qed.

Example three_users_listed :
  Users.Service.findAll Users.three_users
    = inr [Users.mkUser 2 "Bob" "bob@example.org" "admin" true 9 9;
           Users.mkUser 3 "Cy" "cy@example.org" "user" false 5 5;
           Users.mkUser 1 "Ann" "ann@example.org" "user" true 3 3].
Proof. reflexivity. Qed.

Example three_students_listed :
  Students.findAll Students.sample
    = inr [Students.mkStudent 2 "Bob" "bob@example.org" "C" 1 9 9;
           Students.mkStudent 3 "Cy" "cy@example.org" "B" 0 5 5;
           Students.mkStudent 1 "Ann" "ann@example.org" "A" 1 3 3].
Proof. reflexivity. Qed.

Lemma list_is_newest_first_witness :
  (Todos.online TodoTable.three_todos = true /\
   Permutation (Todos.rows TodoTable.three_todos)
     [TodoTable.third_todo; TodoTable.second_todo; Todos.sample_row] /\
   Todos.newest_first [TodoTable.third_todo; TodoTable.second_todo; Todos.sample_row]) /\
  (Users.up Users.three_users = true /\
   Users.Controller.findAll Users.three_users
     = Users.mkResponse 200
         (Users.UserList
            [Users.mkUser 2 "Bob" "bob@example.org" "admin" true 9 9;
             Users.mkUser 3 "Cy" "cy@example.org" "user" false 5 5;
             Users.mkUser 1 "Ann" "ann@example.org" "user" true 3 3]) /\
   Permutation (Users.users Users.three_users)
     [Users.mkUser 2 "Bob" "bob@example.org" "admin" true 9 9;
      Users.mkUser 3 "Cy" "cy@example.org" "user" false 5 5;
      Users.mkUser 1 "Ann" "ann@example.org" "user" true 3 3] /\
   Users.newest_first
     [Users.mkUser 2 "Bob" "bob@example.org" "admin" true 9 9;
      Users.mkUser 3 "Cy" "cy@example.org" "user" false 5 5;
      Users.mkUser 1 "Ann" "ann@example.org" "user" true 3 3]) /\
  (Students.answers Students.sample = true /\
   Permutation (Students.students Students.sample)
     [Students.mkStudent 2 "Bob" "bob@example.org" "C" 1 9 9;
      Students.mkStudent 3 "Cy" "cy@example.org" "B" 0 5 5;
      Students.mkStudent 1 "Ann" "ann@example.org" "A" 1 3 3] /\
   Students.newest_first
     [Students.mkStudent 2 "Bob" "bob@example.org" "C" 1 9 9;
      Students.mkStudent 3 "Cy" "cy@example.org" "B" 0 5 5;
      Students.mkStudent 1 "Ann" "ann@example.org" "A" 1 3 3]).
Proof.
  destruct ListingFacts.list_is_newest_first as [T [U S]].
  split; [|split].
  - split; [reflexivity|].
    destruct (T TodoTable.three_todos eq_refl) as [l [E [P N]]].
    rewrite three_todos_listed in E. injection E as _ El. subst l.
    split; [exact P|exact N].
  - split; [reflexivity|].
    destruct (U Users.three_users eq_refl) as [l [E [C [P N]]]].
    rewrite three_users_listed in E. injection E as El. subst l.
    split; [exact C|]. split; [exact P|exact N].
  - split; [reflexivity|].
    destruct (S Students.sample eq_refl) as [l [E [P N]]].
    rewrite three_students_listed in E. injection E as El. subst l.
    split; [exact P|exact N].
Defined.

Lemma list_count_is_length_witness :
  Todos.body (fst (Todos.listTodos Todos.sample)) = Todos.ListBody 1 [Todos.sample_row] /\
  1%nat = List.length [Todos.sample_row] /\
  Products.body (fst (Products.listProducts Products.sample_store None))
    = Products.ListBody 1 [Products.book] /\
  1%nat = List.length [Products.book].
Proof.
  destruct ServiceFacts.list_count_is_length as [T [P _]].
  split; [reflexivity|].
  split; [exact (T Todos.sample _ _ 1%nat [Todos.sample_row] eq_refl eq_refl)|].
  split; [reflexivity|].
  exact (P Products.sample_store None _ _ 1%nat [Products.book] eq_refl eq_refl).
Defined.


Lemma index_routes_well_formed : Forall PhpRouter.well_formed PhpRouter.index_routes.
Proof.
  vm_compute.
  repeat (apply Forall_cons; [split; [reflexivity|]|]); try apply Forall_nil;
    try apply NoDup_nil; (apply NoDup_cons; [intros []|apply NoDup_nil]).
Defined.

Example show_route_serves_student_7 :
  PhpRouter.dispatch PhpRouter.index_routes None "GET" "/api/students/7"
    = PhpRouter.Invoke "App\Controllers\StudentController" "show"
        [("id"%string, "7"%string)].
Proof. reflexivity. Qed.

Lemma dispatch_first_match_witness :
  Forall PhpRouter.well_formed PhpRouter.index_routes /\
  (exists ps,
      PhpRouter.dispatch PhpRouter.index_routes None "GET" "/api/students/7"
        = PhpRouter.Invoke (fst (PhpRouter.handler PhpRouter.show_route))
                           (snd (PhpRouter.handler PhpRouter.show_route)) ps /\
      PhpRouter.subject_match (PhpRouter.pattern PhpRouter.show_route)
                              "/api/students/7" ps) /\
  PhpRouter.dispatch PhpRouter.index_routes None "PATCH" "/api/students/7"
    = PhpRouter.Respond 404 "Route not found" "/api/students/7".
Proof.
  assert (forall p uri, PhpRouter.preg_match p uri = None ->
                        ~ exists ps, PhpRouter.subject_match p uri ps) as N.
  { intros p uri E [ps W].
    destruct (PhpRouterFacts.preg_match_complete p uri ps W) as [ps' E'].
    rewrite E in E'. discriminate. }
  split; [exact index_routes_well_formed|].
  split.
  - pose (before := firstn 3 PhpRouter.index_routes).
    pose (after := skipn 4 PhpRouter.index_routes).
    assert (Hsplit : PhpRouter.index_routes
                     = (before ++ PhpRouter.show_route :: after)%list)
      by (vm_compute; reflexivity).
    assert (Hbefore : Forall (fun r' => ~ PhpRouter.selected None "GET"
                                          "/api/students/7" r') before).
    { repeat (apply Forall_cons;
              [intros [Hm Hw];
               first [vm_compute in Hm; discriminate
                     |revert Hw; apply N; vm_compute; reflexivity]|]).
      apply Forall_nil. }
    assert (Hsel : PhpRouter.selected None "GET" "/api/students/7" PhpRouter.show_route).
    { split; [vm_compute; reflexivity|].
      exists [("id", "7")]%string. left. vm_compute.
      repeat apply PhpRouter.whole_lit.
      apply (PhpRouter.whole_capture "id" "7" [] "" []).
      - discriminate.
      - reflexivity.
      - constructor. }
    exact (proj1 (PhpRouterFacts.dispatch_first_match PhpRouter.index_routes None
                    "GET" "/api/students/7" index_routes_well_formed)
                 before PhpRouter.show_route after Hsplit Hbefore Hsel).
  - apply (proj2 (PhpRouterFacts.dispatch_first_match PhpRouter.index_routes None
                    "PATCH" "/api/students/7" index_routes_well_formed)).
    repeat (apply Forall_cons; [intros [Hm Hw]; vm_compute in Hm; discriminate|]).
    apply Forall_nil.
Defined.

(** *** The further properties at concrete requests *)

Lemma todo_table_changes_only_on_success_witness :
  snd (Todos.handle Todos.decimal (Todos.fresh true) 0
         (Todos.POST_todos (Todos.mkBody (Js.Str " a ") Js.Undefined)))
    <> Todos.fresh true /\
  Todos.status
    (fst (Todos.handle Todos.decimal (Todos.fresh true) 0
            (Todos.POST_todos (Todos.mkBody (Js.Str " a ") Js.Undefined)))) = 201.
Proof.
  assert (H : snd (Todos.handle Todos.decimal (Todos.fresh true) 0
                     (Todos.POST_todos (Todos.mkBody (Js.Str " a ") Js.Undefined)))
              <> Todos.fresh true) by (vm_compute; discriminate).
  split; [exact H|].
  exact (TodoTableFacts.todo_table_changes_only_on_success Todos.decimal
           (Todos.fresh true) 0
           (Todos.POST_todos (Todos.mkBody (Js.Str " a ") Js.Undefined)) H).
Defined.

Lemma todo_ids_are_never_reused_witness :
  In Todos.sample_row (Todos.rows Todos.sample) /\
  Todos.rows (snd (Todos.handle Todos.decimal Todos.sample 1 (Todos.DELETE_todo "1"))) = [] /\
  exists t',
    Todos.body
      (fst (Todos.createTodo
              (snd (Todos.handle Todos.decimal Todos.sample 1 (Todos.DELETE_todo "1")))
              2 (Todos.mkBody (Js.Str "b") Js.Undefined)))
      = Todos.RowBody (Some t') /\
    Todos.id Todos.sample_row < Todos.id t'.
Proof.
  assert (Hin : In Todos.sample_row (Todos.rows Todos.sample)) by (left; reflexivity).
  split; [exact Hin|]. split; [reflexivity|].
  exact (TodoTableFacts.todo_ids_are_never_reused Todos.decimal Todos.sample
           (snd (Todos.handle Todos.decimal Todos.sample 1 (Todos.DELETE_todo "1")))
           Todos.sample_row 2 (Todos.mkBody (Js.Str "b") Js.Undefined) _ _
           sample_reachable Hin
           (TodoTable.leads_request Todos.decimal Todos.sample Todos.sample 1
              (Todos.DELETE_todo "1") (TodoTable.leads_refl Todos.decimal Todos.sample))
           eq_refl eq_refl).
Defined.

Lemma get_answers_with_the_stored_row_witness :
  Todos.getTodo Todos.decimal Todos.sample "1"
    = (Todos.mkResponse 200 (Todos.RowBody (Some Todos.sample_row)), Todos.sample) /\
  Todos.absent 2 Todos.sample /\
  Todos.getTodo Todos.decimal Todos.sample "2"
    = (Todos.mkResponse 404 (Todos.ErrorBody ("Todo with id " ++ "2" ++ " not found")),
       Todos.sample).
Proof.
  assert (A : Todos.absent 2 Todos.sample).
  { intros t [<-|[]]. simpl. discriminate. }
  split; [|split; [exact A|]].
  - exact (proj1 (TodoTableFacts.get_answers_with_the_stored_row Todos.decimal
                    Todos.sample "1" 1 sample_reachable eq_refl eq_refl)
             Todos.sample_row (or_introl eq_refl) eq_refl).
  - exact (proj2 (TodoTableFacts.get_answers_with_the_stored_row Todos.decimal
                    Todos.sample "2" 2 sample_reachable eq_refl eq_refl) A).
Defined.

Lemma stored_titles_are_valid_witness :
  In Todos.sample_row (Todos.rows Todos.sample) /\
  Todos.title Todos.sample_row <> ""%string /\
  Todos.has_nul (Todos.title Todos.sample_row) = false /\
  (String.length (Todos.title Todos.sample_row) <= 255)%nat.
Proof.
  assert (Hin : In Todos.sample_row (Todos.rows Todos.sample)) by (left; reflexivity).
  split; [exact Hin|].
  exact (TodoTableFacts.stored_titles_are_valid Todos.decimal Todos.sample
           Todos.sample_row sample_reachable Hin).
Defined.

Lemma malformed_id_answers_500_witness :
  Todos.decimal "abc" = None /\
  Todos.getTodo Todos.decimal Todos.sample "abc"
    = (Todos.mkResponse 500
         (Todos.UnhandledError (Todos.InvalidTextRepresentation "abc")), Todos.sample) /\
  Todos.deleteTodo Todos.decimal Todos.sample "abc"
    = (Todos.mkResponse 500
         (Todos.UnhandledError (Todos.InvalidTextRepresentation "abc")), Todos.sample) /\
  Todos.updateTodo Todos.decimal Todos.sample 3 "abc"
      (Todos.mkBody Js.Undefined (Js.Bool true))
    = (Todos.mkResponse 500
         (Todos.UnhandledError (Todos.InvalidTextRepresentation "abc")), Todos.sample).
Proof.
  destruct (TodoTableFacts.malformed_id_answers_500 Todos.decimal Todos.sample 3 "abc"
              eq_refl eq_refl) as [G [D U]].
  split; [reflexivity|]. split; [exact G|]. split; [exact D|].
  exact (U (Todos.mkBody Js.Undefined (Js.Bool true)) eq_refl).
Defined.

(** The table of three todos: what it holds, that the service reaches it and
    that its rows were created at different instants. *)
Example three_todos_is :
  TodoTable.three_todos
    = Todos.mkDb true [Todos.sample_row; TodoTable.second_todo; TodoTable.third_todo] 4.
Proof. reflexivity. Qed.

Lemma three_todos_reachable : Todos.reachable Todos.decimal TodoTable.three_todos.
Proof.
  exact (Todos.reachable_request Todos.decimal _ 9
           (Todos.POST_todos (Todos.mkBody (Js.Str "c") Js.Undefined))
           (Todos.reachable_request Todos.decimal Todos.sample 5
              (Todos.POST_todos (Todos.mkBody (Js.Str "b") Js.Undefined))
              sample_reachable)).
Defined.

Lemma three_todos_distinct : TodoTable.distinct_times TodoTable.three_todos.
Proof.
  unfold TodoTable.distinct_times. rewrite three_todos_is. simpl.
  apply NoDup_cons; [intros [H|[H|[]]]; discriminate|].
  apply NoDup_cons; [intros [H|[]]; discriminate|].
  apply NoDup_cons; [intros []|apply NoDup_nil].
Defined.

Lemma three_shown_in_sync : TodoApp.in_sync TodoApp.three_shown TodoTable.three_todos.
Proof. reflexivity. Defined.

Lemma decimal_reads_back_2 (k' : Z) :
  Todos.decimal (TodoApp.template 2) = Some k' -> k' = 2.
Proof. intros H. vm_compute in H. injection H as <-. reflexivity. Defined.

(** [DELETE /todos/2], [PUT /todos/2] with [{completed: true}] and a POST of
    ["d"], each on the table of three todos at the instant 12: the todo in
    the middle of the list goes, or is replaced where it stands, and the new
    one comes first. *)
Lemma list_after_a_change_witness :
  Todos.reachable Todos.decimal TodoTable.three_todos /\
  TodoTable.distinct_times TodoTable.three_todos /\
  [TodoTable.third_todo; TodoTable.second_todo; Todos.sample_row]
    = TodoTable.listed TodoTable.three_todos /\
  (exists k,
      Todos.decimal "2" = Some k /\
      TodoTable.listed (snd (Todos.deleteTodo Todos.decimal TodoTable.three_todos "2"))
        = filter (fun t => negb (Todos.id t =? k))
                 (TodoTable.listed TodoTable.three_todos)) /\
  (exists k t,
      Todos.decimal "2" = Some k /\
      Todos.body (fst (Todos.updateTodo Todos.decimal TodoTable.three_todos 12 "2"
                         (Todos.mkBody Js.Undefined (Js.Bool true))))
        = Todos.RowBody (Some t) /\
      Todos.id t = k /\
      TodoTable.listed (snd (Todos.updateTodo Todos.decimal TodoTable.three_todos 12 "2"
                               (Todos.mkBody Js.Undefined (Js.Bool true))))
        = map (fun u => if Todos.id u =? k then t else u)
              (TodoTable.listed TodoTable.three_todos)) /\
  (exists t,
      Todos.body (fst (Todos.createTodo TodoTable.three_todos 12
                         (Todos.mkBody (Js.Str "d") Js.Undefined)))
        = Todos.RowBody (Some t) /\
      TodoTable.listed (snd (Todos.createTodo TodoTable.three_todos 12
                               (Todos.mkBody (Js.Str "d") Js.Undefined)))
        = t :: TodoTable.listed TodoTable.three_todos).
Proof.
  destruct (TodoTableFacts.list_after_a_change Todos.decimal TodoTable.three_todos 12
              three_todos_reachable three_todos_distinct) as [U [D [P C]]].
  split; [exact three_todos_reachable|]. split; [exact three_todos_distinct|].
  split; [|split; [|split]].
  - apply (U eq_refl).
    + rewrite three_todos_is. simpl.
      apply perm_trans
        with [TodoTable.second_todo; Todos.sample_row; TodoTable.third_todo];
        [apply perm_swap|].
      apply perm_trans
        with [TodoTable.second_todo; TodoTable.third_todo; Todos.sample_row];
        [apply perm_skip, perm_swap|apply perm_swap].
    + unfold Todos.newest_first.
      apply SSorted_cons; [apply SSorted_cons; [apply SSorted_cons; [apply SSorted_nil|]|]|].
      * apply Forall_nil.
      * apply Forall_cons; [simpl; lia|apply Forall_nil].
      * apply Forall_cons; [simpl; lia|]. apply Forall_cons; [simpl; lia|apply Forall_nil].
  - exact (proj2 (D "2"%string _ _ eq_refl eq_refl)).
  - exact (proj2 (P "2"%string (Todos.mkBody Js.Undefined (Js.Bool true)) _ _
                    eq_refl eq_refl)).
  - apply (C (Todos.mkBody (Js.Str "d") Js.Undefined) _ _ eq_refl eq_refl).
    rewrite three_todos_is. simpl.
    apply Forall_cons; [reflexivity|]. apply Forall_cons; [reflexivity|].
    apply Forall_cons; [reflexivity|apply Forall_nil].
Defined.

(** The page that shows the three todos stays in step with the table through
    a reload, a create, an update and a delete of the todo in the middle. *)
Lemma page_mirrors_the_table_witness :
  TodoTable.distinct_times TodoTable.three_todos /\
  TodoApp.in_sync TodoApp.three_shown TodoTable.three_todos /\
  TodoApp.in_sync
    (fst (TodoApp.loadTodos (fun _ => ""%string) (TodoApp.mkState [] true Js.Null)
            TodoTable.three_todos)) TodoTable.three_todos /\
  TodoApp.in_sync
    (fst (TodoApp.handleCreate (fun _ => ""%string) TodoApp.three_shown
            TodoTable.three_todos 12 "d"))
    (snd (TodoApp.handleCreate (fun _ => ""%string) TodoApp.three_shown
            TodoTable.three_todos 12 "d")) /\
  TodoApp.in_sync
    (fst (TodoApp.handleUpdate Todos.decimal (fun _ => ""%string) TodoApp.three_shown
            TodoTable.three_todos 12 2 (Todos.mkBody Js.Undefined (Js.Bool true))))
    (snd (TodoApp.handleUpdate Todos.decimal (fun _ => ""%string) TodoApp.three_shown
            TodoTable.three_todos 12 2 (Todos.mkBody Js.Undefined (Js.Bool true)))) /\
  TodoApp.in_sync
    (fst (TodoApp.handleDelete Todos.decimal (fun _ => ""%string) TodoApp.three_shown
            TodoTable.three_todos 2))
    (snd (TodoApp.handleDelete Todos.decimal (fun _ => ""%string) TodoApp.three_shown
            TodoTable.three_todos 2)) /\
  TodoApp.todos
    (fst (TodoApp.handleDelete Todos.decimal (fun _ => ""%string) TodoApp.three_shown
            TodoTable.three_todos 2))
    = map TodoApp.row [TodoTable.third_todo; Todos.sample_row].
Proof.
  pose proof (TodoAppFacts.page_mirrors_the_table Todos.decimal (fun _ => ""%string)
                (TodoApp.mkState [] true Js.Null) TodoTable.three_todos 12
                three_todos_distinct) as [L _].
  destruct (TodoAppFacts.page_mirrors_the_table Todos.decimal (fun _ => ""%string)
              TodoApp.three_shown TodoTable.three_todos 12 three_todos_distinct)
    as [_ [C [U D]]].
  split; [exact three_todos_distinct|]. split; [exact three_shown_in_sync|].
  split; [exact (proj1 (L eq_refl))|].
  split.
  { apply (C three_shown_in_sync "d"%string).
    rewrite three_todos_is. simpl.
    apply Forall_cons; [reflexivity|]. apply Forall_cons; [reflexivity|].
    apply Forall_cons; [reflexivity|apply Forall_nil]. }
  split.
  { exact (proj1 (U three_shown_in_sync three_todos_reachable 2
                    (Todos.mkBody Js.Undefined (Js.Bool true)) eq_refl
                    decimal_reads_back_2)). }
  split; [|reflexivity].
  exact (proj1 (D three_shown_in_sync 2 eq_refl decimal_reads_back_2)).
Defined.

(** A click on the checkbox of the second of the three todos, at the instant
    12: the todo in the middle of the list is flipped where it stands. *)
Lemma checkbox_flips_that_todo_witness :
  TodoTable.listed
    (snd (TodoApp.onChange Todos.decimal (fun _ => ""%string) TodoApp.three_shown
            TodoTable.three_todos 12 TodoTable.second_todo))
    = map (fun u => if Todos.id u =? Todos.id TodoTable.second_todo
                    then Todos.mkTodo (Todos.id TodoTable.second_todo)
                           (Todos.title TodoTable.second_todo)
                           (negb (Todos.completed TodoTable.second_todo))
                           (Todos.created_at TodoTable.second_todo) 12
                    else u) (TodoTable.listed TodoTable.three_todos) /\
  TodoTable.listed
    (snd (TodoApp.onChange Todos.decimal (fun _ => ""%string) TodoApp.three_shown
            TodoTable.three_todos 12 TodoTable.second_todo))
    = [TodoTable.third_todo; Todos.mkTodo 2 "b" true 5 12; Todos.sample_row].
Proof.
  assert (Hin : In TodoTable.second_todo (Todos.rows TodoTable.three_todos)).
  { rewrite three_todos_is. right. left. reflexivity. }
  split; [|reflexivity].
  exact (proj1 (TodoAppFacts.checkbox_flips_that_todo Todos.decimal (fun _ => ""%string)
                  TodoApp.three_shown TodoTable.three_todos 12 TodoTable.second_todo
                  three_todos_reachable eq_refl three_todos_distinct three_shown_in_sync
                  Hin eq_refl eq_refl)).
Defined.

Lemma form_submits_acceptable_titles_witness :
  TodoApp.handleSubmit " a " = (Some "a"%string, ""%string) /\
  TodoApp.handleSubmit "  " = (None, "  "%string) /\
  Todos.status (fst (Todos.createTodo (Todos.fresh true) 0
                       (Todos.mkBody (Js.Str "a") Js.Undefined))) <> 400.
Proof.
  split; [reflexivity|]. split; [reflexivity|].
  pose proof (TodoAppFacts.form_submits_acceptable_titles " a ") as H.
  change (TodoApp.handleSubmit " a ") with (Some "a"%string, ""%string) in H.
  exact (proj1 (proj2 (proj2 (proj2 H)) (Todos.fresh true) 0)).
Defined.


(** A PUT that renames and reprices the book of the sample collection, at
    the instant 7. *)
Lemma plain_bodies_keep_the_schema_witness :
  (forall p, In p (Products.products Products.sample_store) -> ProductRules.conforms p) /\
  Products.products
    (snd (Products.handle Products.hex24 Products.sample_store 7 0
            (Products.PUT_product "507f1f77bcf86cd799439011"
               (Products.mkInput (Some " Structure ") None (Some 12) None None))))
    = [Products.mkProduct 0x507f1f77bcf86cd799439011%N "Structure" "" 12 "books" true 0 7] /\
  forall p,
    In p (Products.products
            (snd (Products.handle Products.hex24 Products.sample_store 7 0
                    (Products.PUT_product "507f1f77bcf86cd799439011"
                       (Products.mkInput (Some " Structure ") None (Some 12) None None))))) ->
    Products.name p <> ""%string /\
    (String.length (Products.name p) <= 200)%nat /\
    Js.trimmed (Products.name p) /\ Js.trimmed (Products.description p) /\
    0 <= Products.price p /\
    In (Products.category p) ["electronics"; "clothing"; "books"; "food"; "other"]%string.
Proof.
  assert (V : forall p, In p (Products.products Products.sample_store) ->
                        ProductRules.conforms p).
  { rewrite sample_store_is. intros p [<-|[]].
    split; [discriminate|]. split; [simpl; lia|].
    split; [split; reflexivity|]. split; [split; reflexivity|].
    split; [simpl; lia|]. right. right. left. reflexivity. }
  split; [exact V|]. split; [vm_compute; reflexivity|].
  exact (ProductRulesFacts.plain_bodies_keep_the_schema Products.hex24
           Products.sample_store 7 0
           (Products.PUT_product "507f1f77bcf86cd799439011"
              (Products.mkInput (Some " Structure ") None (Some 12) None None)) V).
Defined.



Lemma invalid_product_id_answers_400_witness :
  Products.hex24 "42" = None /\
  Products.getProduct Products.hex24 Products.sample_store "42"
    = (Products.mkResponse 400 (Products.ErrorBody "Invalid product ID format"),
       Products.sample_store).
Proof.
  split; [reflexivity|].
  exact (proj1 (ProductRulesFacts.invalid_product_id_answers_400 Products.hex24
                  Products.sample_store 0 "42" Products.book_input eq_refl)).
Defined.

Lemma missing_item_answers_404_witness :
  Inventory.up Inventory.sample_db = true /\
  Items.getItem (Inventory.OtherException None) Inventory.sample_db 3 2 = Items.not_found 3 2 /\
  Items.deleteItem (Inventory.OtherException None) Inventory.sample_db 3 2
    = (Items.not_found 3 2, Inventory.sample_db).
Proof.
  assert (A : forall i, In i (Inventory.items Inventory.sample_db) ->
                        Inventory.id i <> Some 2).
  { intros i [<-|[]]. simpl. discriminate. }
  destruct (ItemsFacts.missing_item_answers_404 (Inventory.OtherException None)
              (fun d _ i => inr (i, d))
              Inventory.sample_db 3 2 eq_refl A) as [G [D _]].
  split; [reflexivity|]. split; [exact G|exact D].
Defined.

Lemma deleted_item_is_gone_witness :
  Items.deleteItem (Inventory.OtherException None) Inventory.sample_db 3 1
    = (Inventory.mkResponse 204 Inventory.NoBody,
       snd (Items.deleteItem (Inventory.OtherException None) Inventory.sample_db 3 1)) /\
  Inventory.items
    (snd (Items.deleteItem (Inventory.OtherException None) Inventory.sample_db 3 1)) = [] /\
  Items.getItem (Inventory.OtherException None)
    (snd (Items.deleteItem (Inventory.OtherException None) Inventory.sample_db 3 1)) 4 1
    = Items.not_found 4 1.
Proof.
  destruct (ItemsFacts.deleted_item_is_gone (Inventory.OtherException None)
              Inventory.sample_db 3 1
              (Inventory.mkItem (Some 1) (Some "Widget") None None (Some 3)
                 (Some "WAREHOUSE_A") true (Some 0) (Some 0))
              eq_refl (or_introl eq_refl) eq_refl) as [D [_ [G _]]].
  split; [exact D|]. split; [reflexivity|exact (G 4)].
Defined.

Lemma placeholders_become_groups_witness :
  PhpRoutes.no_brace "/api/students/" = true /\
  PhpRoutes.word "id" = true /\
  PhpRouter.replace_placeholders ("/api/students/" ++ "{" ++ "id" ++ "}" ++ "") None
    = (PhpRouter.literals "/api/students/"
       ++ PhpRouter.Capture "id" :: PhpRouter.replace_placeholders "" None)%list.
Proof.
  split; [reflexivity|]. split; [reflexivity|].
  exact (proj1 (proj2 PhpRoutesFacts.placeholders_become_groups)
           "/api/students/"%string "id"%string ""%string eq_refl eq_refl).
Defined.

Lemma invoked_action_gets_the_placeholders_witness :
  Forall PhpRouter.well_formed PhpRouter.index_routes /\
  exists r,
    In r PhpRouter.index_routes /\
    PhpRouter.handler r = ("App\Controllers\StudentController"%string, "show"%string) /\
    PhpRouter.method r = PhpRouter.effective_method None "GET" /\
    map fst [("id"%string, "7"%string)] = PhpRouter.capture_names (PhpRouter.pattern r) /\
    NoDup (map fst [("id"%string, "7"%string)]) /\
    Forall PhpRoutes.segment (map snd [("id"%string, "7"%string)]) /\
    ("/api/students/7"%string
       = PhpRoutes.expand (PhpRouter.pattern r) [("id"%string, "7"%string)] \/
     "/api/students/7"%string
       = (PhpRoutes.expand (PhpRouter.pattern r) [("id"%string, "7"%string)]
          ++ PhpRoutes.LF)%string).
Proof.
  split; [exact index_routes_well_formed|].
  exact (PhpRoutesFacts.invoked_action_gets_the_placeholders PhpRouter.index_routes None
           "GET" "/api/students/7" "App\Controllers\StudentController" "show"
           [("id"%string, "7"%string)] index_routes_well_formed
           show_route_serves_student_7).
Defined.

Lemma method_case_and_override_witness :
  "post"%string <> "POST"%string /\
  PhpRouter.dispatch PhpRouter.index_routes (Some "put"%string) "post" "/api/students/7"
    = PhpRouter.dispatch PhpRouter.index_routes None "post" "/api/students/7".
Proof.
  assert (H : "post"%string <> "POST"%string) by discriminate.
  split; [exact H|].
  exact (proj2 (proj2 (proj2 (PhpRoutesFacts.method_case_and_override
                                PhpRouter.index_routes "/api/students/7")))
           "put"%string "post"%string H).
Defined.

Lemma students_routing_table_witness :
  PhpRoutes.segment "7" /\
  PhpRouter.strtoupper "put" = "PUT"%string /\
  PhpRouter.dispatch PhpRouter.index_routes None "put" ("/api/students/" ++ "7")
    = PhpRouter.Invoke PhpRoutes.StudentController "update" [("id"%string, "7"%string)].
Proof.
  assert (S : PhpRoutes.segment "7") by (split; [discriminate|reflexivity]).
  split; [exact S|]. split; [reflexivity|].
  exact (proj1 (proj2 (proj2 PhpRoutesFacts.students_routing_table))
           "put"%string "7"%string "update"%string S
           (or_intror (or_introl (conj eq_refl eq_refl)))).
Defined.

Lemma env_holds_the_last_assignment_witness :
  PhpIndex.load [] ["# database"; "DB_HOST = db"; "DB_HOST=localhost"]%string
    = Some [("DB_HOST", "localhost")]%string /\
  PhpIndex.get [("DB_HOST", "localhost")]%string "DB_HOST"
    = match PhpIndex.last_assigned
              ["# database"; "DB_HOST = db"; "DB_HOST=localhost"]%string "DB_HOST" with
      | Some v => Some v
      | None => PhpIndex.get [] "DB_HOST"
      end.
Proof.
  assert (H : PhpIndex.load [] ["# database"; "DB_HOST = db"; "DB_HOST=localhost"]%string
              = Some [("DB_HOST", "localhost")]%string) by reflexivity.
  split; [exact H|].
  exact (proj1 (PhpIndexFacts.env_holds_the_last_assignment
                  ["# database"; "DB_HOST = db"; "DB_HOST=localhost"]%string [])
           _ H "DB_HOST"%string).
Defined.

Lemma env_line_splits_at_the_first_equals_witness :
  PhpIndex.no_equals "DSN " = true /\
  PhpIndex.assignment "DSN = a=b # c"
    = Some (PhpIndex.trim "DSN ", PhpIndex.trim " a=b # c") /\
  PhpIndex.trim " a=b # c" = "a=b # c"%string.
Proof.
  split; [reflexivity|]. split; [|reflexivity].
  exact (proj1 (proj2 (proj2 (PhpIndexFacts.env_line_splits_at_the_first_equals
                                "DSN = a=b # c")))
           "DSN "%string " a=b # c"%string eq_refl eq_refl eq_refl).
Defined.

Lemma users_are_listed_newest_first_witness :
  exists l,
    Users.Controller.findAll
      (Users.mkDb true [Users.mkUser 1 "Ann" "ann@example.org" "user" true 0 0;
                        Users.mkUser 2 "Bob" "bob@example.org" "admin" true 5 5])
      = Users.mkResponse 200 (Users.UserList l) /\
    Permutation
      (Users.users
         (Users.mkDb true [Users.mkUser 1 "Ann" "ann@example.org" "user" true 0 0;
                           Users.mkUser 2 "Bob" "bob@example.org" "admin" true 5 5])) l /\
    Users.newest_first l /\
    (Users.users
       (Users.mkDb true [Users.mkUser 1 "Ann" "ann@example.org" "user" true 0 0;
                         Users.mkUser 2 "Bob" "bob@example.org" "admin" true 5 5]) = [] ->
     l = []).
Proof.
  exact (UsersFacts.users_are_listed_newest_first
           (Users.mkDb true [Users.mkUser 1 "Ann" "ann@example.org" "user" true 0 0;
                             Users.mkUser 2 "Bob" "bob@example.org" "admin" true 5 5])
           eq_refl).
Defined.

Lemma missing_user_answers_404_witness :
  Users.Controller.findOne
    (Users.mkDb true [Users.mkUser 1 "Ann" "ann@example.org" "user" true 0 0]) 2
    = Users.not_found 2 /\
  Users.Controller.remove
    (Users.mkDb true [Users.mkUser 1 "Ann" "ann@example.org" "user" true 0 0]) 1
    = (Users.mkResponse 204 Users.NoBody, Users.mkDb true []).
Proof.
  split.
  - apply (proj1 (UsersFacts.missing_user_answers_404 unit (fun u _ => u)
                    (fun d _ u => inr (u, d))
                    (Users.mkDb true [Users.mkUser 1 "Ann" "ann@example.org" "user" true 0 0])
                    0 2 eq_refl eq_refl)).
    intros u [<-|[]]. simpl. discriminate.
  - exact (proj1 (proj2 (UsersFacts.missing_user_answers_404 unit (fun u _ => u)
                           (fun d _ u => inr (u, d))
                           (Users.mkDb true
                              [Users.mkUser 1 "Ann" "ann@example.org" "user" true 0 0])
                           0 1 eq_refl eq_refl)
                    (Users.mkUser 1 "Ann" "ann@example.org" "user" true 0 0)
                    (or_introl eq_refl) eq_refl)).
Defined.

End Examples.
